(** * Video acquisition pipeline, retrying MCP connector and event logger

    A shallow embedding of three pieces of the repository:

    - [kg_pipeline/client_logger.py]: [clean_result] and [log_event];
    - [mcp/YouTube_MCP_Autogen_based_client.py]: [RetryingMCPClient];
    - [mcp/Youtube_mcp_server.py]: the stage functions,
      [ensure_video_content] and the [summarize_youtube_video] tool.

    Python values are modelled as follows.  A [str] is a [string]; the value
    produced by [json.loads] is a [json] tree whose objects keep their
    members in insertion order; an exception is an [exn] carrying its class
    and its [str(e)]; a call that may raise returns a [result].
    Library behaviour that is not part of the repository ([str.strip],
    [repr], [json.loads], the HTTP and subprocess collaborators, ...) is a
    [Variable] of the enclosing section. *)

From Stdlib Require Import ZArith List.
From stdpp Require Import gmap strings list fin_maps pretty.
Import ListNotations.

#[local] Set Warnings "-register-all".
#[local] Open Scope string_scope.
#[local] Open Scope list_scope.

(** ** Python prelude *)

(** Exception classes, as far as the code tells them apart. *)
Inductive exn_class :=
| RuntimeError | ValueError | TypeError | KeyError | IndexError
| AttributeError | FileNotFoundError
| TranscriptsDisabled | NoTranscriptFound
| OtherError.

(** An exception object with the attributes the code reads: [str(e)], and
    [e.stdout], [e.stderr] of a [subprocess.CalledProcessError],
    [e.response.text] of a [requests.exceptions.RequestException] (or a
    subclass; [None] when [e.response] is [None]). *)
Inductive exn :=
| PyError (cls : exn_class) (msg : string)
| CalledProcessError (msg stdout stderr : string)
| RequestException (msg : string) (response_text : option string).

Definition exn_str (e : exn) : string :=
  match e with
  | PyError _ msg => msg
  | CalledProcessError msg _ _ => msg
  | RequestException msg _ => msg
  end.

(** Outcome of a call that may raise. *)
Inductive result (A : Type) :=
| Ok (a : A)
| Raise (e : exn).
Arguments Ok {A} a.
Arguments Raise {A} e.

Definition is_ok {A} (r : result A) : bool :=
  match r with Ok _ => true | Raise _ => false end.

#[global] Instance result_ret : MRet result := @Ok.
#[global] Instance result_bind : MBind result :=
  fun A B k r => match r with Ok a => k a | Raise e => Raise e end.

(** The one-character string ["\n"]. *)
Definition nl : string := String (Ascii.ascii_of_nat 10) EmptyString.

(** [sep.join(parts)]. *)
Definition str_join (sep : string) (parts : list string) : string :=
  String.concat sep parts.

(** [needle in hay] for two [str]. *)
Fixpoint str_contains (needle hay : string) : bool :=
  if String.prefix needle hay then true
  else match hay with
       | EmptyString => false
       | String _ rest => str_contains needle rest
       end.

(** [s[n:]]. *)
Fixpoint str_drop (n : nat) (s : string) : string :=
  match n, s with
  | O, _ => s
  | S n', String _ rest => str_drop n' rest
  | S _, EmptyString => EmptyString
  end.

(** [s.split(sep)[0]]: the text before the first occurrence of [sep]. *)
Fixpoint split_head (sep s : string) : string :=
  if String.prefix sep s then EmptyString
  else match s with
       | EmptyString => EmptyString
       | String c rest => String c (split_head sep rest)
       end.

(** The text after the first occurrence of [sep], when there is one. *)
Fixpoint split_tail (sep s : string) : option string :=
  if String.prefix sep s then Some (str_drop (String.length sep) s)
  else match s with
       | EmptyString => None
       | String _ rest => split_tail sep rest
       end.

(** [s.split(sep)[1]]: [IndexError] when [sep] does not occur. *)
Definition split_second (sep s : string) : option string :=
  split_head sep <$> split_tail sep s.

(** Reading in text mode: ["\r\n"] and a lone ["\r"] become ["\n"]. *)
Fixpoint universal_newlines (s : string) : string :=
  match s with
  | EmptyString => EmptyString
  | String c rest =>
      if Ascii.eqb c (Ascii.ascii_of_nat 13) then
        match rest with
        | String c' rest' =>
            if Ascii.eqb c' (Ascii.ascii_of_nat 10) then
              String (Ascii.ascii_of_nat 10) (universal_newlines rest')
            else String (Ascii.ascii_of_nat 10) (universal_newlines rest)
        | EmptyString => String (Ascii.ascii_of_nat 10) EmptyString
        end
      else String c (universal_newlines rest)
  end.

(** [f.readlines()] on text read in text mode: the lines, each with its
    ["\n"], the last one possibly without. *)
Fixpoint readlines (s : string) : list string :=
  match s with
  | EmptyString => []
  | String c rest =>
      if Ascii.eqb c (Ascii.ascii_of_nat 10) then String c EmptyString :: readlines rest
      else match readlines rest with
           | [] => [String c EmptyString]
           | line :: lines => String c line :: lines
           end
  end.

(** A [str] is kept as its UTF-8 bytes; a byte [10xxxxxx] continues the
    character before it. *)
Definition is_continuation (c : Ascii.ascii) : bool :=
  let n := Ascii.nat_of_ascii c in Nat.leb 128 n && Nat.ltb n 192.

(** [s[:n]]: the first [n] characters. *)
Fixpoint take_chars (n : nat) (s : string) : string :=
  match s with
  | EmptyString => EmptyString
  | String c rest =>
      if is_continuation c then String c (take_chars n rest)
      else match n with
           | O => EmptyString
           | S n' => String c (take_chars n' rest)
           end
  end.

(** [range(a, b)]. *)
Definition py_range (a b : Z) : list Z :=
  map (fun i => (a + Z.of_nat i)%Z) (seq 0 (Z.to_nat (b - a))).

(** ** JSON values, as [json.loads] builds them *)

Inductive json :=
| JNull
| JBool (b : bool)
| JInt (z : Z)
| JFloat (r : string)          (* a float, kept as its [repr] *)
| JStr (s : string)
| JList (items : list json)
| JDict (members : list (string * json)).

(** [key in d] and [d[key]] on a dict whose members are in insertion
    order. *)
Fixpoint dict_get (key : string) (d : list (string * json)) : option json :=
  match d with
  | [] => None
  | (k, v) :: rest => if String.eqb k key then Some v else dict_get key rest
  end.

(** [dict_get] fused with a continuation, so that a recursive function on
    [json] may descend into the member it finds. *)
Definition dict_find {A} (f : json -> A) (key : string) :=
  fix go (d : list (string * json)) : option A :=
    match d with
    | [] => None
    | (k, v) :: rest => if String.eqb k key then Some (f v) else go rest
    end.

(** [[v for v in d.values() if isinstance(v, str)]]. *)
Fixpoint dict_str_values (d : list (string * json)) : list string :=
  match d with
  | [] => []
  | (_, JStr s) :: rest => s :: dict_str_values rest
  | _ :: rest => dict_str_values rest
  end.

(** The payload [{"content": [{"text": "a"}, {"text": "b"}]}]. *)
Definition two_texts : json :=
  JDict [("content", JList [JDict [("text", JStr "a")]; JDict [("text", JStr "b")]])].

Definition is_list (v : json) : bool :=
  match v with JList _ => true | _ => false end.


(** [bool(v)]. *)
Definition py_truthy (v : json) : bool :=
  match v with
  | JNull => false
  | JBool b => b
  | JInt z => negb (Z.eqb z 0)
  | JFloat r => negb (String.eqb r "0.0" || String.eqb r "-0.0")
  | JStr s => negb (String.eqb s "")
  | JList items => match items with [] => false | _ => true end
  | JDict members => match members with [] => false | _ => true end
  end.

(** [v == key] for a [str] [key]. *)
Definition json_is_str (key : string) (v : json) : bool :=
  match v with JStr s => String.eqb s key | _ => false end.

(** ** Logging *)

(** The levels the code logs at ([logger.exception] logs at [ERROR];
    [logger.debug] is below the configured level and emits nothing). *)
Inductive level := INFO | WARNING | ERROR.

Record log_record := LogRecord { lvl : level; msg : string }.

(** ** Data of [client_logger.py] *)

(** An event of the conversation stream, as far as [log_event] looks at it:
    [str(event)] and the [content] attribute. *)
Inductive content_attr :=
| NoContent                   (* [hasattr(event, "content")] is false *)
| ContentObject               (* not a [str]: [json.loads] raises [TypeError] *)
| ContentStr (s : string).

Record event := Event { ev_str : string; ev_content : content_attr }.

(** The function attribute [log_event._last_tool_result] ([None] is Python's
    [None], which is also what a missing attribute is first set to), the
    strings handed to [print] and the messages handed to [logger.info]. *)
Record sink := Sink {
  _last_tool_result : option string;
  console : list string;
  logfile : list string
}.

(** The state of a fresh process. *)
Definition fresh_sink : sink := Sink None [] [].

(** The category [log_event] puts an event in. *)
Inductive kind :=
| UserInputRequested | ToolCallRequested | ToolCallExecuted
| ToolCallSummary | TextMessage | TaskResult | Other.

(** ** Data of [YouTube_MCP_Autogen_based_client.py] *)

(** What [RetryingMCPClient.connect] does to the outside, in order. *)
Inductive effect (delay : Type) :=
| Discover                        (* [await mcp_server_tools(server_params)] *)
| Sleep (d : delay)               (* [await asyncio.sleep(d)] *)
| Logged (r : log_record).
Arguments Discover {delay}.
Arguments Sleep {delay} d.
Arguments Logged {delay} r.

Definition is_io {delay} (e : effect delay) : bool :=
  match e with Logged _ => false | _ => true end.

Definition is_discover {delay} (e : effect delay) : bool :=
  match e with Discover => true | _ => false end.

(** How many times the discovery was called. *)
Definition discoveries {delay} (trace : list (effect delay)) : nat :=
  length (List.filter is_discover trace).

(** [n] calls of the discovery with a sleep of [d] between two of them. *)
Fixpoint attempts_trace {delay} (n : nat) (d : delay) : list (effect delay) :=
  match n with
  | O => []
  | S O => [Discover]
  | S n' => Discover :: Sleep d :: attempts_trace n' d
  end.

(** ** Data of [Youtube_mcp_server.py] *)

(** The tree below [OUTPUT_DIR].  A directory is named by the list of the
    path components that lead to it from [OUTPUT_DIR] ([[]] is [OUTPUT_DIR]
    itself) and holds files, name to content.  A file is addressed by its
    directory and its name: the names the code builds from a video
    identifier are taken to contain no path separator and not to be names of
    directories. *)
Abbreviation filesystem := (gmap (list string) (gmap string string)).

(** Instrumentation: the stage functions entered and the collaborators
    invoked, in order. *)
Inductive call :=
| DownloadVideo (video_id : string) (folder : list string)
| DownloadTranscript (video_id : string) (folder : list string)
| FetchMetadata (video_id : string) (folder : list string)
| GenerateSummary (video_id : string) (folder : list string)
| YtDlpVersion                                      (* [yt-dlp --version] *)
| YtDlp (video_id : string) (folder : list string)  (* the download itself *)
| GetTranscript (video_id : string)                 (* [YouTubeTranscriptApi.get_transcript] *)
| YouTubeApiGet (video_id : string)                 (* [requests.get] on the videos endpoint *)
| GeminiPost (prompt video_url : string).           (* [requests.post] on [generateContent] *)

(** The collaborators behind the stages, as opposed to the stage functions
    themselves and the [--version] probe. *)
Definition is_collaborator (c : call) : bool :=
  match c with
  | YtDlp _ _ | GetTranscript _ | YouTubeApiGet _ | GeminiPost _ _ => true
  | _ => false
  end.

Record world := World {
  fs : filesystem;
  log : list log_record;
  calls : list call
}.

(** Code that reads and writes the world and may raise. *)
Definition io (A : Type) : Type := world -> result A * world.

Definition ret {A} (a : A) : io A := fun w => (Ok a, w).

Definition raise {A} (e : exn) : io A := fun w => (Raise e, w).

Definition bind {A B} (m : io A) (k : A -> io B) : io B :=
  fun w => match m w with
           | (Ok a, w') => k a w'
           | (Raise e, w') => (Raise e, w')
           end.

(** [try: body  except Exception as e: handler]. *)
Definition try_except {A} (body : io A) (handler : exn -> io A) : io A :=
  fun w => match body w with
           | (Ok a, w') => (Ok a, w')
           | (Raise e, w') => handler e w'
           end.

(** A call that raises or returns without touching the world. *)
Definition lift {A} (r : result A) : io A := fun w => (r, w).

#[global] Instance io_ret : MRet io := @ret.
#[global] Instance io_bind : MBind io := fun A B k m => bind m k.

Definition emit (l : level) (text : string) : io unit :=
  fun w => (Ok tt, World (fs w) (log w ++ [LogRecord l text]) (calls w)).

Definition logger_info : string -> io unit := emit INFO.
Definition logger_warning : string -> io unit := emit WARNING.
Definition logger_error : string -> io unit := emit ERROR.
(** [logging.basicConfig(level=logging.INFO)]: nothing is emitted. *)
Definition logger_debug (text : string) : io unit := ret tt.

Definition record_call (c : call) : io unit :=
  fun w => (Ok tt, World (fs w) (log w) (calls w ++ [c])).

Definition get_fs : io filesystem := fun w => (Ok (fs w), w).

Definition set_fs (f : filesystem) : io unit :=
  fun w => (Ok tt, World f (log w) (calls w)).

(** The paths from [OUTPUT_DIR] down to a directory. *)
Fixpoint prefixes (p : list string) : list (list string) :=
  [] :: match p with
        | [] => []
        | c :: rest => map (cons c) (prefixes rest)
        end.

Definition mkdir (p : list string) (f : filesystem) : filesystem :=
  match f !! p with
  | Some _ => f
  | None => <[p := ∅]> f
  end.

Definition makedirs (folder : list string) (f : filesystem) : filesystem :=
  foldr mkdir f (prefixes folder).

(** [os.makedirs(folder, exist_ok=True)]. *)
Definition os_makedirs (folder : list string) : io unit :=
  f ← get_fs; set_fs (makedirs folder f).

(** The file [name] of [folder] gets the content [content]. *)
Definition put_file (folder : list string) (name content : string) (f : filesystem)
  : filesystem :=
  <[folder := <[name := content]> (default ∅ (f !! folder))]> f.

(** [text] is appended to the file [name] of [folder]. *)
Definition append_file (folder : list string) (name text : string) (f : filesystem)
  : filesystem :=
  alter (alter (fun content => content +:+ text) name) folder f.

(** The content of a file. *)
Definition file_content (f : filesystem) (folder : list string) (name : string)
  : option string :=
  f !! folder ≫= (fun files => files !! name).

Definition file_exists (f : filesystem) (folder : list string) (name : string) : bool :=
  match f !! folder with
  | Some files => match files !! name with Some _ => true | None => false end
  | None => false
  end.

(** [os.path.exists(os.path.join(folder, name))]. *)
Definition os_path_exists (folder : list string) (name : string) : io bool :=
  f ← get_fs; ret (file_exists f folder name).

(** Does some file of a directory listing have this name? *)
Definition listed (name : string) (files : gmap string string) : bool :=
  match files !! name with Some _ => true | None => false end.

(** The answer of a tool. *)
Record tool_response := ToolResponse { response_text : string; isError : bool }.

(** ** Concrete library behaviour and collaborators

    Closed values for the [Variable]s of the section below, to run the code
    on: an item whose download, metadata and generation succeed and whose
    transcripts are disabled, with a downloader and a metadata endpoint that
    fail as alternatives. *)

(** [str.strip] on text whose whitespace is ASCII. *)
Definition is_space (c : Ascii.ascii) : bool :=
  let n := Ascii.nat_of_ascii c in
  (Nat.leb 9 n && Nat.leb n 13) || (Nat.leb 28 n && Nat.leb n 32).

Fixpoint lstrip (s : string) : string :=
  match s with
  | String c rest => if is_space c then lstrip rest else s
  | EmptyString => EmptyString
  end.

Fixpoint rstrip (s : string) : string :=
  match s with
  | String c rest =>
      match rstrip rest with
      | EmptyString => if is_space c then EmptyString else String c EmptyString
      | kept => String c kept
      end
  | EmptyString => EmptyString
  end.

Definition ascii_strip (s : string) : string := rstrip (lstrip s).

(** [repr] of a value whose strings hold neither a quote nor a backslash. *)
Fixpoint simple_repr (v : json) : string :=
  match v with
  | JNull => "None"
  | JBool b => if b then "True" else "False"
  | JInt z => pretty z
  | JFloat r => r
  | JStr s => "'" +:+ s +:+ "'"
  | JList items => "[" +:+ str_join ", " (map simple_repr items) +:+ "]"
  | JDict members =>
      "{" +:+ str_join ", "
                (map (fun member =>
                        match member with
                        | (k, x) => "'" +:+ k +:+ "': " +:+ simple_repr x
                        end) members) +:+ "}"
  end.

(** [json.loads] on the texts of the examples: the empty object parses,
    prose does not ([json.JSONDecodeError] is a [ValueError]). *)
Definition demo_loads (s : string) : result json :=
  if String.eqb s "{}" then Ok (JDict [])
  else Raise (PyError ValueError "Expecting value: line 1 column 1 (char 0)").

(** [json.dumps(v, indent=2)] of the empty object, the one value the
    examples dump. *)
Definition demo_dumps (v : json) : string :=
  match v with
  | JDict [] => "{}"
  | _ => simple_repr v
  end.

Definition demo_getitem (v i : json) : result json :=
  Raise (PyError TypeError "object is not subscriptable").

Definition demo_builtin_error (operation : string) (v : json) : exn :=
  PyError TypeError ("bad operand for " +:+ operation).

Definition demo_format_exc (e : exn) : string :=
  "Traceback (most recent call last): " +:+ exn_str e.

Definition demo_join (a b : string) : string := a +:+ "/" +:+ b.

(** A walk that lists every directory of the tree. *)
Definition demo_walk (f : filesystem) : list (list string * gmap string string) :=
  map_to_list f.

Definition demo_query (url : string) : result (option string) := Ok None.

Definition demo_hms (seconds : Z) : string := "00:00:00".

Definition yt_ok (video_id : string) (folder : list string)
  : result (string * string * string) :=
  Ok ("[download] 100%", "", "MKV").

Definition yt_fail (video_id : string) (folder : list string)
  : result (string * string * string) :=
  Raise (CalledProcessError "Command returned non-zero exit status 1."
           "" "ERROR: Video unavailable").

Definition transcripts_disabled (video_id : string) : result (list (Z * string)) :=
  Raise (PyError TranscriptsDisabled "Subtitles are disabled for this video").

Definition api_ok (video_id : string) : result json :=
  Ok (JDict [("items", JList [JDict [("snippet", JDict [])]])]).

Definition api_down (video_id : string) : result json :=
  Raise (RequestException "503 Server Error: Service Unavailable" None).

Definition demo_template : option string := Some "Summarise {{ video_url }}".

Definition demo_render (source video_url video_metadata : string) : result string :=
  Ok ("Summarise " +:+ video_url).

(** A response whose first candidate is prose, not JSON. *)
Definition demo_gemini (prompt video_url : string) : result (Z * string * json) :=
  Ok (200%Z, "",
      JDict [("candidates",
              JList [JDict [("content",
                             JDict [("parts",
                                     JList [JDict [("text",
                                                    JStr "A talk about proofs.")]])])]])]).

Definition demo_url : string := "https://youtu.be/abc".

(** [OUTPUT_DIR] exists and is empty. *)
Definition demo_world : world := World (<[ [] := ∅ ]> ∅) [] [].

(** The folder of the item holds its metadata and nothing else. *)
Definition metadata_only : world :=
  World (<[ ["videos"; "abc"] := <[ "abc_metadata.json" := "{}" ]> ∅ ]>
           (<[ ["videos"] := ∅ ]> (<[ [] := ∅ ]> ∅))) [] [].

(** A discovery that fails twice and then returns two tools, and one that
    returns no tool. *)
Definition flaky (n : nat) : result (list string) :=
  if Nat.ltb n 2 then Raise (PyError OtherError "Connection closed")
  else Ok ["download_youtube_content"; "summarize_youtube_video"].

Definition no_tools (n : nat) : result (list string) := Ok [].

(** Two tool results with different texts and a chat message.  The content
    of a tool result is not a [str]. *)
Definition exec_x : event := Event "ToolCallExecutionEvent(content='x')" ContentObject.
Definition exec_y : event := Event "ToolCallExecutionEvent(content='y')" ContentObject.
Definition chat : event := Event "TextMessage(content='hi')" (ContentStr "hi").

(** The folder of the item holds its media file and nothing else. *)
Definition media_only : world :=
  World (<[ ["videos"; "abc"] := <[ "abc.mkv" := "MKV" ]> ∅ ]>
           (<[ ["videos"] := ∅ ]> (<[ [] := ∅ ]> ∅))) [] [].

(** The folder of the item holds its media file and a transcript of eleven
    lines. *)
Definition eleven_lines : string :=
  String.concat ""
    (map (fun n => "[00:00:" +:+ n +:+ "] line " +:+ n +:+ nl)
       ["00"; "01"; "02"; "03"; "04"; "05"; "06"; "07"; "08"; "09"; "10"]).

Definition with_transcript : world :=
  World (<[ ["videos"; "abc"] :=
              <[ "abc_transcript.txt" := eleven_lines ]> (<[ "abc.mkv" := "MKV" ]> ∅) ]>
           (<[ ["videos"] := ∅ ]> (<[ [] := ∅ ]> ∅))) [] [].

(** A response whose first candidate has [null] for its text. *)
Definition gemini_null (prompt video_url : string) : result (Z * string * json) :=
  Ok (200%Z, "",
      JDict [("candidates",
              JList [JDict [("content",
                             JDict [("parts", JList [JDict [("text", JNull)]])])]])]).

Section Repository.
#[local] Set Default Proof Using "Type*".

(** ** Library behaviour the code relies on *)

(** [repr(v)]; it is [str(v)] for every value that is not a [str]. *)
Variable py_repr : json -> string.
(** [str.strip]. *)
Variable strip : string -> string.
(** [json.loads] (and [json.load] on a file's text). *)
Variable json_loads : string -> result json.
(** [json.dumps(v, indent=2)]. *)
Variable json_dumps : json -> string.
(** [v[i]] where [v] is neither a dict indexed by a [str] nor a list indexed
    by an [int]. *)
Variable getitem_other : json -> json -> result json.
(** The exception of a builtin operation (["in"], ["get"], ["write"]) on a
    value it does not accept. *)
Variable builtin_error : string -> json -> exn.
(** [traceback.format_exc()] in the handler of an exception. *)
Variable format_exc : exn -> string.

(** [str(v)]. *)
Definition py_str (v : json) : string :=
  match v with
  | JStr s => s
  | _ => py_repr v
  end.

(** [v[i]]. *)
Definition py_getitem (v i : json) : result json :=
  match v, i with
  | JDict d, JStr k =>
      match dict_get k d with
      | Some x => Ok x
      | None => Raise (PyError KeyError (py_repr i))
      end
  | JList items, JInt n =>
      let pos := if (n <? 0)%Z then (Z.of_nat (length items) + n)%Z else n in
      if (pos <? 0)%Z then Raise (PyError IndexError "list index out of range")
      else match nth_error items (Z.to_nat pos) with
           | Some x => Ok x
           | None => Raise (PyError IndexError "list index out of range")
           end
  | _, _ => getitem_other v i
  end.

(** [key in v] for a [str] [key]. *)
Definition py_contains (key : string) (v : json) : result bool :=
  match v with
  | JDict d => Ok (match dict_get key d with Some _ => true | None => false end)
  | JList items => Ok (existsb (json_is_str key) items)
  | JStr s => Ok (str_contains key s)
  | _ => Raise (builtin_error "in" v)
  end.

(** [v.get(key)]. *)
Definition py_get (key : string) (v : json) : result json :=
  match v with
  | JDict d => Ok (match dict_get key d with Some x => x | None => JNull end)
  | _ => Raise (builtin_error "get" v)
  end.

(** ** [client_logger.py] *)

Fixpoint clean_result (result : json) : string :=
  match result with
  | JDict d =>
      match dict_find
              (fun content =>
                 match content with
                 | JList items => str_join nl (map clean_result items)
                 | _ => py_str content
                 end) "content" d with
      | Some s => s
      | None =>
          match dict_find py_str "text" d with
          | Some s => s
          | None => str_join nl (dict_str_values d)
          end
      end
  | JList items => str_join nl (map clean_result items)
  | JStr s => strip s
  | _ => py_str result
  end.

(** Step 1 of [log_event]: the clean text of an event. *)
Definition extract_clean (ev : event) : string :=
  let parsed :=
    match ev_content ev with
    | ContentStr s => json_loads s
    | ContentObject => Raise (PyError TypeError "")
    | NoContent => json_loads (ev_str ev)
    end in
  match parsed with
  | Ok v => clean_result v
  | Raise _ => clean_result (JStr (ev_str ev))
  end.

(** Step 3 of [log_event]: [print] when asked to, and [logger.info]. *)
Definition output (print_to_console : bool) (text : string) (s : sink) : sink :=
  Sink (_last_tool_result s)
       (if print_to_console then console s ++ [nl +:+ text] else console s)
       (logfile s ++ [text]).

Definition set_last (clean : string) (s : sink) : sink :=
  Sink (Some clean) (console s) (logfile s).

(** [clean == log_event._last_tool_result]. *)
Definition same_as_last (clean : string) (s : sink) : bool :=
  match _last_tool_result s with
  | Some last => String.eqb clean last
  | None => false
  end.

Definition log_event (print_to_console : bool) (ev : event) (s : sink) : sink :=
  let clean := extract_clean ev in
  if str_contains "UserInputRequestedEvent" (ev_str ev) then
    output print_to_console "[System]: Waiting for user input..." s
  else if str_contains "ToolCallRequestEvent" (ev_str ev) then
    output print_to_console "[System]: Calling tool..." s
  else if str_contains "ToolCallExecutionEvent" (ev_str ev) then
    if same_as_last clean s then s
    else output print_to_console ("📡 " +:+ clean) (set_last clean s)
  else if str_contains "ToolCallSummaryMessage" (ev_str ev) then
    if same_as_last clean s then s
    else output print_to_console ("✅ " +:+ clean) (set_last clean s)
  else if str_contains "TextMessage" (ev_str ev) then
    output print_to_console clean s
  else if str_contains "TaskResult" (ev_str ev) then
    output print_to_console "[System]: Task completed." s
  else
    output print_to_console clean s.

(** The branch of [log_event] an event takes. *)
Definition kind_of (ev : event) : kind :=
  if str_contains "UserInputRequestedEvent" (ev_str ev) then UserInputRequested
  else if str_contains "ToolCallRequestEvent" (ev_str ev) then ToolCallRequested
  else if str_contains "ToolCallExecutionEvent" (ev_str ev) then ToolCallExecuted
  else if str_contains "ToolCallSummaryMessage" (ev_str ev) then ToolCallSummary
  else if str_contains "TextMessage" (ev_str ev) then TextMessage
  else if str_contains "TaskResult" (ev_str ev) then TaskResult
  else Other.

Definition is_tool_result (ev : event) : bool :=
  match kind_of ev with
  | ToolCallExecuted | ToolCallSummary => true
  | _ => false
  end.

(** The decoration in front of a tool result. *)
Definition marker (k : kind) : string :=
  match k with
  | ToolCallExecuted => "📡 "
  | ToolCallSummary => "✅ "
  | _ => ""
  end.

(** Whether [log_event] returns early, with neither print nor log. *)
Definition suppressed (ev : event) (s : sink) : bool :=
  is_tool_result ev && same_as_last (extract_clean ev) s.

(** [async for event in stream: log_event(logger, event, flag)]. *)
Definition log_events (print_to_console : bool) (evs : list event) (s : sink) : sink :=
  fold_left (fun acc ev => log_event print_to_console ev acc) evs s.

(** Several conversation streams consumed by one process: every event is
    tagged with the stream it belongs to.  [decisions who evs s] lists, for
    the events of stream [who], whether each was suppressed. *)
Fixpoint decisions (print_to_console : bool) (who : nat)
  (evs : list (nat * event)) (s : sink) : list bool :=
  match evs with
  | [] => []
  | (owner, ev) :: rest =>
      (if Nat.eqb owner who then [suppressed ev s] else [])
        ++ decisions print_to_console who rest (log_event print_to_console ev s)
  end.

Definition events_of (who : nat) (evs : list (nat * event)) : list (nat * event) :=
  List.filter (fun oe => Nat.eqb (fst oe) who) evs.

(** ** [RetryingMCPClient] *)

(** The tool adapters [mcp_server_tools] returns. *)
Variable tool : Type.
(** Python's [float], with [str] on it. *)
Variable float : Type.
Variable float_str : float -> string.
(** What the [n]-th call of [mcp_server_tools] does, counting from 0 over
    the life of the process. *)
Variable mcp_server_tools : nat -> result (list tool).

Record RetryingMCPClient := Client {
  server_path : string;
  max_retries : Z;
  retry_delay : float;
  tools : option (list tool)
}.

(** [RetryingMCPClient(server_path, max_retries, retry_delay)]. *)
Definition new_client (path : string) (retries : Z) (delay : float) : RetryingMCPClient :=
  Client path retries delay None.

Definition set_tools (ts : list tool) (c : RetryingMCPClient) : RetryingMCPClient :=
  Client (server_path c) (max_retries c) (retry_delay c) (Some ts).

(** The body of the [for attempt in ...] loop of [connect], over the
    attempts still to make.  [trace] is what happened so far, oldest first;
    the number of [Discover] in it tells which call comes next.  Leaving
    the loop without [return] or [raise] makes [connect] return [None]. *)
Fixpoint connect_loop (attempts : list Z) (c : RetryingMCPClient)
  (trace : list (effect float))
  : result (option (list tool)) * RetryingMCPClient * list (effect float) :=
  match attempts with
  | [] => (Ok None, c, trace)
  | attempt :: rest =>
      let trace := trace ++ [Logged (LogRecord INFO
        ("Connecting to MCP server (attempt " +:+ pretty attempt +:+ "/"
           +:+ pretty (max_retries c) +:+ ")..."))] in
      let outcome := mcp_server_tools (discoveries trace) in
      let trace := trace ++ [Discover] in
      match outcome with
      | Ok ts =>
          let c := set_tools ts c in
          let trace := trace ++ [Logged (LogRecord INFO
            ("✅ Retrieved " +:+ pretty (length ts) +:+ " tools from MCP server."))] in
          (Ok (Some ts), c, trace)
      | Raise e =>
          let trace := trace ++ [Logged (LogRecord ERROR
            ("❌ Failed to connect to MCP server: " +:+ exn_str e))] in
          if (attempt <? max_retries c)%Z then
            let trace := trace ++ [Logged (LogRecord INFO
              ("Retrying in " +:+ float_str (retry_delay c) +:+ " seconds..."))] in
            let trace := trace ++ [Sleep (retry_delay c)] in
            connect_loop rest c trace
          else
            let trace := trace ++ [Logged (LogRecord ERROR
              "Maximum retry attempts reached. Could not connect to server.")] in
            (Raise e, c, trace)
      end
  end.

Definition connect (c : RetryingMCPClient) (trace : list (effect float)) :=
  connect_loop (py_range 1 (max_retries c + 1)) c trace.

Definition get_tools (c : RetryingMCPClient) : result (list tool) :=
  match tools c with
  | Some (t :: ts) => Ok (t :: ts)
  | _ => Raise (PyError RuntimeError "Not connected to MCP server. Call connect() first.")
  end.

(** ** [Youtube_mcp_server.py] *)

(** Configuration and collaborators.  A collaborator answers the same way
    every time it is asked the same thing: nothing outside the model
    changes between two runs. *)
Variable OUTPUT_DIR : string.
Variable PROMPT_TEMPLATE_PATH : string.
(** [os.path.join] on two components. *)
Variable os_path_join : string -> string -> string.
(** [os.walk(OUTPUT_DIR)]: the directories with their files, in the order
    the operating system lists them. *)
Variable os_walk : filesystem -> list (list string * gmap string string).
(** [parse_qs(urlparse(url).query).get("v", [None])[0]]. *)
Variable query_v : string -> result (option string).
(** Does [yt-dlp --version] run? *)
Variable yt_dlp_installed : bool.
(** The download: [stdout], [stderr] and the bytes of the merged [.mkv] it
    leaves in the folder, or the exception of [subprocess.run]. *)
Variable yt_dlp : string -> list string -> result (string * string * string).
(** [YouTubeTranscriptApi.get_transcript]: [int(entry['start'])] and
    [entry['text']] of every entry. *)
Variable get_transcript : string -> result (list (Z * string)).
(** [datetime.utcfromtimestamp(s).strftime('%H:%M:%S')]. *)
Variable utc_hms : Z -> string.
(** [requests.get] on the videos endpoint, [raise_for_status] and
    [response.json()]. *)
Variable youtube_api_get : string -> result json.
(** The text of the prompt template, when the file exists. *)
Variable prompt_template : option string.
(** [Template(source).render(video_url=..., video_metadata=...)]. *)
Variable render_template : string -> string -> string -> result string.
(** [requests.post] on [generateContent] for a prompt and a video URL:
    [status_code], [text] and [json()] of the response. *)
Variable gemini_post : string -> string -> result (Z * string * json).

(** The path of a directory, and of a file in it, as a [str]. *)
Definition path_str (folder : list string) : string :=
  fold_left os_path_join folder OUTPUT_DIR.

Definition file_path (folder : list string) (name : string) : string :=
  os_path_join (path_str folder) name.

(** [open(path, "w")]: the file is created, or emptied. *)
Definition open_w (folder : list string) (name : string) : io unit :=
  f ← get_fs;
  match f !! folder with
  | Some _ => set_fs (put_file folder name "" f)
  | None =>
      raise (PyError FileNotFoundError
               ("[Errno 2] No such file or directory: "
                  +:+ py_repr (JStr (file_path folder name))))
  end.

(** [f.write(text)] on a file opened by [open_w]. *)
Definition file_write (folder : list string) (name text : string) : io unit :=
  f ← get_fs;
  set_fs (append_file folder name text f).

(** [open(path, "r")] and [f.read()]. *)
Definition read_file (folder : list string) (name : string) : io string :=
  f ← get_fs;
  match file_content f folder name with
  | Some content => ret content
  | None =>
      raise (PyError FileNotFoundError
               ("[Errno 2] No such file or directory: "
                  +:+ py_repr (JStr (file_path folder name))))
  end.

Definition extract_video_id (url : string) : result string :=
  if String.eqb url "" then
    Raise (PyError ValueError ("Invalid YouTube URL: " +:+ url))
  else if str_contains "youtu.be/" url then
    match split_second "youtu.be/" url with
    | Some rest => Ok (split_head "?" rest)
    | None => Raise (PyError IndexError "list index out of range")
    end
  else
    match query_v url with
    | Raise e => Raise e
    | Ok None => Raise (PyError ValueError ("Could not extract video ID from URL: " +:+ url))
    | Ok (Some video_id) =>
        if String.eqb video_id "" then
          Raise (PyError ValueError ("Could not extract video ID from URL: " +:+ url))
        else Ok video_id
    end.

(** The search of [is_video_downloaded]: the first walked directory that
    lists the media file. *)
Definition locate (video_id : string) (f : filesystem) : option (list string) :=
  match f !! [] with
  | None => None
  | Some _ =>
      fst <$> List.find (fun entry => listed (video_id +:+ ".mkv") (snd entry)) (os_walk f)
  end.

(** The source returns the directory as a [str], and [""] when there is
    none; a walked directory is below [OUTPUT_DIR] and its path is never
    empty, so [None] stands for [""]. *)
Definition is_video_downloaded (video_id : string) : io (option (list string)) :=
  f ← get_fs;
  match locate video_id f with
  | Some root =>
      logger_info ("Found existing video " +:+ video_id +:+ " in " +:+ path_str root);;
      ret (Some root)
  | None => ret None
  end.

Definition check_yt_dlp_installed : io bool :=
  record_call YtDlpVersion;;
  if yt_dlp_installed then ret true
  else
    logger_error "yt-dlp not found. Please install it with: pip install yt-dlp";;
    ret false.

(** [subprocess.run(["yt-dlp", ...], check=True, ...)]. *)
Definition run_yt_dlp (video_id : string) (folder : list string) : io (string * string) :=
  record_call (YtDlp video_id folder);;
  match yt_dlp video_id folder with
  | Raise e => raise e
  | Ok (stdout, stderr, media) =>
      f ← get_fs;
      set_fs (put_file folder (video_id +:+ ".mkv") media f);;
      ret (stdout, stderr)
  end.

Definition download_video (video_id : string) (folder : list string) : io string :=
  record_call (DownloadVideo video_id folder);;
  installed ← check_yt_dlp_installed;
  if negb (installed : bool) then
    raise (PyError RuntimeError "yt-dlp is not installed or not available in PATH")
  else
    os_makedirs folder;;
    let path := file_path folder (video_id +:+ ".mkv") in
    present ← os_path_exists folder (video_id +:+ ".mkv");
    if (present : bool) then
      logger_info ("✅ Video already exists at " +:+ path);;
      ret path
    else
      logger_info ("📥 Starting download for video " +:+ video_id
                     +:+ " to folder " +:+ path_str folder);;
      try_except
        (out ← run_yt_dlp video_id folder;
         logger_info ("✅ yt-dlp stdout for " +:+ video_id +:+ ":" +:+ nl +:+ fst out);;
         logger_info ("✅ yt-dlp stderr for " +:+ video_id +:+ ":" +:+ nl +:+ snd out);;
         logger_info ("🎬 Download completed for " +:+ video_id);;
         ret path)
        (fun e =>
           match e with
           | CalledProcessError _ stdout stderr =>
               logger_error ("❌ yt-dlp failed for " +:+ video_id +:+ ": " +:+ exn_str e);;
               logger_error ("❌ yt-dlp stderr: " +:+ stderr);;
               logger_error ("❌ yt-dlp stdout: " +:+ stdout);;
               raise (PyError RuntimeError
                        ("Failed to download video '" +:+ video_id +:+ "': "
                           +:+ strip stderr))
           | _ => raise e
           end).

(** The lines [download_transcript] writes. *)
Definition transcript_text (entries : list (Z * string)) : string :=
  String.concat ""
    (map (fun entry => "[" +:+ utc_hms (fst entry) +:+ "] " +:+ snd entry +:+ nl) entries).

(** The result is the path of the transcript, or [None]. *)
Definition download_transcript (video_id : string) (folder : list string)
  : io (option string) :=
  record_call (DownloadTranscript video_id folder);;
  os_makedirs folder;;
  let name := video_id +:+ "_transcript.txt" in
  let path := file_path folder name in
  present ← os_path_exists folder name;
  if (present : bool) then
    logger_info ("Transcript already exists at " +:+ path);;
    ret (Some path)
  else
    try_except
      (logger_info ("Downloading transcript for " +:+ video_id);;
       record_call (GetTranscript video_id);;
       transcript ← lift (get_transcript video_id);
       open_w folder name;;
       file_write folder name (transcript_text transcript);;
       logger_info ("Transcript downloaded to " +:+ path);;
       ret (Some path))
      (fun e =>
         match e with
         | PyError TranscriptsDisabled _ | PyError NoTranscriptFound _ =>
             logger_warning ("No transcript available for " +:+ video_id
                               +:+ ": " +:+ exn_str e);;
             ret None
         | _ =>
             logger_error ("Error downloading transcript for " +:+ video_id
                             +:+ ": " +:+ exn_str e);;
             ret None
         end).

(** The lines of [fetch_metadata] between [response.json()] and the write:
    the snippet of the first item. *)
Definition metadata_snippet (video_id : string) (data : json) : result json :=
  items ← py_get "items" data;
  (if negb (py_truthy items) then
     Raise (PyError ValueError ("No video data found for ID " +:+ video_id))
   else Ok tt);;
  items ← py_getitem data (JStr "items");
  first ← py_getitem items (JInt 0);
  py_getitem first (JStr "snippet").

Definition fetch_metadata (video_id : string) (folder : list string) : io string :=
  record_call (FetchMetadata video_id folder);;
  os_makedirs folder;;
  let name := video_id +:+ "_metadata.json" in
  let path := file_path folder name in
  present ← os_path_exists folder name;
  if (present : bool) then
    logger_info ("Metadata already exists at " +:+ path);;
    ret path
  else
    try_except
      (logger_info ("Fetching metadata for " +:+ video_id);;
       record_call (YouTubeApiGet video_id);;
       data ← lift (youtube_api_get video_id);
       snippet ← lift (metadata_snippet video_id data);
       open_w folder name;;
       file_write folder name (json_dumps snippet);;
       logger_info ("Metadata saved to " +:+ path);;
       ret path)
      (fun e =>
         match e with
         | RequestException _ response =>
             logger_error ("API request failed for video " +:+ video_id
                             +:+ ": " +:+ exn_str e);;
             match response with
             | Some text => logger_error ("Response: " +:+ text)
             | None => ret tt
             end;;
             raise (PyError RuntimeError
                      ("Failed to fetch video metadata: " +:+ exn_str e))
         | _ =>
             logger_error ("Error fetching metadata for " +:+ video_id
                             +:+ ": " +:+ exn_str e);;
             raise e
         end).

(** The lines of [generate_summary] between the debug record and the
    write: the checks of the response and the text of its first
    candidate. *)
Definition generated_text (status_code : Z) (text : string) (response_json : json)
  : result json :=
  (if negb (status_code =? 200)%Z then
     Raise (PyError RuntimeError
              ("Gemini API returned status code " +:+ pretty status_code
                 +:+ ": " +:+ text))
   else Ok tt);;
  has ← py_contains "candidates" response_json;
  usable ← (if (has : bool) then
               candidates ← py_getitem response_json (JStr "candidates");
               Ok (py_truthy candidates)
             else Ok false);
  (if negb (usable : bool) then
     Raise (PyError ValueError
              ("No candidates in Gemini API response: " +:+ py_str response_json))
   else Ok tt);;
  candidates ← py_getitem response_json (JStr "candidates");
  candidate ← py_getitem candidates (JInt 0);
  content ← py_getitem candidate (JStr "content");
  parts ← py_getitem content (JStr "parts");
  part ← py_getitem parts (JInt 0);
  py_getitem part (JStr "text").

Definition generate_summary (video_id : string) (folder : list string) : io string :=
  record_call (GenerateSummary video_id folder);;
  let name := video_id +:+ ".json" in
  let json_path := file_path folder name in
  present ← os_path_exists folder name;
  if (present : bool) then
    logger_info ("Summary already exists at " +:+ json_path);;
    ret json_path
  else
    let video_url := "https://www.youtube.com/watch?v=" +:+ video_id in
    try_except
      (metadata_text ← read_file folder (video_id +:+ "_metadata.json");
       metadata ← lift (json_loads metadata_text);
       source ← match prompt_template with
                 | Some source => ret source
                 | None =>
                     raise (PyError FileNotFoundError
                              ("Prompt template not found at " +:+ PROMPT_TEMPLATE_PATH))
                 end;
       prompt ← lift (render_template source video_url (json_dumps metadata));
       logger_info ("Calling Gemini API for video " +:+ video_id);;
       record_call (GeminiPost prompt video_url);;
       response ← lift (gemini_post prompt video_url);
       let '(status_code, text, response_json) := response in
       logger_debug ("Gemini raw response: " +:+ json_dumps response_json);;
       generated ← lift (generated_text status_code text response_json);
       open_w folder name;;
       match generated with
       | JStr s => file_write folder name s
       | _ => raise (builtin_error "write" generated)
       end;;
       logger_info ("Summary generated and saved to " +:+ json_path);;
       ret json_path)
      (fun e =>
         logger_error ("❌ Failed to generate summary for " +:+ video_id
                         +:+ ": " +:+ exn_str e);;
         logger_error ("Traceback:" +:+ nl +:+ format_exc e);;
         raise (PyError RuntimeError ("Failed to generate summary: " +:+ exn_str e))).

(** [str(path)] of a path that may be [None]. *)
Definition optional_str (p : option string) : string :=
  match p with Some s => s | None => "None" end.

(** [asyncio.to_thread(f, ...)] awaited at once is the call of [f]. *)
Definition ensure_video_content (video_url : string) : io (string * list string) :=
  try_except
    (video_id ← lift (extract_video_id video_url);
     logger_info ("🔍 Extracted video ID: " +:+ video_id +:+ " from URL: " +:+ video_url);;
     found ← is_video_downloaded video_id;
     match found with
     | None =>
         let folder := ["videos"; video_id] in
         logger_info ("📥 Creating new folder for content: " +:+ path_str folder);;
         os_makedirs folder;;
         logger_info ("📥 Downloading video for " +:+ video_id);;
         video_path ← download_video video_id folder;
         logger_info ("📼 Video downloaded successfully to " +:+ video_path);;
         logger_info ("📥 Downloading transcript for " +:+ video_id);;
         transcript_path ← download_transcript video_id folder;
         logger_info ("📝 Transcript downloaded: " +:+ optional_str transcript_path);;
         logger_info ("📥 Fetching metadata for " +:+ video_id);;
         metadata_path ← fetch_metadata video_id folder;
         logger_info ("📋 Metadata fetched: " +:+ metadata_path);;
         logger_info ("📥 Generating summary for " +:+ video_id);;
         summary_path ← generate_summary video_id folder;
         logger_info ("🧠 Summary generated at: " +:+ summary_path);;
         ret (video_id, folder)
     | Some folder =>
         logger_info "📦 Content already exists. Skipping download.";;
         ret (video_id, folder)
     end)
    (fun e =>
       logger_error ("❌ Exception in `ensure_video_content` for video URL "
                       +:+ video_url +:+ ": " +:+ exn_str e);;
       logger_error ("Traceback:" +:+ nl +:+ format_exc e);;
       raise (PyError RuntimeError ("Failed to ensure video content: " +:+ exn_str e))).

Definition download_youtube_content (youtube_url : string) : io tool_response :=
  try_except
    (logger_info ("🛠️ Tool `download_youtube_content` received: " +:+ youtube_url);;
     (if String.eqb youtube_url "" then
        raise (PyError ValueError ("Invalid YouTube URL provided: " +:+ youtube_url))
      else ret tt);;
     located ← ensure_video_content youtube_url;
     ret (ToolResponse
            ("✅ Successfully downloaded and saved content for video ID "
               +:+ fst located +:+ " in " +:+ path_str (snd located))
            false))
    (fun e =>
       logger_error ("❌ Exception in `download_youtube_content`: " +:+ exn_str e);;
       logger_error ("Traceback:" +:+ nl +:+ format_exc e);;
       ret (ToolResponse
              ("❌ Failed to download YouTube content: " +:+ exn_str e +:+ nl +:+ nl
                 +:+ "Debug information for developer:" +:+ nl +:+ format_exc e)
              true)).

Definition summarize_youtube_video (youtube_url : string) : io tool_response :=
  try_except
    (logger_info ("🛠️ Tool `summarize_youtube_video` received: " +:+ youtube_url);;
     located ← ensure_video_content youtube_url;
     let video_id := fst located in
     let folder := snd located in
     present ← os_path_exists folder (video_id +:+ ".json");
     (if negb (present : bool) then
        logger_warning ("Summary not found for " +:+ video_id +:+ ". Generating now.");;
        generate_summary video_id folder;;
        ret tt
      else ret tt);;
     summary_content ← read_file folder (video_id +:+ ".json");
     ret (ToolResponse
            ("Summary of video " +:+ video_id +:+ ":" +:+ nl +:+ nl +:+ summary_content)
            false))
    (fun e =>
       logger_error ("❌ Exception in `summarize_youtube_video`: " +:+ exn_str e);;
       logger_error ("Traceback:" +:+ nl +:+ format_exc e);;
       ret (ToolResponse
              ("❌ Failed to summarize YouTube video: " +:+ exn_str e +:+ nl +:+ nl
                 +:+ "Debug information for developer:" +:+ nl +:+ format_exc e)
              true)).

(** [open(path, "r", encoding="utf-8")] and [f.read()] in text mode, on a
    file that holds UTF-8 text. *)
Definition read_text (folder : list string) (name : string) : io string :=
  content ← read_file folder name;
  ret (universal_newlines content).

Definition extract_key_moments (youtube_url : string) : io tool_response :=
  try_except
    (logger_info ("🛠️ Tool `extract_key_moments` received: " +:+ youtube_url);;
     located ← ensure_video_content youtube_url;
     let video_id := fst located in
     let folder := snd located in
     present ← os_path_exists folder (video_id +:+ "_transcript.txt");
     if negb (present : bool) then
       let warning_msg := "⚠️ Transcript not available for video " +:+ video_id
                            +:+ ". Cannot extract key moments." in
       logger_warning warning_msg;;
       ret (ToolResponse warning_msg true)
     else
       transcript ← read_text folder (video_id +:+ "_transcript.txt");
       let transcript_lines := readlines transcript in
       let key_lines :=
         if Nat.leb 10 (length transcript_lines) then firstn 10 transcript_lines
         else transcript_lines in
       let key_moments := String.concat "" key_lines in
       ret (ToolResponse
              ("Key moments from video " +:+ video_id +:+ ":" +:+ nl +:+ nl +:+ key_moments)
              false))
    (fun e =>
       logger_error ("❌ Exception in `extract_key_moments`: " +:+ exn_str e);;
       logger_error ("Traceback:" +:+ nl +:+ format_exc e);;
       ret (ToolResponse
              ("❌ Failed to extract key moments: " +:+ exn_str e +:+ nl +:+ nl
                 +:+ "Debug information for developer:" +:+ nl +:+ format_exc e)
              true)).

(** [question or "What is this video about?"] for a [question] that is
    [None] or a [str]. *)
Definition question_or_default (question : option string) : string :=
  match question with
  | Some q => if String.eqb q "" then "What is this video about?" else q
  | None => "What is this video about?"
  end.

(** The context [ask_about_youtube_video] builds from what it loaded. *)
Definition context_parts (summary transcript : string) (metadata : json) : list string :=
  (if String.eqb summary "" then [] else ["📄 Summary:" +:+ nl +:+ summary])
    ++ (if String.eqb transcript "" then []
        else ["📝 Transcript (excerpt):" +:+ nl +:+ take_chars 3000 transcript])
    ++ (if py_truthy metadata then ["📋 Metadata:" +:+ nl +:+ json_dumps metadata]
        else []).

Definition question_prompt (parts : list string) (question : string) : string :=
  "You are provided with content from a YouTube video." +:+ nl +:+ nl
    +:+ str_join (nl +:+ nl) parts +:+ nl +:+ nl
    +:+ "Now please answer the following question:" +:+ nl
    +:+ "❓ Question: " +:+ question.

Definition ask_about_youtube_video (youtube_url : string) (question : option string)
  : io tool_response :=
  try_except
    (logger_info ("🛠️ Tool `ask_about_youtube_video` received: " +:+ youtube_url
                    +:+ ", Question: " +:+ optional_str question);;
     located ← ensure_video_content youtube_url;
     let video_id := fst located in
     let folder := snd located in
     let video_url := "https://www.youtube.com/watch?v=" +:+ video_id in
     let question := question_or_default question in
     has_metadata_file ← os_path_exists folder (video_id +:+ "_metadata.json");
     metadata ← (if (has_metadata_file : bool) then
                   text ← read_text folder (video_id +:+ "_metadata.json");
                   lift (json_loads text)
                 else ret (JDict []));
     has_transcript_file ← os_path_exists folder (video_id +:+ "_transcript.txt");
     transcript ← (if (has_transcript_file : bool) then
                     read_text folder (video_id +:+ "_transcript.txt")
                   else ret "");
     has_summary_file ← os_path_exists folder (video_id +:+ ".json");
     summary ← (if (has_summary_file : bool) then
                  read_text folder (video_id +:+ ".json")
                else ret "");
     let prompt := question_prompt (context_parts summary transcript metadata) question in
     logger_info ("Sending query to Gemini API for video " +:+ video_id);;
     record_call (GeminiPost prompt video_url);;
     response ← lift (gemini_post prompt video_url);
     let '(status_code, text, response_json) := response in
     logger_debug ("Gemini raw response: " +:+ json_dumps response_json);;
     answer ← lift (generated_text status_code text response_json);
     ret (ToolResponse
            ("Answer to '" +:+ question +:+ "':" +:+ nl +:+ nl +:+ py_str answer)
            false))
    (fun e =>
       logger_error ("❌ Exception in `ask_about_youtube_video`: " +:+ exn_str e);;
       logger_error ("Traceback:" +:+ nl +:+ format_exc e);;
       ret (ToolResponse
              ("❌ Failed to answer question about video: " +:+ exn_str e +:+ nl +:+ nl
                 +:+ "Debug information for developer:" +:+ nl +:+ format_exc e)
              true)).

(** What a run added to the instrumentation. *)
Definition new_calls (before after : world) : list call :=
  drop (length (calls before)) (calls after).

(** The artifact slots of an identifier in a directory. *)
Definition has_media (f : filesystem) (folder : list string) (video_id : string) : bool :=
  file_exists f folder (video_id +:+ ".mkv").
Definition has_transcript (f : filesystem) (folder : list string) (video_id : string) : bool :=
  file_exists f folder (video_id +:+ "_transcript.txt").
Definition has_metadata (f : filesystem) (folder : list string) (video_id : string) : bool :=
  file_exists f folder (video_id +:+ "_metadata.json").
Definition has_summary (f : filesystem) (folder : list string) (video_id : string) : bool :=
  file_exists f folder (video_id +:+ ".json").

(** In every directory, a summary comes with its metadata and its media. *)
Definition slots_consistent (video_id : string) (f : filesystem) : Prop :=
  forall folder,
    has_summary f folder video_id = true ->
    has_metadata f folder video_id = true /\ has_media f folder video_id = true.

(** ** Reasoning about [io] code *)

(** What holds of the result and the world once [m] has run from [w]. *)
Definition wp {A} (m : io A) (Q : result A -> world -> Prop) (w : world) : Prop :=
  Q (m w).1 (m w).2.

(** From [w] to [w']: records and calls are only appended, every call added
    satisfies [mine], directories and files stay as they are, and the only
    file that may have appeared is [own] in [folder]. *)
Definition stage_post (w : world) (folder : list string) (own : string)
  (mine : call -> Prop) (w' : world) : Prop :=
  (exists l, log w' = log w ++ l)
  /\ (exists t, calls w' = calls w ++ t /\ Forall mine t)
  /\ (forall d, is_Some (fs w !! d) -> is_Some (fs w' !! d))
  /\ (forall d m c, file_content (fs w) d m = Some c -> file_content (fs w') d m = Some c)
  /\ (forall d m, file_exists (fs w') d m = true ->
                  file_exists (fs w) d m = true \/ (d = folder /\ m = own)).

(** The attempts of [connect] from the [first]-th on. *)
Definition attempts_from (first count : nat) : list Z :=
  map (fun i => (1 + Z.of_nat i)%Z) (seq first count).

(** ** What the stages and a run may do *)

(** The calls of each stage, started from [w] on a folder: the stage
    function itself, and its collaborator only when the artifact of the
    stage was not in the folder. *)
Definition download_calls (w : world) (video_id : string) (folder : list string)
  (c : call) : Prop :=
  c = DownloadVideo video_id folder \/ c = YtDlpVersion
  \/ (c = YtDlp video_id folder /\ has_media (fs w) folder video_id = false).

Definition transcript_calls (w : world) (video_id : string) (folder : list string)
  (c : call) : Prop :=
  c = DownloadTranscript video_id folder
  \/ (c = GetTranscript video_id /\ has_transcript (fs w) folder video_id = false).

Definition metadata_calls (w : world) (video_id : string) (folder : list string)
  (c : call) : Prop :=
  c = FetchMetadata video_id folder
  \/ (c = YouTubeApiGet video_id /\ has_metadata (fs w) folder video_id = false).

Definition summary_calls (w : world) (video_id : string) (folder : list string)
  (c : call) : Prop :=
  c = GenerateSummary video_id folder
  \/ ((exists prompt video_url, c = GeminiPost prompt video_url)
      /\ has_summary (fs w) folder video_id = false).

(** The calls [ensure_video_content] may make for an identifier, from a
    world [w]: a collaborator is asked only for an artifact that was not in
    the identifier's folder. *)
Definition ensure_calls (w : world) (video_id : string) (c : call) : Prop :=
  match c with
  | YtDlp _ _ => has_media (fs w) ["videos"; video_id] video_id = false
  | GetTranscript _ => has_transcript (fs w) ["videos"; video_id] video_id = false
  | YouTubeApiGet _ => has_metadata (fs w) ["videos"; video_id] video_id = false
  | GeminiPost _ _ => has_summary (fs w) ["videos"; video_id] video_id = false
  | _ => True
  end.

(** What holds between the world [w0] a run started from and the world [w]
    it has reached. *)
Definition pipeline_inv (w0 : world) (video_id : string) (w : world) : Prop :=
  (exists l, log w = log w0 ++ l)
  /\ (exists t, calls w = calls w0 ++ t
                /\ Forall (ensure_calls w0 video_id) t
                /\ (In (FetchMetadata video_id ["videos"; video_id]) t ->
                    has_media (fs w) ["videos"; video_id] video_id = true
                    /\ is_Some (fs w !! [])))
  /\ (forall d, is_Some (fs w0 !! d) -> is_Some (fs w !! d))
  /\ (forall d m c, file_content (fs w0) d m = Some c -> file_content (fs w) d m = Some c)
  /\ (slots_consistent video_id (fs w0) -> slots_consistent video_id (fs w)).

(** What [ensure_video_content] establishes from [w]: the invariant, and
    for a run that returns, the identifier and a folder with the media. *)
Definition ensure_post (w : world) (video_id : string)
  (r : result (string * list string)) (w' : world) : Prop :=
  pipeline_inv w video_id w'
  /\ (forall vid folder,
        r = Ok (vid, folder) ->
        vid = video_id
        /\ has_media (fs w') folder video_id = true
        /\ is_Some (fs w' !! [])).

(** From [w] to [w'] the file [own] of [folder] got the content [content],
    and nothing else changed among the files. *)
Definition wrote (w w' : world) (folder : list string) (own content : string) : Prop :=
  (forall d m,
      file_content (fs w') d m =
        if decide (d = folder /\ m = own) then Some content else file_content (fs w) d m)
  /\ (exists l, log w' = log w ++ l).

(** The answer of the transcript collaborator that the source takes for
    "no transcript": [TranscriptsDisabled] or [NoTranscriptFound]. *)
Definition transcript_unavailable (video_id reason : string) : Prop :=
  get_transcript video_id = Raise (PyError TranscriptsDisabled reason)
  \/ get_transcript video_id = Raise (PyError NoTranscriptFound reason).

(** The metadata collaborator answers with a snippet. *)
Definition metadata_available (video_id : string) (snippet : json) : Prop :=
  exists data,
    youtube_api_get video_id = Ok data /\ metadata_snippet video_id data = Ok snippet.

(** The summary stage has what it needs to write [text]: the metadata on
    disk parses, the template renders, and the response of the generation
    collaborator passes the checks with [text] as the text of its first
    candidate. *)
Definition summary_available (video_id metadata_text text prompt : string) : Prop :=
  exists metadata source status_code body response_json,
    json_loads metadata_text = Ok metadata
    /\ prompt_template = Some source
    /\ render_template source ("https://www.youtube.com/watch?v=" +:+ video_id)
         (json_dumps metadata) = Ok prompt
    /\ gemini_post prompt ("https://www.youtube.com/watch?v=" +:+ video_id)
       = Ok (status_code, body, response_json)
    /\ generated_text status_code body response_json = Ok (JStr text).

(** ** What the failing stages and the tools are stated with *)

(** What [fetch_metadata] does to the error its body raised. *)
Definition fetch_metadata_error (inner : exn) : exn :=
  match inner with
  | RequestException message _ =>
      PyError RuntimeError ("Failed to fetch video metadata: " +:+ message)
  | _ => inner
  end.

(** What a tool reads from a file of the folder when it reads it only if
    it exists: the text, or the empty string. *)
Definition loaded_text (f : filesystem) (folder : list string) (name : string) : string :=
  default "" (universal_newlines <$> file_content f folder name).

(** The level [download_transcript] logs an error of the transcript
    collaborator at. *)
Definition transcript_error_level (e : exn) : level :=
  match e with
  | PyError TranscriptsDisabled _ | PyError NoTranscriptFound _ => WARNING
  | _ => ERROR
  end.

(** The entries of the stage functions among the calls. *)
Definition is_stage (c : call) : bool :=
  match c with
  | DownloadVideo _ _ | DownloadTranscript _ _ | FetchMetadata _ _ | GenerateSummary _ _ =>
      true
  | _ => false
  end.

(** The stages of a new item, in the order [ensure_video_content] calls
    them. *)
Definition stage_order (video_id : string) : list call :=
  [DownloadVideo video_id ["videos"; video_id];
   DownloadTranscript video_id ["videos"; video_id];
   FetchMetadata video_id ["videos"; video_id];
   GenerateSummary video_id ["videos"; video_id]].

(** From [w] to [w'] the stage function [entry] was entered, once, and no
    other. *)
Definition entered (entry : call) (w w' : world) : Prop :=
  exists t, calls w' = calls w ++ entry :: t /\ List.filter is_stage t = [].

(** * Properties *)

(** ** [clean_result] and [log_event] *)

Lemma dict_find_get {A} (f : json -> A) key d :
  dict_find f key d = f <$> dict_get key d.
Proof.
  induction d as [|[k v] rest IH]; simpl; [done|].
  destruct (String.eqb k key); [done|apply IH].
Qed.

(** The equation of [clean_result] on a dict, with the lookups of the
    source. *)
Lemma clean_result_dict d :
  clean_result (JDict d) =
    match dict_get "content" d with
    | Some (JList items) => str_join nl (map clean_result items)
    | Some content => py_str content
    | None =>
        match dict_get "text" d with
        | Some text => py_str text
        | None => str_join nl (dict_str_values d)
        end
    end.
Proof.
  cbn [clean_result]. rewrite !dict_find_get.
  destruct (dict_get "content" d) as [[]|]; cbn; try reflexivity.
  destruct (dict_get "text" d); reflexivity.
Qed.

(** C5. [clean_result] follows the flattening rules in their order: a dict
    with a [content] list is the newline join of its flattened elements, a
    dict with any other [content] is [str] of it, else a dict with [text] is
    [str] of it, else a dict is the newline join of its string members; a
    list is the newline join of its flattened elements; a string is
    stripped; anything else is [str] of it.  The payload
    [{"content": [{"text": "a"}, {"text": "b"}]}] flattens to ["a\nb"], also
    as the clean text of an event whose content parses to it. *)
Theorem clean_result_flattening :
  (forall d,
      clean_result (JDict d) =
        match dict_get "content" d with
        | Some (JList items) => str_join nl (map clean_result items)
        | Some content => py_str content
        | None =>
            match dict_get "text" d with
            | Some text => py_str text
            | None => str_join nl (dict_str_values d)
            end
        end)
  /\ (forall items, clean_result (JList items) = str_join nl (map clean_result items))
  /\ (forall s, clean_result (JStr s) = strip s)
  /\ clean_result JNull = py_str JNull
  /\ (forall b, clean_result (JBool b) = py_str (JBool b))
  /\ (forall z, clean_result (JInt z) = py_str (JInt z))
  /\ (forall r, clean_result (JFloat r) = py_str (JFloat r))
  /\ clean_result two_texts = "a" +:+ nl +:+ "b"
  /\ (forall ev text,
         ev_content ev = ContentStr text ->
         json_loads text = Ok two_texts ->
         extract_clean ev = "a" +:+ nl +:+ "b").
Proof.
  split; [exact clean_result_dict|].
  repeat split; try reflexivity.
  intros ev text Hcontent Hloads. unfold extract_clean.
  rewrite Hcontent, Hloads. reflexivity.
Qed.

Lemma same_as_last_set clean s : same_as_last clean (set_last clean s) = true.
Proof. unfold same_as_last, set_last; simpl. apply String.eqb_refl. Qed.

Lemma same_as_last_output clean p text s :
  same_as_last clean (output p text s) = same_as_last clean s.
Proof. reflexivity. Qed.

Lemma same_as_last_true clean s :
  same_as_last clean s = true <-> _last_tool_result s = Some clean.
Proof.
  unfold same_as_last. destruct (_last_tool_result s) as [last|].
  - rewrite String.eqb_eq. split; [intros ->; reflexivity|intros [= ->]; reflexivity].
  - split; discriminate.
Qed.

(** What [log_event] does with an event of one of the two deduplicated
    kinds. *)
Lemma log_event_tool_result p ev s :
  is_tool_result ev = true ->
  log_event p ev s =
    if same_as_last (extract_clean ev) s then s
    else output p (marker (kind_of ev) +:+ extract_clean ev)
                (set_last (extract_clean ev) s).
Proof.
  unfold is_tool_result, kind_of, log_event.
  repeat (destruct (str_contains _ (ev_str ev)); try discriminate);
    intros _; reflexivity.
Qed.

(** What [log_event] does with an event of any other kind: it always
    emits, and leaves the slot alone. *)
Lemma log_event_other p ev s :
  is_tool_result ev = false ->
  exists text, log_event p ev s = output p text s.
Proof.
  unfold is_tool_result, kind_of, log_event.
  repeat (destruct (str_contains _ (ev_str ev)); try discriminate);
    intros _; eexists; reflexivity.
Qed.

Lemma log_event_last p ev s :
  _last_tool_result (log_event p ev s) =
    if is_tool_result ev then Some (extract_clean ev) else _last_tool_result s.
Proof.
  destruct (is_tool_result ev) eqn:Hkind.
  - rewrite log_event_tool_result by assumption.
    destruct (same_as_last (extract_clean ev) s) eqn:Hsame; [|reflexivity].
    apply same_as_last_true. assumption.
  - destruct (log_event_other p ev s Hkind) as [text ->]. reflexivity.
Qed.

(** C4. The two tool-result kinds share the one slot
    [log_event._last_tool_result]: an event of either kind whose clean text
    equals the slot is dropped with neither print nor log record, and
    otherwise the slot takes the text and the text is emitted behind the
    marker of its kind; so of two consecutive tool results with the same
    clean text the second is dropped whatever the two kinds are, and two
    such events on a fresh process leave exactly one console line and one
    log record. *)
Theorem tool_results_deduplicated p ev1 ev2 s :
  is_tool_result ev1 = true ->
  is_tool_result ev2 = true ->
  extract_clean ev1 = extract_clean ev2 ->
  (log_event p ev1 s =
     if same_as_last (extract_clean ev1) s then s
     else output p (marker (kind_of ev1) +:+ extract_clean ev1)
                 (set_last (extract_clean ev1) s))
  /\ marker ToolCallExecuted <> marker ToolCallSummary
  /\ log_event p ev2 (log_event p ev1 s) = log_event p ev1 s
  /\ logfile (log_events p [ev1; ev2] fresh_sink)
     = [marker (kind_of ev1) +:+ extract_clean ev1]
  /\ console (log_events p [ev1; ev2] fresh_sink)
     = (if p then [nl +:+ marker (kind_of ev1) +:+ extract_clean ev1] else []).
Proof.
  intros H1 H2 Hclean.
  assert (Hsecond : forall s0, log_event p ev2 (log_event p ev1 s0) = log_event p ev1 s0).
  { intros s0. rewrite (log_event_tool_result p ev2) by assumption.
    replace (same_as_last (extract_clean ev2) (log_event p ev1 s0)) with true; [reflexivity|].
    symmetry. apply same_as_last_true.
    rewrite log_event_last, H1, Hclean. reflexivity. }
  split; [apply log_event_tool_result; assumption|].
  split; [discriminate|].
  split; [apply Hsecond|].
  unfold log_events; cbn [fold_left]. rewrite Hsecond.
  rewrite log_event_tool_result by assumption.
  cbn. destruct p; split; reflexivity.
Qed.

Lemma decisions_last p who evs s1 s2 :
  _last_tool_result s1 = _last_tool_result s2 ->
  decisions p who evs s1 = decisions p who evs s2.
Proof.
  revert s1 s2. induction evs as [|[owner ev] rest IH]; intros s1 s2 Hlast; [reflexivity|].
  cbn [decisions]. f_equal.
  - unfold suppressed, same_as_last. rewrite Hlast. reflexivity.
  - apply IH. rewrite !log_event_last, Hlast. reflexivity.
Qed.

(** C9, as the code has it.  The slot is one attribute of the function
    [log_event], shared by every stream the process consumes.  What one
    stream has suppressed is what it would have had suppressed alone as long
    as the events of the other streams are not tool results. *)
Theorem decisions_unaffected_by_other_kinds p who evs s :
  (forall owner ev, In (owner, ev) evs -> owner <> who -> is_tool_result ev = false) ->
  decisions p who evs s = decisions p who (events_of who evs) s.
Proof.
  revert s. induction evs as [|[owner ev] rest IH]; intros s Hothers; [reflexivity|].
  assert (Hrest : forall o e, In (o, e) rest -> o <> who -> is_tool_result e = false).
  { intros o e Hin. apply Hothers. right. assumption. }
  unfold events_of; cbn [decisions List.filter fst]; fold (events_of who rest).
  destruct (Nat.eqb owner who) eqn:Howner.
  - cbn [decisions]. rewrite Howner. f_equal. apply IH. assumption.
  - cbn [app]. rewrite <- (IH s Hrest). apply decisions_last.
    rewrite log_event_last.
    rewrite (Hothers owner ev); [reflexivity|left; reflexivity|].
    apply Nat.eqb_neq. assumption.
Qed.

(** ** [RetryingMCPClient] *)

Lemma py_range_attempts n : py_range 1 (n + 1) = attempts_from 0 (Z.to_nat n).
Proof. unfold py_range, attempts_from. f_equal. f_equal. lia. Qed.

Lemma discoveries_app (t1 t2 : list (effect float)) :
  discoveries (t1 ++ t2) = discoveries t1 + discoveries t2.
Proof. unfold discoveries. rewrite List.filter_app, length_app. reflexivity. Qed.

Lemma discoveries_io (t : list (effect float)) :
  discoveries (List.filter is_io t) = discoveries t.
Proof.
  unfold discoveries. induction t as [|[] rest IH]; simpl; auto.
Qed.

Lemma discoveries_attempts_trace n (d : float) :
  discoveries (attempts_trace n d) = n.
Proof.
  induction n as [|n IH]; [reflexivity|].
  destruct n as [|n]; [reflexivity|].
  change (attempts_trace (S (S n)) d) with (Discover :: Sleep d :: attempts_trace (S n) d).
  unfold discoveries in *. simpl. simpl in IH. rewrite IH. reflexivity.
Qed.

(** An attempt that is not the last one and fails: the loop logs, sleeps
    and goes on. *)
Lemma connect_loop_retry attempt rest c trace e :
  mcp_server_tools (discoveries trace) = Raise e ->
  (attempt < max_retries c)%Z ->
  exists added,
    connect_loop (attempt :: rest) c trace = connect_loop rest c (trace ++ added)
    /\ List.filter is_io added = [Discover; Sleep (retry_delay c)]
    /\ discoveries (trace ++ added) = S (discoveries trace).
Proof.
  intros Hfail Hlt. cbn [connect_loop].
  rewrite discoveries_app, Nat.add_0_r, Hfail.
  apply Z.ltb_lt in Hlt. rewrite Hlt.
  eexists [_; _; _; _; _].
  split; [rewrite <- !List.app_assoc; reflexivity|].
  split; [reflexivity|].
  rewrite discoveries_app. cbn. lia.
Qed.

(** The loop stops at the first attempt that succeeds, and at the attempt
    numbered [max_retries] when that one fails too. *)
Lemma connect_loop_stops k : forall count first c trace,
  Z.of_nat (first + count) = max_retries c ->
  k < count ->
  (forall i, i < k -> exists e, mcp_server_tools (discoveries trace + i) = Raise e) ->
  is_ok (mcp_server_tools (discoveries trace + k)) = true \/ S k = count ->
  exists added,
    connect_loop (attempts_from first count) c trace
    = (match mcp_server_tools (discoveries trace + k) with
       | Ok ts => (Ok (Some ts), set_tools ts c)
       | Raise e => (Raise e, c)
       end, trace ++ added)
    /\ List.filter is_io added = attempts_trace (S k) (retry_delay c).
Proof.
  induction k as [|k IH]; intros count first c trace Hmax Hk Hfails Hstop.
  - destruct count as [|count]; [lia|].
    unfold attempts_from; cbn [seq map connect_loop].
    rewrite discoveries_app, !Nat.add_0_r.
    destruct (mcp_server_tools (discoveries trace)) as [ts|e] eqn:Hcall.
    + eexists [_; _; _]. split; [rewrite <- !List.app_assoc; reflexivity|reflexivity].
    + destruct Hstop as [Hok|Hlast];
        [rewrite Nat.add_0_r, Hcall in Hok; discriminate|].
      replace (1 + Z.of_nat first <? max_retries c)%Z with false
        by (symmetry; apply Z.ltb_ge; lia).
      eexists [_; _; _; _]. split; [rewrite <- !List.app_assoc; reflexivity|reflexivity].
  - destruct count as [|count]; [lia|].
    destruct (Hfails 0) as [e He]; [lia|]. rewrite Nat.add_0_r in He.
    unfold attempts_from; cbn [seq map]. fold (attempts_from (S first) count).
    destruct (connect_loop_retry (1 + Z.of_nat first) (attempts_from (S first) count)
                c trace e He) as (added1 & -> & Hio1 & Hdisc); [lia|].
    destruct (IH count (S first) c (trace ++ added1)) as (added2 & Hloop & Hio2).
    + lia.
    + lia.
    + intros i Hi. rewrite Hdisc.
      destruct (Hfails (S i)) as [e' He']; [lia|].
      exists e'. rewrite <- He'. f_equal. lia.
    + rewrite Hdisc. replace (S (discoveries trace) + k) with (discoveries trace + S k) by lia.
      destruct Hstop as [Hok|Hlast]; [left; assumption|right; lia].
    + exists (added1 ++ added2). rewrite Hloop, Hdisc.
      replace (S (discoveries trace) + k) with (discoveries trace + S k) by lia.
      split; [rewrite List.app_assoc; reflexivity|].
      rewrite List.filter_app, Hio1, Hio2. reflexivity.
Qed.

(** C3. With [max_retries = n], when the discovery fails on the attempts
    before the [k]-th, and the [k]-th succeeds or is the [n]-th, [connect]
    stops there: it has called the discovery exactly [k] times, slept
    [retry_delay] between two consecutive calls and at no other time, and it
    returns the tools of the [k]-th call (cached in the client), or raises
    the error of the [n]-th call. *)
Theorem connect_retry_bound c trace k :
  1 <= k ->
  (Z.of_nat k <= max_retries c)%Z ->
  (forall i, i < k - 1 ->
     exists e, mcp_server_tools (discoveries trace + i) = Raise e) ->
  is_ok (mcp_server_tools (discoveries trace + (k - 1))) = true
    \/ Z.of_nat k = max_retries c ->
  exists added,
    connect c trace
    = (match mcp_server_tools (discoveries trace + (k - 1)) with
       | Ok ts => (Ok (Some ts), set_tools ts c)
       | Raise e => (Raise e, c)
       end, trace ++ added)
    /\ List.filter is_io added = attempts_trace k (retry_delay c)
    /\ discoveries added = k.
Proof.
  intros Hk Hn Hfails Hstop. unfold connect. rewrite py_range_attempts.
  destruct (connect_loop_stops (k - 1) (Z.to_nat (max_retries c)) 0 c trace)
    as (added & Hrun & Hio); try assumption; try lia.
  { destruct Hstop as [Hok|Hlast]; [left; assumption|right; lia]. }
  exists added. replace (S (k - 1)) with k in Hio by lia.
  split; [exact Hrun|]. split; [exact Hio|].
  rewrite <- discoveries_io, Hio. apply discoveries_attempts_trace.
Qed.

(** C10. When the discovery answers with an empty list, [connect] returns
    it and caches it, and [get_tools] on the connected client raises the
    not-connected error: its guard tests the cached list for truth. *)
Theorem get_tools_after_empty_connect c trace :
  (1 <= max_retries c)%Z ->
  mcp_server_tools (discoveries trace) = Ok [] ->
  exists added,
    connect c trace = (Ok (Some []), set_tools [] c, trace ++ added)
    /\ get_tools (set_tools [] c)
       = Raise (PyError RuntimeError "Not connected to MCP server. Call connect() first.").
Proof.
  intros Hn Hcall. unfold connect. rewrite py_range_attempts.
  destruct (connect_loop_stops 0 (Z.to_nat (max_retries c)) 0 c trace)
    as (added & Hrun & _); try lia.
  - left. rewrite Nat.add_0_r, Hcall. reflexivity.
  - rewrite Nat.add_0_r, Hcall in Hrun.
    exists added. split; [exact Hrun|reflexivity].
Qed.

(** ** The pipeline *)

(** [os.walk] lists exactly the directories of the tree. *)
Hypothesis os_walk_spec : forall (f : filesystem) root files,
  In (root, files) (os_walk f) <-> f !! root = Some files.

(** *** Rules for [wp] *)

Lemma wp_run {A} (m : io A) Q w : wp m Q w -> forall r w', m w = (r, w') -> Q r w'.
Proof. unfold wp. intros H r w' E. rewrite E in H. exact H. Qed.

Lemma wp_conseq {A} (m : io A) (Q1 Q2 : result A -> world -> Prop) w :
  wp m Q1 w -> (forall r w', Q1 r w' -> Q2 r w') -> wp m Q2 w.
Proof. unfold wp. auto. Qed.

Lemma wp_bind {A B} (m : io A) (k : A -> io B) Q w :
  wp m (fun r w' => match r with
                    | Ok a => wp (k a) Q w'
                    | Raise e => Q (Raise e) w'
                    end) w ->
  wp (m ≫= k) Q w.
Proof.
  unfold wp, mbind, io_bind, bind. destruct (m w) as [[a|e] w']; simpl; auto.
Qed.

Lemma wp_try {A} (body : io A) (handler : exn -> io A) Q w :
  wp body (fun r w' => match r with
                       | Ok a => Q (Ok a) w'
                       | Raise e => wp (handler e) Q w'
                       end) w ->
  wp (try_except body handler) Q w.
Proof.
  unfold wp, try_except. destruct (body w) as [[a|e] w']; simpl; auto.
Qed.

Lemma wp_ret {A} (a : A) (Q : result A -> world -> Prop) w : Q (Ok a) w -> wp (ret a) Q w.
Proof. auto. Qed.

Lemma wp_mret {A} (a : A) (Q : result A -> world -> Prop) w : Q (Ok a) w -> wp (mret a) Q w.
Proof. auto. Qed.

Lemma wp_raise {A} e (Q : result A -> world -> Prop) w : Q (Raise e) w -> wp (raise e) Q w.
Proof. auto. Qed.

Lemma wp_lift {A} (r : result A) (Q : result A -> world -> Prop) w : Q r w -> wp (lift r) Q w.
Proof. auto. Qed.

Lemma wp_emit l text (Q : result unit -> world -> Prop) w :
  Q (Ok tt) (World (fs w) (log w ++ [LogRecord l text]) (calls w)) -> wp (emit l text) Q w.
Proof. auto. Qed.

Lemma wp_record_call c (Q : result unit -> world -> Prop) w :
  Q (Ok tt) (World (fs w) (log w) (calls w ++ [c])) -> wp (record_call c) Q w.
Proof. auto. Qed.

Lemma wp_get_fs (Q : result filesystem -> world -> Prop) w :
  Q (Ok (fs w)) w -> wp get_fs Q w.
Proof. auto. Qed.

Lemma wp_set_fs f (Q : result unit -> world -> Prop) w :
  Q (Ok tt) (World f (log w) (calls w)) -> wp (set_fs f) Q w.
Proof. auto. Qed.

(** One step of the program at the head of a [wp] goal. *)
Ltac wp_step :=
  lazymatch goal with
  | |- wp (mbind _ _) _ _ => apply wp_bind
  | |- wp (try_except _ _) _ _ => apply wp_try
  | |- wp (mret _) _ _ => apply wp_mret
  | |- wp (ret _) _ _ => apply wp_ret
  | |- wp (raise _) _ _ => apply wp_raise
  | |- wp (lift _) _ _ => apply wp_lift
  | |- wp (emit _ _) _ _ => apply wp_emit
  | |- wp (logger_info _) _ _ => apply wp_emit
  | |- wp (logger_warning _) _ _ => apply wp_emit
  | |- wp (logger_error _) _ _ => apply wp_emit
  | |- wp (logger_debug _) _ _ => apply wp_ret
  | |- wp (record_call _) _ _ => apply wp_record_call
  | |- wp get_fs _ _ => apply wp_get_fs
  | |- wp (set_fs _) _ _ => apply wp_set_fs
  | |- wp (os_makedirs _) _ _ => unfold os_makedirs
  | |- wp (os_path_exists _ _) _ _ => unfold os_path_exists
  | |- wp check_yt_dlp_installed _ _ => unfold check_yt_dlp_installed
  | |- wp (run_yt_dlp _ _) _ _ => unfold run_yt_dlp
  | |- wp (open_w _ _) _ _ => unfold open_w
  | |- wp (file_write _ _ _) _ _ => unfold file_write
  | |- wp (read_file _ _) _ _ => unfold read_file
  | |- wp (if ?b then _ else _) _ _ => destruct b eqn:?
  | |- wp (match ?x with _ => _ end) _ _ => destruct x eqn:?
  | |- wp (let _ := _ in _) _ _ => cbv zeta
  | |- match ?r with Ok _ => _ | Raise _ => _ end => destruct r eqn:?
  end; cbn beta iota; cbn [fs log calls negb].

(** *** Files and directories *)

Lemma file_exists_true (f : filesystem) (d : list string) (m : string) :
  file_exists f d m = true <-> exists c, file_content f d m = Some c.
Proof.
  unfold file_exists, file_content. destruct (f !! d) as [files|]; simpl.
  - destruct (files !! m); split; intros H; try discriminate; eauto.
    destruct H; discriminate.
  - split; [discriminate|intros []; discriminate].
Qed.

Lemma file_exists_false (f : filesystem) (d : list string) (m : string) :
  file_exists f d m = false <-> file_content f d m = None.
Proof.
  unfold file_exists, file_content. destruct (f !! d) as [files|]; simpl.
  - destruct (files !! m); split; intros H; first [discriminate H | reflexivity].
  - split; reflexivity.
Qed.

(** A file test is a function of the content. *)
Lemma file_exists_by_content (f f' : filesystem) (d : list string) (m : string)
  (d' : list string) (m' : string) :
  (is_Some (file_content f d m) <-> is_Some (file_content f' d' m')) ->
  file_exists f d m = file_exists f' d' m'.
Proof.
  intros H. destruct (file_exists f' d' m') eqn:E.
  - apply file_exists_true. apply H. apply file_exists_true. exact E.
  - apply file_exists_false in E. apply file_exists_false.
    destruct (file_content f d m) eqn:E'; [|reflexivity].
    destruct H as [H _]. destruct H as [c Hc]; [eauto|congruence].
Qed.

Lemma file_content_mkdir (dir : list string) (f : filesystem) (d : list string) (m : string) :
  file_content (mkdir dir f) d m = file_content f d m.
Proof.
  unfold mkdir, file_content. destruct (f !! dir) eqn:Hdir; [reflexivity|].
  destruct (decide (dir = d)) as [->|Hne].
  - rewrite lookup_insert_eq, Hdir. simpl. apply lookup_empty.
  - rewrite lookup_insert_ne by assumption. reflexivity.
Qed.

Lemma file_content_makedirs (folder : list string) (f : filesystem)
  (d : list string) (m : string) :
  file_content (makedirs folder f) d m = file_content f d m.
Proof.
  unfold makedirs. induction (prefixes folder) as [|dir ps IH]; [reflexivity|].
  cbn [foldr]. rewrite file_content_mkdir. exact IH.
Qed.

Lemma file_exists_makedirs (folder : list string) (f : filesystem)
  (d : list string) (m : string) :
  file_exists (makedirs folder f) d m = file_exists f d m.
Proof. apply file_exists_by_content. rewrite file_content_makedirs. reflexivity. Qed.

Lemma dir_mkdir (dir : list string) (f : filesystem) (d : list string) :
  is_Some (mkdir dir f !! d) <-> d = dir \/ is_Some (f !! d).
Proof.
  unfold mkdir. destruct (f !! dir) eqn:Hdir.
  - split; [auto|]. intros [->|H]; [rewrite Hdir; eauto|exact H].
  - destruct (decide (dir = d)) as [->|Hne].
    + rewrite lookup_insert_eq. split; eauto.
    + rewrite lookup_insert_ne by assumption. split; [auto|].
      intros [->|H]; [contradiction|exact H].
Qed.

Lemma dir_makedirs (folder : list string) (f : filesystem) (d : list string) :
  is_Some (makedirs folder f !! d) <-> In d (prefixes folder) \/ is_Some (f !! d).
Proof.
  unfold makedirs. induction (prefixes folder) as [|dir ps IH]; cbn [foldr In].
  - split; [auto|intros [[]|H]; exact H].
  - rewrite dir_mkdir, IH.
    split; [intros [->|[H|H]]; auto|intros [[->|H]|H]; auto].
Qed.

Lemma prefixes_root (folder : list string) : In [] (prefixes folder).
Proof. destruct folder; left; reflexivity. Qed.

Lemma prefixes_self (folder : list string) : In folder (prefixes folder).
Proof.
  induction folder as [|c rest IH]; [left; reflexivity|].
  right. apply in_map. exact IH.
Qed.

Lemma file_content_put (f : filesystem) (folder : list string)
  (name content : string) (d : list string) (m : string) :
  file_content (put_file folder name content f) d m =
    if decide (d = folder /\ m = name) then Some content else file_content f d m.
Proof.
  unfold put_file, file_content. destruct (decide (d = folder)) as [->|Hd].
  - rewrite lookup_insert_eq. simpl. destruct (decide (m = name)) as [->|Hm].
    + rewrite decide_True by auto. apply lookup_insert_eq.
    + rewrite decide_False by (intros [? ?]; contradiction). rewrite lookup_insert_ne by congruence.
      destruct (f !! folder); simpl; [reflexivity|apply lookup_empty].
  - rewrite decide_False by (intros [? ?]; contradiction). rewrite lookup_insert_ne by congruence. reflexivity.
Qed.

Lemma file_exists_put (f : filesystem) (folder : list string)
  (name content : string) (d : list string) (m : string) :
  file_exists (put_file folder name content f) d m =
    bool_decide (d = folder /\ m = name) || file_exists f d m.
Proof.
  destruct (file_exists f d m) eqn:E.
  - rewrite orb_true_r. apply file_exists_true. apply file_exists_true in E as [c Hc].
    rewrite file_content_put. destruct (decide _); eauto.
  - rewrite orb_false_r. apply file_exists_false in E.
    destruct (bool_decide _) eqn:Hd.
    + apply bool_decide_eq_true in Hd. apply file_exists_true.
      rewrite file_content_put, decide_True by assumption. eauto.
    + apply bool_decide_eq_false in Hd. apply file_exists_false.
      rewrite file_content_put, decide_False by assumption. exact E.
Qed.

Lemma dir_put (f : filesystem) (folder : list string) (name content : string)
  (d : list string) :
  is_Some (put_file folder name content f !! d) <-> d = folder \/ is_Some (f !! d).
Proof.
  unfold put_file. destruct (decide (folder = d)) as [->|Hne].
  - rewrite lookup_insert_eq. split; eauto.
  - rewrite lookup_insert_ne by assumption. split; [auto|].
    intros [->|H]; [contradiction|exact H].
Qed.

Lemma file_content_append (f : filesystem) (folder : list string)
  (name text : string) (d : list string) (m : string) :
  file_content (append_file folder name text f) d m =
    if decide (d = folder /\ m = name)
    then (fun content => content +:+ text) <$> file_content f d m
    else file_content f d m.
Proof.
  unfold append_file, file_content. destruct (decide (d = folder)) as [->|Hne].
  - rewrite lookup_alter_eq. destruct (f !! folder) as [files|]; simpl.
    + destruct (decide (m = name)) as [->|Hm].
      * rewrite lookup_alter_eq. rewrite decide_True by auto. reflexivity.
      * rewrite lookup_alter_ne by congruence. rewrite decide_False by (intros [? ?]; contradiction). reflexivity.
    + destruct (decide _); reflexivity.
  - rewrite lookup_alter_ne by congruence. rewrite decide_False by (intros [? ?]; contradiction). reflexivity.
Qed.

Lemma file_exists_append (f : filesystem) (folder : list string)
  (name text : string) (d : list string) (m : string) :
  file_exists (append_file folder name text f) d m = file_exists f d m.
Proof.
  apply file_exists_by_content. rewrite file_content_append.
  destruct (decide _); [|reflexivity].
  destruct (file_content f d m); simpl; split; intros [c H]; try discriminate; eauto.
Qed.

Lemma dir_append (f : filesystem) (folder : list string) (name text : string)
  (d : list string) :
  is_Some (append_file folder name text f !! d) <-> is_Some (f !! d).
Proof.
  unfold append_file. destruct (decide (folder = d)) as [->|Hne].
  - rewrite lookup_alter_eq. destruct (f !! d); simpl; split; intros H; eauto.
  - rewrite lookup_alter_ne by assumption. reflexivity.
Qed.

(** The four file names of an identifier are different. *)
Lemma app_inv_head (a b c : string) : a +:+ b = a +:+ c -> b = c.
Proof. induction a as [|x a IH]; simpl; [auto|]. intros [= H]. auto. Qed.

Lemma names_distinct (video_id : string) :
  video_id +:+ ".mkv" <> video_id +:+ ".json"
  /\ video_id +:+ "_transcript.txt" <> video_id +:+ ".json"
  /\ video_id +:+ "_metadata.json" <> video_id +:+ ".json"
  /\ video_id +:+ ".mkv" <> video_id +:+ "_metadata.json"
  /\ video_id +:+ "_transcript.txt" <> video_id +:+ "_metadata.json"
  /\ video_id +:+ ".mkv" <> video_id +:+ "_transcript.txt".
Proof. repeat split; intros H; apply app_inv_head in H; discriminate. Qed.

(** *** Finding the media file *)

Lemma locate_some (video_id : string) (f : filesystem) (root : list string) :
  locate video_id f = Some root ->
  is_Some (f !! []) /\ has_media f root video_id = true.
Proof.
  unfold locate. destruct (f !! []) eqn:Hroot; [|discriminate].
  destruct (List.find _ (os_walk f)) as [[dir files]|] eqn:Hfind; [|discriminate].
  intros [= <-]. split; [eauto|].
  apply find_some in Hfind as [Hin Hlisted].
  apply os_walk_spec in Hin. unfold has_media, file_exists. rewrite Hin.
  exact Hlisted.
Qed.

Lemma locate_none (video_id : string) (f : filesystem) (folder : list string) :
  locate video_id f = None ->
  is_Some (f !! []) ->
  has_media f folder video_id = false.
Proof.
  unfold locate. intros Hnone [top Htop]. rewrite Htop in Hnone.
  destruct (List.find _ (os_walk f)) eqn:Hfind; [discriminate|].
  unfold has_media, file_exists. destruct (f !! folder) as [files|] eqn:Hdir; [|reflexivity].
  apply os_walk_spec in Hdir. apply (find_none _ _ Hfind) in Hdir. exact Hdir.
Qed.

Lemma locate_found (video_id : string) (f : filesystem) (folder : list string) :
  is_Some (f !! []) ->
  has_media f folder video_id = true ->
  exists root, locate video_id f = Some root.
Proof.
  intros Hroot Hmedia. destruct (locate video_id f) as [root|] eqn:Hlocate; [eauto|].
  rewrite (locate_none _ _ folder Hlocate Hroot) in Hmedia. discriminate.
Qed.

(** *** What each stage does *)

Ltac fs_simpl :=
  repeat first
    [ rewrite file_exists_put in * | rewrite file_exists_append in *
    | rewrite file_exists_makedirs in * | rewrite file_content_put in *
    | rewrite file_content_append in * | rewrite file_content_makedirs in * ].

Ltac log_goal :=
  first [ exists []; rewrite List.app_nil_r; reflexivity
        | eexists; rewrite <- ?List.app_assoc; reflexivity ].

Ltac calls_goal :=
  first [ exists []; split; [rewrite List.app_nil_r; reflexivity|constructor]
        | eexists; split;
          [rewrite <- ?List.app_assoc; reflexivity
          |cbn [app];
           repeat (apply List.Forall_cons; [solve [eauto 10]|]); apply List.Forall_nil] ].

Ltac dirs_goal :=
  let d := fresh "d" in let Hd := fresh "Hd" in
  intros d Hd;
  repeat first [rewrite dir_put | rewrite dir_append | rewrite dir_makedirs]; auto.

Ltac content_goal :=
  let d := fresh "d" in let m := fresh "m" in let c := fresh "c" in
  let Hc := fresh "Hc" in
  intros d m c Hc; fs_simpl;
  repeat match goal with
         | |- context [decide (?P)] =>
             destruct (decide P) as [[-> ->]|?];
             [exfalso;
              repeat match goal with
                     | H : file_exists _ _ _ = false |- _ => apply file_exists_false in H
                     end; congruence|]
         end;
  try assumption.

Ltac own_goal :=
  let d := fresh "d" in let m := fresh "m" in let H := fresh "H" in
  intros d m H; fs_simpl;
  repeat match type of H with
         | context [bool_decide ?P] =>
             destruct (bool_decide_reflect P); [right; assumption|cbn [orb] in H]
         end;
  try (left; assumption).

Ltac post_goal :=
  unfold stage_post; cbn [fs log calls]; fs_simpl;
  split; [log_goal|split; [calls_goal|split; [dirs_goal|split; [content_goal|own_goal]]]].


Lemma download_video_spec (video_id : string) (folder : list string) (w : world) :
  wp (download_video video_id folder)
     (fun r w' =>
        stage_post w folder (video_id +:+ ".mkv") (download_calls w video_id folder) w'
        /\ (is_ok r = true ->
            has_media (fs w') folder video_id = true /\ is_Some (fs w' !! [])))
     w.
Proof.
  unfold download_video. repeat wp_step; try discriminate.
  all: unfold download_calls, has_media in *.
  all: (split; [post_goal|]).
  all: try (intros; discriminate).
  all: cbn [fs]; intros _; fs_simpl.
  all: split; [|rewrite ?dir_put, ?dir_makedirs; auto using prefixes_root].
  - assumption.
  - rewrite bool_decide_eq_true_2 by auto. reflexivity.
Qed.


Lemma download_transcript_spec (video_id : string) (folder : list string) (w : world) :
  wp (download_transcript video_id folder)
     (fun r w' =>
        stage_post w folder (video_id +:+ "_transcript.txt")
          (transcript_calls w video_id folder) w'
        /\ is_ok r = true)
     w.
Proof.
  unfold download_transcript. repeat wp_step; try discriminate.
  all: unfold transcript_calls, has_transcript in *.
  all: (split; [post_goal|reflexivity]).
Qed.


Lemma fetch_metadata_spec (video_id : string) (folder : list string) (w : world) :
  wp (fetch_metadata video_id folder)
     (fun r w' =>
        stage_post w folder (video_id +:+ "_metadata.json")
          (metadata_calls w video_id folder) w'
        /\ (is_ok r = true -> has_metadata (fs w') folder video_id = true))
     w.
Proof.
  unfold fetch_metadata. repeat wp_step; try discriminate.
  all: unfold metadata_calls, has_metadata in *.
  all: (split; [post_goal|]).
  all: try (intros; discriminate).
  all: cbn [fs]; intros _; fs_simpl.
  - assumption.
  - rewrite bool_decide_eq_true_2 by auto. reflexivity.
Qed.


Lemma generate_summary_spec (video_id : string) (folder : list string) (w : world) :
  wp (generate_summary video_id folder)
     (fun r w' =>
        stage_post w folder (video_id +:+ ".json")
          (summary_calls w video_id folder) w'
        /\ (has_summary (fs w') folder video_id = true ->
            has_summary (fs w) folder video_id = true
            \/ has_metadata (fs w) folder video_id = true))
     w.
Proof.
  unfold generate_summary. repeat wp_step; try discriminate.
  all: unfold summary_calls, has_summary, has_metadata in *.
  all: (split; [post_goal|]).
  all: cbn [fs]; fs_simpl; try (intros; left; assumption).
  all: intros _; right; apply file_exists_true; eauto.
Qed.

(** *** The whole run *)



Lemma file_exists_persists (f f' : filesystem) :
  (forall d m c, file_content f d m = Some c -> file_content f' d m = Some c) ->
  forall d m, file_exists f d m = true -> file_exists f' d m = true.
Proof.
  intros Hkeep d m H. apply file_exists_true in H as [c Hc].
  apply file_exists_true. eauto.
Qed.

Lemma file_absent_before (f f' : filesystem) :
  (forall d m c, file_content f d m = Some c -> file_content f' d m = Some c) ->
  forall d m, file_exists f' d m = false -> file_exists f d m = false.
Proof.
  intros Hkeep d m H. destruct (file_exists f d m) eqn:E; [|reflexivity].
  apply (file_exists_persists _ _ Hkeep) in E. congruence.
Qed.

Lemma pipeline_inv_refl (w : world) (video_id : string) : pipeline_inv w video_id w.
Proof.
  split; [exists []; symmetry; apply List.app_nil_r|].
  split; [|auto].
  exists []. split; [symmetry; apply List.app_nil_r|]. split; [constructor|intros []].
Qed.

Lemma pipeline_inv_emit (w0 w : world) (video_id : string) (r : log_record) :
  pipeline_inv w0 video_id w ->
  pipeline_inv w0 video_id (World (fs w) (log w ++ [r]) (calls w)).
Proof.
  intros ([l Hl] & Hcalls & Hrest). unfold pipeline_inv. cbn [fs log calls].
  split; [|split; assumption].
  exists (l ++ [r]). rewrite Hl, List.app_assoc. reflexivity.
Qed.

Lemma slots_consistent_same (video_id : string) (f f' : filesystem) :
  (forall d m, file_exists f' d m = file_exists f d m) ->
  slots_consistent video_id f -> slots_consistent video_id f'.
Proof.
  intros Hsame Hslots folder. unfold has_summary, has_metadata, has_media.
  rewrite !Hsame. apply Hslots.
Qed.

Lemma pipeline_inv_makedirs (w0 w : world) (video_id : string) (folder : list string) :
  pipeline_inv w0 video_id w ->
  pipeline_inv w0 video_id (World (makedirs folder (fs w)) (log w) (calls w)).
Proof.
  intros (Hlog & (t & Ht & Hmine & Hreached) & Hdirs & Hfiles & Hslots).
  unfold pipeline_inv. cbn [fs log calls].
  split; [exact Hlog|]. split; [|split; [|split]].
  - exists t. split; [exact Ht|]. split; [exact Hmine|].
    intros Hin. destruct (Hreached Hin) as [Hmedia Hroot].
    unfold has_media. rewrite file_exists_makedirs, dir_makedirs. auto.
  - intros d Hd. rewrite dir_makedirs. auto.
  - intros d m c Hc. rewrite file_content_makedirs. auto.
  - intros H. apply (slots_consistent_same _ (fs w)); [|auto].
    intros d m. apply file_exists_makedirs.
Qed.

Lemma ensure_calls_before (w0 w : world) (video_id : string) (c : call) :
  (forall d m c, file_content (fs w0) d m = Some c -> file_content (fs w) d m = Some c) ->
  ensure_calls w video_id c -> ensure_calls w0 video_id c.
Proof.
  intros Hfiles. destruct c; cbn; auto;
    unfold has_media, has_transcript, has_metadata, has_summary;
    apply file_absent_before; assumption.
Qed.

(** A stage that keeps the slots consistent keeps the invariant of the
    run. *)
Lemma pipeline_inv_stage (w0 w w' : world) (video_id own : string)
  (mine : call -> Prop) :
  pipeline_inv w0 video_id w ->
  stage_post w ["videos"; video_id] own mine w' ->
  (forall c, mine c -> ensure_calls w video_id c) ->
  (slots_consistent video_id (fs w) -> slots_consistent video_id (fs w')) ->
  (forall c, mine c -> c <> FetchMetadata video_id ["videos"; video_id])
  \/ (has_media (fs w) ["videos"; video_id] video_id = true /\ is_Some (fs w !! [])) ->
  pipeline_inv w0 video_id w'.
Proof.
  intros ([l Hl] & (t & Ht & Hmine & Hreached) & Hdirs & Hfiles & Hslots)
         ([l' Hl'] & (t' & Ht' & Hmine') & Hdirs' & Hfiles' & Hown)
         Hallowed Hkeep Hmedia.
  split; [|split; [|split; [|split]]].
  - exists (l ++ l'). rewrite Hl', Hl, List.app_assoc. reflexivity.
  - exists (t ++ t'). split; [rewrite Ht', Ht, List.app_assoc; reflexivity|].
    split.
    + apply Forall_app. split; [exact Hmine|].
      apply (List.Forall_impl _ (P := mine)); [|exact Hmine'].
      intros c Hc. apply (ensure_calls_before w0 w); auto.
    + intros Hin. apply in_app_or in Hin.
      assert (Hnow : has_media (fs w) ["videos"; video_id] video_id = true
                     /\ is_Some (fs w !! [])).
      { destruct Hin as [Hin|Hin]; [auto|].
        destruct Hmedia as [Hnot|Hyes]; [|exact Hyes].
        rewrite List.Forall_forall in Hmine'. apply Hmine' in Hin.
        apply Hnot in Hin. contradiction. }
      destruct Hnow as [Hm Hr]. split; [|auto].
      apply (file_exists_persists _ _ Hfiles'). exact Hm.
  - auto.
  - auto.
  - auto.
Qed.

(** A stage that writes another file than the summary keeps the slots
    consistent. *)
Lemma slots_consistent_stage (w w' : world) (video_id own : string)
  (folder : list string) (mine : call -> Prop) :
  stage_post w folder own mine w' ->
  own <> video_id +:+ ".json" ->
  slots_consistent video_id (fs w) -> slots_consistent video_id (fs w').
Proof.
  intros (_ & _ & _ & Hfiles & Hown) Hne Hslots d Hsummary.
  unfold has_summary, has_metadata, has_media in *.
  apply Hown in Hsummary as [Hold|[_ Heq]]; [|congruence].
  destruct (Hslots d Hold) as [Hmeta Hmedia].
  split; apply (file_exists_persists _ _ Hfiles); assumption.
Qed.

(** The summary stage keeps them consistent when the media is there. *)
Lemma slots_consistent_summary (w w' : world) (video_id : string)
  (folder : list string) (mine : call -> Prop) :
  stage_post w folder (video_id +:+ ".json") mine w' ->
  (has_summary (fs w') folder video_id = true ->
   has_summary (fs w) folder video_id = true
   \/ has_metadata (fs w) folder video_id = true) ->
  has_media (fs w) folder video_id = true ->
  slots_consistent video_id (fs w) -> slots_consistent video_id (fs w').
Proof.
  intros (_ & _ & _ & Hfiles & Hown) Hnew Hmedia Hslots d Hsummary.
  unfold has_summary, has_metadata, has_media in *.
  assert (Hold : file_exists (fs w) d (video_id +:+ "_metadata.json") = true
                 /\ file_exists (fs w) d (video_id +:+ ".mkv") = true).
  { destruct (Hown _ _ Hsummary) as [Hold|[-> _]]; [exact (Hslots d Hold)|].
    destruct (Hnew Hsummary) as [Hold|Hmeta]; [exact (Hslots folder Hold)|auto]. }
  destruct Hold. split; apply (file_exists_persists _ _ Hfiles); assumption.
Qed.

(** One record of the run, with the invariant carried along. *)
Ltac emit_inv Hinv :=
  unfold logger_info, logger_warning, logger_error;
  lazymatch goal with
  | |- wp (mbind _ (emit ?l ?t)) _ _ =>
      apply wp_bind, wp_emit; cbn beta iota; cbn [fs log calls];
      apply (pipeline_inv_emit _ _ _ (LogRecord l t)) in Hinv;
      cbn [fs log calls] in Hinv
  end.

(** The handler of [ensure_video_content]. *)
Ltac ensure_raise Hinv :=
  repeat emit_inv Hinv; apply wp_raise;
  split; [exact Hinv|intros ? ? [=]].


Lemma media_persists (w w' : world) (video_id own : string) (folder : list string)
  (mine : call -> Prop) :
  stage_post w folder own mine w' ->
  has_media (fs w) folder video_id = true /\ is_Some (fs w !! []) ->
  has_media (fs w') folder video_id = true /\ is_Some (fs w' !! []).
Proof.
  intros (_ & _ & Hdirs & Hfiles & _) [Hmedia Hroot]. split; [|auto].
  apply (file_exists_persists _ _ Hfiles). exact Hmedia.
Qed.

Lemma download_calls_allowed (w : world) (video_id : string) (c : call) :
  download_calls w video_id ["videos"; video_id] c ->
  ensure_calls w video_id c
  /\ c <> FetchMetadata video_id ["videos"; video_id].
Proof. intros [->|[->|[-> H]]]; cbn; auto. Qed.

Lemma transcript_calls_allowed (w : world) (video_id : string) (c : call) :
  transcript_calls w video_id ["videos"; video_id] c ->
  ensure_calls w video_id c
  /\ c <> FetchMetadata video_id ["videos"; video_id].
Proof. intros [->|[-> H]]; cbn; auto. Qed.

Lemma metadata_calls_allowed (w : world) (video_id : string) (c : call) :
  metadata_calls w video_id ["videos"; video_id] c -> ensure_calls w video_id c.
Proof. intros [->|[-> H]]; cbn; auto. Qed.

Lemma summary_calls_allowed (w : world) (video_id : string) (c : call) :
  summary_calls w video_id ["videos"; video_id] c -> ensure_calls w video_id c.
Proof. intros [->|[(prompt & video_url & ->) H]]; cbn; auto. Qed.


Lemma ensure_video_content_spec (video_url video_id : string) (w : world) :
  extract_video_id video_url = Ok video_id ->
  wp (ensure_video_content video_url) (ensure_post w video_id) w.
Proof.
  intros Hid. pose proof (pipeline_inv_refl w video_id) as Hinv.
  pose proof (names_distinct video_id) as (Hn1 & Hn2 & Hn3 & _).
  unfold ensure_video_content, ensure_post.
  apply wp_try, wp_bind, wp_lift. rewrite Hid. cbn beta iota.
  emit_inv Hinv.
  unfold is_video_downloaded. apply wp_bind, wp_bind, wp_get_fs.
  cbn beta iota; cbn [fs log calls].
  destruct (locate video_id (fs w)) as [root|] eqn:Hlocate; cbn beta iota.
  - emit_inv Hinv. apply wp_ret. cbn beta iota. emit_inv Hinv. apply wp_ret.
    split; [exact Hinv|]. intros vid folder [= <- <-]. cbn [fs].
    apply locate_some in Hlocate as [Hroot Hmedia]. auto.
  - apply wp_ret. cbn beta iota. cbv zeta.
    emit_inv Hinv.
    unfold os_makedirs. apply wp_bind, wp_bind, wp_get_fs. cbn beta iota.
    apply wp_set_fs. cbn beta iota. cbn [fs log calls].
    apply (pipeline_inv_makedirs _ _ _ ["videos"; video_id]) in Hinv.
    cbn [fs log calls] in Hinv.
    emit_inv Hinv.
    (* download *)
    apply wp_bind. eapply wp_conseq; [apply download_video_spec|].
    intros r1 w1 [Hpost Hok].
    eapply pipeline_inv_stage in Hinv;
      [|exact Hpost|apply download_calls_allowed
       |apply (slots_consistent_stage _ _ _ _ _ _ Hpost Hn1)
       |left; apply download_calls_allowed].
    clear Hpost. destruct r1 as [video_path|e]; [|ensure_raise Hinv].
    specialize (Hok eq_refl).
    emit_inv Hinv. emit_inv Hinv.
    (* transcript *)
    apply wp_bind. eapply wp_conseq; [apply download_transcript_spec|].
    intros r2 w2 [Hpost _].
    eapply pipeline_inv_stage in Hinv;
      [|exact Hpost|apply transcript_calls_allowed
       |apply (slots_consistent_stage _ _ _ _ _ _ Hpost Hn2)
       |left; apply transcript_calls_allowed].
    apply (media_persists _ _ video_id _ _ _ Hpost) in Hok.
    clear Hpost. destruct r2 as [transcript_path|e]; [|ensure_raise Hinv].
    emit_inv Hinv. emit_inv Hinv.
    (* metadata *)
    apply wp_bind. eapply wp_conseq; [apply fetch_metadata_spec|].
    intros r3 w3 [Hpost _].
    eapply pipeline_inv_stage in Hinv;
      [|exact Hpost|apply metadata_calls_allowed
       |apply (slots_consistent_stage _ _ _ _ _ _ Hpost Hn3)
       |right; exact Hok].
    apply (media_persists _ _ video_id _ _ _ Hpost) in Hok.
    clear Hpost. destruct r3 as [metadata_path|e]; [|ensure_raise Hinv].
    emit_inv Hinv. emit_inv Hinv.
    (* summary *)
    apply wp_bind. eapply wp_conseq; [apply generate_summary_spec|].
    intros r4 w4 [Hpost Hnew].
    eapply pipeline_inv_stage in Hinv;
      [|exact Hpost|apply summary_calls_allowed
       |apply (slots_consistent_summary _ _ _ _ _ Hpost Hnew (proj1 Hok))
       |right; exact Hok].
    apply (media_persists _ _ video_id _ _ _ Hpost) in Hok.
    clear Hpost Hnew. destruct r4 as [summary_path|e]; [|ensure_raise Hinv].
    emit_inv Hinv. apply wp_ret.
    split; [exact Hinv|]. intros vid folder [= <- <-]. cbn [fs].
    destruct Hok. auto.
Qed.

(** *** Runs of the pipeline *)

Lemma new_calls_app (w w' : world) (t : list call) :
  calls w' = calls w ++ t -> new_calls w w' = t.
Proof. unfold new_calls. intros ->. apply drop_app_length. Qed.

Lemma new_calls_same (w w' : world) : calls w' = calls w -> new_calls w w' = [].
Proof. intros H. apply new_calls_app. rewrite H, List.app_nil_r. reflexivity. Qed.

(** A run that cannot extract an identifier raises. *)
Lemma ensure_video_content_no_id (video_url : string) (e : exn) (w : world) :
  extract_video_id video_url = Raise e ->
  is_ok (ensure_video_content video_url w).1 = false.
Proof.
  intros Hid. change (wp (ensure_video_content video_url) (fun r _ => is_ok r = false) w).
  unfold ensure_video_content. apply wp_try, wp_bind, wp_lift. rewrite Hid.
  repeat wp_step. reflexivity.
Qed.

(** A run that finds the media file on disk runs no stage. *)
Lemma ensure_video_content_located (video_url video_id : string)
  (root : list string) (w : world) :
  extract_video_id video_url = Ok video_id ->
  locate video_id (fs w) = Some root ->
  exists l,
    ensure_video_content video_url w
    = (Ok (video_id, root), World (fs w) (log w ++ l) (calls w))
    /\ Forall (fun r => lvl r = INFO) l.
Proof.
  intros Hid Hlocate.
  unfold ensure_video_content, is_video_downloaded, try_except, mbind, io_bind, bind,
    lift, get_fs, logger_info, emit, ret.
  rewrite Hid. cbn [fs log calls]. rewrite Hlocate. cbn [fs log calls].
  eexists [_; _; _]. rewrite <- !List.app_assoc. split; [reflexivity|].
  repeat constructor.
Qed.

(** Once the media file is on disk, under a root that exists, every run
    returns at once: no stage, no collaborator, no change on disk. *)
Lemma ensure_video_content_idle (video_url video_id : string)
  (folder : list string) (w : world) :
  extract_video_id video_url = Ok video_id ->
  is_Some (fs w !! []) ->
  has_media (fs w) folder video_id = true ->
  exists root w',
    ensure_video_content video_url w = (Ok (video_id, root), w')
    /\ new_calls w w' = []
    /\ fs w' = fs w
    /\ has_media (fs w) root video_id = true.
Proof.
  intros Hid Hroot Hmedia.
  destruct (locate_found _ _ _ Hroot Hmedia) as [root Hlocate].
  destruct (ensure_video_content_located _ _ _ w Hid Hlocate) as (l & Hrun & _).
  exists root. eexists. split; [exact Hrun|].
  split; [apply new_calls_same; reflexivity|]. split; [reflexivity|].
  apply (locate_some _ _ _ Hlocate).
Qed.

(** C1, as the code has it.  After a run that returned, a second run for
    the same URL finds the media file, enters no stage and asks no
    collaborator, and leaves the disk as the first run left it. *)
Theorem second_run_is_idle (video_url video_id : string) (folder : list string)
  (w w1 : world) :
  ensure_video_content video_url w = (Ok (video_id, folder), w1) ->
  exists root w2,
    ensure_video_content video_url w1 = (Ok (video_id, root), w2)
    /\ new_calls w1 w2 = []
    /\ fs w2 = fs w1.
Proof.
  intros Hrun.
  destruct (extract_video_id video_url) as [vid|e] eqn:Hid.
  - destruct (wp_run _ _ _ (ensure_video_content_spec _ _ w Hid) _ _ Hrun)
      as [_ Hok].
    destruct (Hok _ _ eq_refl) as (<- & Hmedia & Hroot).
    destruct (ensure_video_content_idle _ _ _ w1 Hid Hroot Hmedia)
      as (root & w2 & Hrun2 & Hcalls & Hfs & _).
    eauto.
  - pose proof (ensure_video_content_no_id _ _ w Hid) as Hraise.
    rewrite Hrun in Hraise. discriminate.
Qed.

(** C2, as the code has it.  A run asks a collaborator only for an artifact
    that was not in the identifier's folder, so no stage whose artifact
    exists is run again; but a run that finds the media file runs no stage
    at all, whatever else is missing.  When the first run got as far as the
    metadata stage (where the fetch may have raised), the media file is on
    disk, and the second run neither downloads again nor fetches the
    metadata again: it asks no collaborator and leaves the disk as it is. *)
Theorem rerun_after_metadata_stage (video_url video_id : string)
  (r1 r2 : result (string * list string)) (w w1 w2 : world) :
  extract_video_id video_url = Ok video_id ->
  ensure_video_content video_url w = (r1, w1) ->
  ensure_video_content video_url w1 = (r2, w2) ->
  Forall (ensure_calls w video_id) (new_calls w w1)
  /\ (In (FetchMetadata video_id ["videos"; video_id]) (new_calls w w1) ->
      is_ok r2 = true
      /\ new_calls w1 w2 = []
      /\ fs w2 = fs w1).
Proof.
  intros Hid Hrun1 Hrun2.
  destruct (wp_run _ _ _ (ensure_video_content_spec _ _ w Hid) _ _ Hrun1)
    as [(_ & (t & Ht & Hmine & Hreached) & _) _].
  rewrite (new_calls_app _ _ _ Ht). split; [exact Hmine|].
  intros Hin. destruct (Hreached Hin) as [Hmedia Hroot].
  destruct (ensure_video_content_idle _ _ _ w1 Hid Hroot Hmedia)
    as (root & w2' & Hrun2' & Hcalls & Hfs & _).
  rewrite Hrun2 in Hrun2'. injection Hrun2' as -> ->. auto.
Qed.

(** C8. In every directory, a summary of the identifier comes with its
    metadata and its media file, and the operations of the pipeline on that
    identifier keep it so: [ensure_video_content] and the two tools that
    write, [download_youtube_content] and [summarize_youtube_video].
    [generate_summary] writes a summary only after it has read the metadata
    file of the same folder, and it is called on a folder only once the
    download stage has left the media file there. *)
Theorem slots_stay_consistent (video_url video_id : string) (w : world) :
  extract_video_id video_url = Ok video_id ->
  slots_consistent video_id (fs w) ->
  slots_consistent video_id (fs (ensure_video_content video_url w).2)
  /\ slots_consistent video_id (fs (download_youtube_content video_url w).2)
  /\ slots_consistent video_id (fs (summarize_youtube_video video_url w).2)
  /\ (forall folder,
        has_summary (fs (generate_summary video_id folder w).2) folder video_id = true ->
        has_summary (fs w) folder video_id = true
        \/ has_metadata (fs w) folder video_id = true).
Proof.
  intros Hid Hslots.
  assert (Hensure : forall w0,
             slots_consistent video_id (fs w0) ->
             wp (ensure_video_content video_url)
                (fun r w' =>
                   slots_consistent video_id (fs w')
                   /\ forall vid folder,
                        r = Ok (vid, folder) ->
                        vid = video_id /\ has_media (fs w') folder video_id = true)
                w0).
  { intros w0 H0. eapply wp_conseq; [apply (ensure_video_content_spec _ _ w0 Hid)|].
    intros r w' [(_ & _ & _ & _ & Hkeep) Hok]. split; [auto|].
    intros vid folder Hr. destruct (Hok _ _ Hr) as (? & ? & _). auto. }
  split; [|split; [|split]].
  - change (wp (ensure_video_content video_url)
              (fun _ w' => slots_consistent video_id (fs w')) w).
    apply (wp_conseq _ _ _ _ (Hensure w Hslots)). tauto.
  - change (wp (download_youtube_content video_url)
              (fun _ w' => slots_consistent video_id (fs w')) w).
    unfold download_youtube_content. repeat wp_step; try exact Hslots.
    eapply wp_conseq; [apply Hensure; exact Hslots|].
    intros r w' [Hkeep _]. destruct r; repeat wp_step; exact Hkeep.
  - change (wp (summarize_youtube_video video_url)
              (fun _ w' => slots_consistent video_id (fs w')) w).
    unfold summarize_youtube_video. repeat wp_step.
    eapply wp_conseq; [apply Hensure; exact Hslots|].
    intros r w' [Hkeep Hok]. destruct r as [[vid folder]|e]; [|repeat wp_step; exact Hkeep].
    destruct (Hok _ _ eq_refl) as [-> Hmedia]. cbn [fst snd]. cbv zeta.
    repeat wp_step; try exact Hkeep.
    eapply wp_conseq; [apply generate_summary_spec|].
    intros r w'' [Hpost Hnew]. cbn [fs] in *.
    pose proof (slots_consistent_summary _ _ _ _ _ Hpost Hnew Hmedia Hkeep) as Hkeep'.
    destruct r; repeat wp_step; exact Hkeep'.
  - intros folder.
    change (wp (generate_summary video_id folder)
              (fun _ w' =>
                 has_summary (fs w') folder video_id = true ->
                 has_summary (fs w) folder video_id = true
                 \/ has_metadata (fs w) folder video_id = true) w).
    apply (wp_conseq _ _ _ _ (generate_summary_spec video_id folder w)).
    intros r w' [_ Hnew]. exact Hnew.
Qed.

(** *** Stages that succeed *)


Ltac wrote_goal :=
  split; [intros ? ?; cbn [fs]; fs_simpl;
          repeat (destruct (decide _) as [[-> ->]|?]; try solve [exfalso; eauto]);
          try reflexivity; try (cbv [fmap option_fmap option_map String.append]; congruence)
         |cbn [log]; log_goal].

Lemma download_video_succeeds (video_id : string) (folder : list string) (w : world)
  (stdout stderr media : string) :
  yt_dlp_installed = true ->
  yt_dlp video_id folder = Ok (stdout, stderr, media) ->
  has_media (fs w) folder video_id = false ->
  wp (download_video video_id folder)
     (fun r w' => is_ok r = true /\ wrote w w' folder (video_id +:+ ".mkv") media) w.
Proof.
  intros Hinstalled Hrun Habsent. unfold has_media in Habsent.
  unfold download_video. repeat wp_step; fs_simpl; try congruence.
  split; [reflexivity|]. wrote_goal.
Qed.


Lemma download_transcript_unavailable (video_id : string) (folder : list string)
  (w : world) (reason : string) :
  transcript_unavailable video_id reason ->
  has_transcript (fs w) folder video_id = false ->
  wp (download_transcript video_id folder)
     (fun r w' =>
        r = Ok None
        /\ (forall d m, file_content (fs w') d m = file_content (fs w) d m)
        /\ log w' = log w ++
             [LogRecord INFO ("Downloading transcript for " +:+ video_id);
              LogRecord WARNING ("No transcript available for " +:+ video_id
                                   +:+ ": " +:+ reason)]
        /\ calls w' = calls w ++
             [DownloadTranscript video_id folder; GetTranscript video_id]) w.
Proof.
  intros Hanswer Habsent. unfold has_transcript in Habsent.
  unfold download_transcript. repeat wp_step; fs_simpl; try congruence.
  all: try (destruct Hanswer; congruence).
  all: assert (msg0 = reason) as -> by (destruct Hanswer; congruence).
  all: cbn [exn_str]; rewrite <- !List.app_assoc.
  all: split; [reflexivity|split; [|split; reflexivity]].
  all: intros d m; fs_simpl; reflexivity.
Qed.


Lemma fetch_metadata_succeeds (video_id : string) (folder : list string)
  (w : world) (snippet : json) :
  metadata_available video_id snippet ->
  has_metadata (fs w) folder video_id = false ->
  wp (fetch_metadata video_id folder)
     (fun r w' =>
        is_ok r = true
        /\ wrote w w' folder (video_id +:+ "_metadata.json") (json_dumps snippet)) w.
Proof.
  intros (data & Hget & Hsnippet) Habsent. unfold has_metadata in Habsent.
  unfold fetch_metadata. repeat wp_step; fs_simpl; try congruence.
  - split; [reflexivity|]. wrote_goal.
  - exfalso. match goal with H : makedirs _ _ !! _ = None |- _ =>
      apply eq_None_not_Some in H; apply H; apply dir_makedirs; left; apply prefixes_self end.
Qed.


Lemma generate_summary_succeeds (video_id : string) (folder : list string)
  (w : world) (metadata_text text prompt : string) :
  summary_available video_id metadata_text text prompt ->
  has_summary (fs w) folder video_id = false ->
  file_content (fs w) folder (video_id +:+ "_metadata.json") = Some metadata_text ->
  wp (generate_summary video_id folder)
     (fun r w' =>
        r = Ok (file_path folder (video_id +:+ ".json"))
        /\ (forall d m,
              file_content (fs w') d m =
                if decide (d = folder /\ m = video_id +:+ ".json")
                then Some text else file_content (fs w) d m)
        /\ log w' = log w ++
             [LogRecord INFO ("Calling Gemini API for video " +:+ video_id);
              LogRecord INFO ("Summary generated and saved to "
                                +:+ file_path folder (video_id +:+ ".json"))]
        /\ calls w' = calls w ++
             [GenerateSummary video_id folder;
              GeminiPost prompt ("https://www.youtube.com/watch?v=" +:+ video_id)]) w.
Proof.
  intros (metadata & source & status_code & body & response_json
          & Hloads & Htemplate & Hrender & Hpost & Htext) Habsent Hmetadata.
  unfold has_summary in Habsent.
  unfold generate_summary. repeat wp_step; fs_simpl; try congruence.
  - rewrite <- !List.app_assoc. cbn [app].
    split; [reflexivity|split; [|split; congruence]].
    intros d m. fs_simpl.
    repeat (destruct (decide _) as [[-> ->]|?]; try solve [exfalso; eauto]);
      try reflexivity; cbv [fmap option_fmap option_map String.append]; congruence.
  - exfalso.
    match goal with
    | H : fs w !! folder = None, H' : file_content (fs w) folder _ = Some _ |- _ =>
        unfold file_content in H'; rewrite H in H'; discriminate H'
    end.
Qed.

(** C7, as the code has it.  Whenever the response of the generation
    collaborator passes the checks, the text of its first candidate is
    written to the summary file as it is, and the stage returns the path:
    the text is never parsed, so nothing depends on whether it is
    structured, and the only records logged are two [INFO] records, no
    warning. *)
Theorem summary_is_written_verbatim (video_id : string) (folder : list string)
  (w : world) (metadata_text text prompt : string) :
  summary_available video_id metadata_text text prompt ->
  has_summary (fs w) folder video_id = false ->
  file_content (fs w) folder (video_id +:+ "_metadata.json") = Some metadata_text ->
  exists w' l,
    generate_summary video_id folder w
    = (Ok (file_path folder (video_id +:+ ".json")), w')
    /\ file_content (fs w') folder (video_id +:+ ".json") = Some text
    /\ log w' = log w ++ l
    /\ Forall (fun r => lvl r = INFO) l.
Proof.
  intros Havailable Habsent Hmetadata.
  pose proof (generate_summary_succeeds _ _ _ _ _ _ Havailable Habsent Hmetadata) as Hrun.
  unfold wp in Hrun. destruct (generate_summary video_id folder w) as [r w'].
  cbn [fst snd] in Hrun. destruct Hrun as (-> & Hfiles & Hlog & _).
  exists w'. eexists. split; [reflexivity|]. split; [|split; [exact Hlog|]].
  - rewrite Hfiles, decide_True by auto. reflexivity.
  - repeat constructor.
Qed.

Lemma absent_in_new_folder (f : filesystem) (folder : list string) (name : string) :
  f !! folder = None -> file_content f folder name = None.
Proof. unfold file_content. intros ->. reflexivity. Qed.

(** C6. The transcript stage never raises.  When the transcript
    collaborator answers that there is no transcript for a new item, the
    stage logs a warning and writes no transcript file, and the run goes on:
    with a download, a metadata fetch and a generation that succeed, the run
    returns, the metadata and the summary are on disk and the transcript is
    not. *)
Theorem transcript_unavailable_is_tolerated (video_url video_id : string) (w : world)
  (stdout stderr media reason text prompt : string) (snippet : json) :
  extract_video_id video_url = Ok video_id ->
  locate video_id (fs w) = None ->
  fs w !! ["videos"; video_id] = None ->
  yt_dlp_installed = true ->
  yt_dlp video_id ["videos"; video_id] = Ok (stdout, stderr, media) ->
  transcript_unavailable video_id reason ->
  metadata_available video_id snippet ->
  summary_available video_id (json_dumps snippet) text prompt ->
  (forall folder w0, is_ok (download_transcript video_id folder w0).1 = true)
  /\ exists w',
      ensure_video_content video_url w = (Ok (video_id, ["videos"; video_id]), w')
      /\ In (LogRecord WARNING ("No transcript available for " +:+ video_id
                                  +:+ ": " +:+ reason)) (log w')
      /\ has_transcript (fs w') ["videos"; video_id] video_id = false
      /\ has_media (fs w') ["videos"; video_id] video_id = true
      /\ file_content (fs w') ["videos"; video_id] (video_id +:+ "_metadata.json")
         = Some (json_dumps snippet)
      /\ file_content (fs w') ["videos"; video_id] (video_id +:+ ".json") = Some text.
Proof.
  intros Hid Hlocate Hnew Hinstalled Hdownload Htranscript Hmetadata Hsummary.
  split.
  { intros folder w0.
    change (wp (download_transcript video_id folder) (fun r _ => is_ok r = true) w0).
    apply (wp_conseq _ _ _ _ (download_transcript_spec video_id folder w0)).
    intros r w' [_ Hok]. exact Hok. }
  pose proof (names_distinct video_id) as (N1 & N2 & N3 & N4 & N5 & N6).
  set (F := ["videos"; video_id]) in *.
  set (Q := fun (r : result (string * list string)) (w' : world) =>
              r = Ok (video_id, F)
              /\ In (LogRecord WARNING ("No transcript available for " +:+ video_id
                                          +:+ ": " +:+ reason)) (log w')
              /\ has_transcript (fs w') F video_id = false
              /\ has_media (fs w') F video_id = true
              /\ file_content (fs w') F (video_id +:+ "_metadata.json")
                 = Some (json_dumps snippet)
              /\ file_content (fs w') F (video_id +:+ ".json") = Some text).
  enough (Hwp : wp (ensure_video_content video_url) Q w).
  { unfold wp in Hwp. destruct (ensure_video_content video_url w) as [r w'].
    cbn [fst snd] in Hwp. destruct Hwp as [-> Hrest]. exists w'. split; [reflexivity|exact Hrest]. }
  unfold ensure_video_content.
  apply wp_try, wp_bind, wp_lift. rewrite Hid. cbn beta iota.
  repeat wp_step.
  unfold is_video_downloaded. apply wp_bind, wp_get_fs.
  cbn beta iota; cbn [fs log calls]. rewrite Hlocate.
  apply wp_ret. cbn beta iota. cbv zeta. fold F.
  repeat wp_step.
  (* download *)
  eapply wp_conseq;
    [apply (download_video_succeeds _ _ _ _ _ _ Hinstalled Hdownload)|].
  { unfold has_media. cbn [fs]. apply file_exists_false.
    rewrite file_content_makedirs. apply absent_in_new_folder. exact Hnew. }
  intros r1 w1 (Hok1 & Hfiles1 & _). destruct r1 as [video_path|]; [|discriminate].
  cbn [fs] in Hfiles1.
  repeat wp_step.
  (* transcript *)
  eapply wp_conseq; [apply (download_transcript_unavailable _ _ _ _ Htranscript)|].
  { unfold has_transcript. cbn [fs]. apply file_exists_false.
    rewrite Hfiles1, decide_False by (intros [_ H]; congruence).
    rewrite file_content_makedirs. apply absent_in_new_folder. exact Hnew. }
  intros r2 w2 (-> & Hfiles2 & Hlog2 & _). cbn [fs log] in Hfiles2, Hlog2.
  assert (Hwarn : In (LogRecord WARNING ("No transcript available for " +:+ video_id
                                           +:+ ": " +:+ reason)) (log w2)).
  { rewrite Hlog2. apply in_or_app. right. right. left. reflexivity. }
  clear Hlog2.
  repeat wp_step.
  (* metadata *)
  eapply wp_conseq; [apply (fetch_metadata_succeeds _ _ _ _ Hmetadata)|].
  { unfold has_metadata. cbn [fs]. apply file_exists_false.
    rewrite Hfiles2, Hfiles1, decide_False by (intros [_ H]; congruence).
    rewrite file_content_makedirs. apply absent_in_new_folder. exact Hnew. }
  intros r3 w3 (Hok3 & Hfiles3 & [l3 Hlog3]). destruct r3 as [metadata_path|]; [|discriminate].
  cbn [fs log] in Hfiles3, Hlog3.
  repeat wp_step.
  (* summary *)
  eapply wp_conseq; [apply (generate_summary_succeeds _ _ _ _ _ _ Hsummary)|].
  { unfold has_summary. cbn [fs]. apply file_exists_false.
    rewrite Hfiles3, decide_False by (intros [_ H]; congruence).
    rewrite Hfiles2, Hfiles1, decide_False by (intros [_ H]; congruence).
    rewrite file_content_makedirs. apply absent_in_new_folder. exact Hnew. }
  { cbn [fs]. rewrite Hfiles3, decide_True by auto. reflexivity. }
  intros r4 w4 (-> & Hfiles4 & Hlog4 & _). cbn [fs log] in Hfiles4, Hlog4.
  repeat wp_step.
  unfold Q. cbn [fs log]. split; [reflexivity|].
  split.
  { rewrite Hlog4, Hlog3. repeat (apply in_or_app; left). exact Hwarn. }
  unfold has_transcript, has_media.
  split; [|split; [|split]].
  - apply file_exists_false.
    rewrite Hfiles4, decide_False by (intros [_ H]; congruence).
    rewrite Hfiles3, decide_False by (intros [_ H]; congruence).
    rewrite Hfiles2, Hfiles1, decide_False by (intros [_ H]; congruence).
    rewrite file_content_makedirs. apply absent_in_new_folder. exact Hnew.
  - apply file_exists_true. exists media.
    rewrite Hfiles4, decide_False by (intros [_ H]; congruence).
    rewrite Hfiles3, decide_False by (intros [_ H]; congruence).
    rewrite Hfiles2, Hfiles1, decide_True by auto. reflexivity.
  - rewrite Hfiles4, decide_False by (intros [_ H]; congruence).
    rewrite Hfiles3, decide_True by auto. reflexivity.
  - rewrite Hfiles4, decide_True by auto. reflexivity.
Qed.

(** * Further properties *)

(** ** More on [log_event] *)

(** The lines one event adds: none or one, the same on the console (behind
    a newline) as in the log. *)
Lemma log_event_lines (p : bool) (ev : event) (s : sink) :
  exists new,
    logfile (log_event p ev s) = logfile s ++ new
    /\ console (log_event p ev s)
       = console s ++ (if p then map (fun m => nl +:+ m) new else []).
Proof.
  destruct (is_tool_result ev) eqn:Hkind.
  - rewrite log_event_tool_result by assumption.
    destruct (same_as_last (extract_clean ev) s).
    + exists []. rewrite !List.app_nil_r. destruct p; rewrite ?List.app_nil_r; auto.
    + eexists [_]. cbn. destruct p; rewrite ?List.app_nil_r; auto.
  - destruct (log_event_other p ev s Hkind) as [text ->].
    eexists [_]. cbn. destruct p; rewrite ?List.app_nil_r; auto.
Qed.

(** The flag decides about the console and about nothing else. *)
Lemma log_event_flag (ev : event) (s1 s2 : sink) :
  _last_tool_result s1 = _last_tool_result s2 ->
  logfile s1 = logfile s2 ->
  _last_tool_result (log_event false ev s1) = _last_tool_result (log_event true ev s2)
  /\ logfile (log_event false ev s1) = logfile (log_event true ev s2).
Proof.
  intros Hlast Hlog. split; [rewrite !log_event_last, Hlast; reflexivity|].
  destruct (is_tool_result ev) eqn:Hkind.
  - rewrite !log_event_tool_result by assumption.
    unfold same_as_last. rewrite Hlast.
    destruct (_last_tool_result s2) as [last|]; [destruct (String.eqb _ last)|];
      cbn; rewrite ?Hlog; reflexivity.
  - revert Hkind. unfold is_tool_result, kind_of, log_event.
    repeat (destruct (str_contains _ (ev_str ev)); try discriminate);
      intros _; cbn; rewrite Hlog; reflexivity.
Qed.

(** X1.  What is printed is what is logged: with [print_to_console] the
    console gets every message the log gets, in the same order, each behind
    a newline; without it the console gets nothing, and the log and the slot
    are the same as with it. *)
Theorem console_mirrors_logfile (evs : list event) (s : sink) :
  (exists new,
      logfile (log_events true evs s) = logfile s ++ new
      /\ console (log_events true evs s) = console s ++ map (fun m => nl +:+ m) new)
  /\ console (log_events false evs s) = console s
  /\ logfile (log_events false evs s) = logfile (log_events true evs s)
  /\ _last_tool_result (log_events false evs s)
     = _last_tool_result (log_events true evs s).
Proof.
  split; [|split].
  - revert s. induction evs as [|ev rest IH]; intros s.
    + exists []. cbn. rewrite !List.app_nil_r. auto.
    + unfold log_events in *. cbn [fold_left].
      destruct (log_event_lines true ev s) as (new1 & Hlog1 & Hconsole1).
      destruct (IH (log_event true ev s)) as (new2 & Hlog2 & Hconsole2).
      exists (new1 ++ new2). rewrite Hlog2, Hconsole2, Hlog1, Hconsole1.
      rewrite List.map_app, <- !List.app_assoc. auto.
  - revert s. induction evs as [|ev rest IH]; intros s; [reflexivity|].
    unfold log_events in *. cbn [fold_left]. rewrite IH.
    destruct (log_event_lines false ev s) as (new & _ & ->).
    apply List.app_nil_r.
  - enough (H : forall s1 s2,
               _last_tool_result s1 = _last_tool_result s2 ->
               logfile s1 = logfile s2 ->
               logfile (log_events false evs s1) = logfile (log_events true evs s2)
               /\ _last_tool_result (log_events false evs s1)
                  = _last_tool_result (log_events true evs s2)).
    { apply H; reflexivity. }
    induction evs as [|ev rest IH]; intros s1 s2 Hlast Hlog; [auto|].
    unfold log_events in *. cbn [fold_left].
    destruct (log_event_flag ev s1 s2 Hlast Hlog) as [Hlast' Hlog'].
    apply IH; assumption.
Qed.

(** Events that are not tool results leave the slot alone. *)
Lemma log_events_other_kinds (p : bool) (evs : list event) (s : sink) :
  Forall (fun e => is_tool_result e = false) evs ->
  _last_tool_result (log_events p evs s) = _last_tool_result s.
Proof.
  revert s. induction evs as [|ev rest IH]; intros s Hkinds; [reflexivity|].
  apply List.Forall_cons_iff in Hkinds as [Hev Hrest].
  unfold log_events in *. cbn [fold_left]. rewrite IH by assumption.
  rewrite log_event_last, Hev. reflexivity.
Qed.

Lemma log_events_app (p : bool) (evs1 evs2 : list event) (s : sink) :
  log_events p (evs1 ++ evs2) s = log_events p evs2 (log_events p evs1 s).
Proof. apply fold_left_app. Qed.

(** X2.  Deduplication is against the latest tool result, however far
    back: a tool result that repeats the text of the latest one is dropped
    even when events of other kinds came in between, and it is emitted
    again once a tool result with another text has come in between. *)
Theorem dedup_is_against_latest_tool_result (p : bool) (a a' b : event)
  (mid : list event) (s : sink) :
  is_tool_result a = true ->
  is_tool_result a' = true ->
  extract_clean a' = extract_clean a ->
  Forall (fun e => is_tool_result e = false) mid ->
  is_tool_result b = true ->
  extract_clean b <> extract_clean a ->
  log_events p (a :: mid ++ [a']) s = log_events p (a :: mid) s
  /\ suppressed a' (log_events p (a :: mid ++ [b]) s) = false.
Proof.
  intros Ha Ha' Hclean Hmid Hb Hother.
  assert (Hslot : forall ev,
             is_tool_result ev = true ->
             _last_tool_result (log_events p ([ev] ++ mid) s) = Some (extract_clean ev)).
  { intros ev Hev. rewrite log_events_app, log_events_other_kinds by assumption.
    unfold log_events. cbn [fold_left]. rewrite log_event_last, Hev. reflexivity. }
  split.
  - change (a :: mid ++ [a']) with (([a] ++ mid) ++ [a']).
    rewrite log_events_app. change (a :: mid) with ([a] ++ mid).
    unfold log_events at 1. cbn [fold_left].
    rewrite log_event_tool_result by assumption.
    replace (same_as_last _ _) with true; [reflexivity|].
    symmetry. apply same_as_last_true. rewrite Hslot, Hclean by assumption. reflexivity.
  - change (a :: mid ++ [b]) with (([a] ++ mid) ++ [b]).
    rewrite log_events_app. unfold suppressed. rewrite Ha'. cbn [andb].
    unfold log_events at 1. cbn [fold_left].
    destruct (same_as_last _ _) eqn:Hsame; [|reflexivity].
    apply same_as_last_true in Hsame. rewrite log_event_last, Hb in Hsame.
    congruence.
Qed.

(** ** More on [RetryingMCPClient] *)

(** X3.  With [max_retries] zero or negative the loop of [connect] has no
    attempt to make: [connect] returns [None] without calling the
    discovery, logging or raising, and the client is as it was. *)
Theorem connect_without_attempts (c : RetryingMCPClient) (trace : list (effect float)) :
  (max_retries c <= 0)%Z ->
  connect c trace = (Ok None, c, trace).
Proof.
  intros Hmax. unfold connect. rewrite py_range_attempts.
  replace (Z.to_nat (max_retries c)) with 0 by lia. reflexivity.
Qed.

Lemma attempts_trace_next (n : nat) (d : float) :
  1 <= n -> Discover :: Sleep d :: attempts_trace n d = attempts_trace (S n) d.
Proof. destruct n; [lia|reflexivity]. Qed.

(** The loop over the attempts from [first + 1] to [max_retries], whatever
    the discovery answers. *)
Lemma connect_loop_bound (count : nat) : forall (first : nat) (c : RetryingMCPClient)
    (trace : list (effect float)),
  count = 0 \/ Z.of_nat (first + count) = max_retries c ->
  exists added,
    (connect_loop (attempts_from first count) c trace).2 = trace ++ added
    /\ discoveries added <= count
    /\ List.filter is_io added = attempts_trace (discoveries added) (retry_delay c)
    /\ match (connect_loop (attempts_from first count) c trace).1 with
       | (Ok (Some ts), c') =>
           c' = set_tools ts c /\ 1 <= discoveries added
           /\ mcp_server_tools (discoveries trace + discoveries added - 1) = Ok ts
       | (Ok None, c') => c' = c /\ added = [] /\ count = 0
       | (Raise e, c') =>
           c' = c /\ discoveries added = count /\ 1 <= count
           /\ mcp_server_tools (discoveries trace + discoveries added - 1) = Raise e
       end.
Proof.
  induction count as [|count IH]; intros first c trace Hmax.
  - exists []. cbn. rewrite List.app_nil_r. repeat split; auto.
  - destruct Hmax as [|Hmax]; [discriminate|].
    unfold attempts_from; cbn [seq map connect_loop]. fold (attempts_from (S first) count).
    rewrite discoveries_app, !Nat.add_0_r.
    destruct (mcp_server_tools (discoveries trace)) as [ts|e] eqn:Hcall.
    + eexists [_; _; _]. cbn [fst snd]. rewrite <- !List.app_assoc.
      split; [reflexivity|]. cbn. split; [lia|]. split; [reflexivity|].
      split; [reflexivity|]. split; [lia|].
      replace (discoveries trace + 1 - 1) with (discoveries trace) by lia. exact Hcall.
    + destruct (1 + Z.of_nat first <? max_retries c)%Z eqn:Hlt.
      * apply Z.ltb_lt in Hlt.
        set (trace1 := ((((trace ++ [_]) ++ [Discover]) ++ [_]) ++ [_]) ++ [_]).
        destruct (IH (S first) c trace1) as (added & Htrace & Hle & Hio & Hout);
          [right; lia|].
        assert (Hdisc1 : discoveries trace1 = S (discoveries trace)).
        { unfold trace1. rewrite !discoveries_app. cbn. lia. }
        assert (Hpos : 1 <= discoveries added).
        { destruct (connect_loop (attempts_from (S first) count) c trace1) as [[r c'] t].
          cbn [fst snd] in Hout. destruct r as [[ts|]|e'].
          - apply Hout.
          - destruct Hout as (_ & _ & ->). lia.
          - destruct Hout as (_ & -> & ? & _). assumption. }
        eexists (_ :: Discover :: _ :: _ :: Sleep (retry_delay c) :: added).
        split.
        { rewrite Htrace. unfold trace1. rewrite <- !List.app_assoc. reflexivity. }
        split; [cbn; unfold discoveries in Hle; cbn in Hle; unfold discoveries; lia|].
        split.
        { cbn [List.filter is_io]. rewrite Hio.
          change (discoveries (_ :: Discover :: _ :: _ :: Sleep (retry_delay c) :: added))
            with (S (discoveries added)).
          apply attempts_trace_next. exact Hpos. }
        change (discoveries (_ :: Discover :: _ :: _ :: Sleep (retry_delay c) :: added))
          with (S (discoveries added)).
        destruct (connect_loop (attempts_from (S first) count) c trace1) as [[r c'] t].
        cbn [fst snd] in *. rewrite Hdisc1 in Hout.
        replace (discoveries trace + S (discoveries added) - 1)
          with (S (discoveries trace) + discoveries added - 1) by lia.
        destruct r as [[ts|]|e'].
        -- destruct Hout as (? & ? & ?). auto.
        -- destruct Hout as (_ & _ & ->). lia.
        -- destruct Hout as (? & ? & ? & ?). repeat split; auto; lia.
      * apply Z.ltb_ge in Hlt. assert (count = 0) as -> by lia.
        eexists [_; _; _; _]. cbn [fst snd]. rewrite <- !List.app_assoc.
        split; [reflexivity|]. cbn. split; [lia|]. split; [reflexivity|].
        split; [reflexivity|]. split; [reflexivity|]. split; [lia|].
        replace (discoveries trace + 1 - 1) with (discoveries trace) by lia. exact Hcall.
Qed.

(** X4.  Whatever the discovery answers, [connect] calls it at most
    [max_retries] times and sleeps [retry_delay] exactly between two
    consecutive calls.  It returns the tools of its last call, cached in the
    client, or raises the error of its last call, the [max_retries]-th,
    leaving the client as it was; it returns [None] only when it made no
    call at all. *)
Theorem connect_calls_are_bounded (c : RetryingMCPClient) (trace : list (effect float)) :
  exists added,
    (connect c trace).2 = trace ++ added
    /\ discoveries added <= Z.to_nat (max_retries c)
    /\ List.filter is_io added = attempts_trace (discoveries added) (retry_delay c)
    /\ match (connect c trace).1 with
       | (Ok (Some ts), c') =>
           c' = set_tools ts c /\ 1 <= discoveries added
           /\ mcp_server_tools (discoveries trace + discoveries added - 1) = Ok ts
       | (Ok None, c') => c' = c /\ added = [] /\ (max_retries c <= 0)%Z
       | (Raise e, c') =>
           c' = c /\ discoveries added = Z.to_nat (max_retries c)
           /\ mcp_server_tools (discoveries trace + discoveries added - 1) = Raise e
       end.
Proof.
  unfold connect. rewrite py_range_attempts.
  destruct (connect_loop_bound (Z.to_nat (max_retries c)) 0 c trace)
    as (added & Htrace & Hle & Hio & Hout); [lia|].
  exists added. split; [exact Htrace|]. split; [exact Hle|]. split; [exact Hio|].
  destruct (connect_loop _ c trace) as [[r c'] t]. cbn [fst snd] in *.
  destruct r as [[ts|]|e].
  - exact Hout.
  - destruct Hout as (? & ? & ?). repeat split; auto; lia.
  - destruct Hout as (? & ? & ? & ?). auto.
Qed.
(** ** More on the stages *)

(** *** [extract_video_id] *)

Lemma split_head_absent (sep s : string) :
  str_contains sep s = false -> split_head sep s = s.
Proof.
  induction s as [|c rest IH]; cbn [str_contains split_head].
  - destruct (String.prefix sep ""); [discriminate|reflexivity].
  - destruct (String.prefix sep (String c rest)); [discriminate|].
    intros H. rewrite IH by assumption. reflexivity.
Qed.

Lemma append_cons (c : Ascii.ascii) (s t : string) : String c s +:+ t = String c (s +:+ t).
Proof. reflexivity. Qed.

Lemma append_nil_l (t : string) : "" +:+ t = t.
Proof. reflexivity. Qed.

Lemma prefix_nil (s : string) : String.prefix "" s = true.
Proof. destruct s; reflexivity. Qed.

Lemma append_nil_r (s : string) : s +:+ "" = s.
Proof. induction s as [|c s IH]; [reflexivity|]. rewrite append_cons, IH. reflexivity. Qed.

Lemma prefix_app (sep rest : string) : String.prefix sep (sep +:+ rest) = true.
Proof.
  induction sep as [|c sep IH]; [apply prefix_nil|].
  rewrite append_cons. cbn [String.prefix].
  destruct (Ascii.ascii_dec c c) as [_|Hne]; [exact IH|contradiction].
Qed.

Lemma str_drop_app (sep rest : string) : str_drop (String.length sep) (sep +:+ rest) = rest.
Proof. induction sep as [|c sep IH]; [reflexivity|exact IH]. Qed.

Lemma split_tail_eq (sep s : string) :
  split_tail sep s =
    if String.prefix sep s then Some (str_drop (String.length sep) s)
    else match s with
         | EmptyString => None
         | String _ rest => split_tail sep rest
         end.
Proof. destruct s; reflexivity. Qed.

Lemma str_contains_eq (needle hay : string) :
  str_contains needle hay =
    if String.prefix needle hay then true
    else match hay with
         | EmptyString => false
         | String _ rest => str_contains needle rest
         end.
Proof. destruct hay; reflexivity. Qed.

Lemma split_head_question (a q : string) :
  str_contains "?" a = false -> split_head "?" (a +:+ "?" +:+ q) = a.
Proof.
  induction a as [|c rest IH].
  - intros _. rewrite append_nil_l, append_cons, append_nil_l.
    cbn [split_head String.prefix].
    destruct (Ascii.ascii_dec _ _) as [_|Hne]; [|contradiction].
    rewrite prefix_nil. reflexivity.
  - cbn [str_contains]. rewrite append_cons.
    cbn [split_head String.prefix].
    destruct (Ascii.ascii_dec _ c); [rewrite !prefix_nil; discriminate|].
    intros H. rewrite IH by assumption. reflexivity.
Qed.

(** X5.  A short URL gives back the identifier put into it: for
    [https://youtu.be/<id>], with or without a query behind it, where the
    identifier holds no ["?"] and ["youtu.be/"] does not occur a second
    time, [extract_video_id] returns the identifier.  The identifier may be
    empty: this branch does not check it. *)
Theorem extract_video_id_short_url (id tail : string) :
  str_contains "?" id = false ->
  str_contains "youtu.be/" (id +:+ tail) = false ->
  tail = "" \/ (exists q, tail = "?" +:+ q) ->
  extract_video_id ("https://youtu.be/" +:+ id +:+ tail) = Ok id.
Proof.
  intros Hid Honce Htail. unfold extract_video_id.
  rewrite !append_cons, append_nil_l. cbn [String.eqb].
  assert (Hhere : forall rest,
             str_contains "youtu.be/" ("https://" +:+ "youtu.be/" +:+ rest) = true
             /\ split_tail "youtu.be/" ("https://" +:+ "youtu.be/" +:+ rest) = Some rest).
  { intros rest. pose proof (prefix_app "youtu.be/" rest) as Hprefix.
    rewrite !append_cons, !append_nil_l in *.
    do 8 (rewrite str_contains_eq, split_tail_eq;
          replace (String.prefix "youtu.be/" _) with false by reflexivity).
    rewrite str_contains_eq, split_tail_eq, Hprefix. auto. }
  destruct (Hhere (id +:+ tail)) as [Hcontains Hsplit].
  rewrite !append_cons, !append_nil_l in Hcontains, Hsplit.
  rewrite Hcontains. unfold split_second. rewrite Hsplit.
  cbn [fmap option_fmap option_map].
  rewrite (split_head_absent "youtu.be/") by assumption.
  destruct Htail as [->|[q ->]].
  - rewrite append_nil_r. rewrite split_head_absent by assumption. reflexivity.
  - rewrite split_head_question by assumption. reflexivity.
Qed.
(** *** Failures of the stages *)

Lemma wp_of_run {A} (m : io A) (Q : result A -> world -> Prop) (w : world)
  (r : result A) (w' : world) :
  m w = (r, w') -> Q r w' -> wp m Q w.
Proof. unfold wp. intros ->. auto. Qed.

Lemma wp_exists {A} (m : io A) (Q : result A -> world -> Prop) (w : world) :
  wp m Q w -> exists r w', m w = (r, w') /\ Q r w'.
Proof. unfold wp. destruct (m w) as [r w']. eauto. Qed.

(** The folder of a stage exists once [os.makedirs] has run. *)
Lemma makedirs_folder (folder : list string) (f : filesystem) :
  makedirs folder f !! folder = None -> False.
Proof.
  intros H. apply eq_None_not_Some in H. apply H, dir_makedirs. left. apply prefixes_self.
Qed.

Ltac new_calls_goal :=
  erewrite new_calls_app by (cbn [calls]; rewrite <- ?List.app_assoc; reflexivity);
  cbn [app List.filter is_collaborator].

(** X6.  Without [yt-dlp], [download_video] raises before it looks at the
    folder: nothing is created, the only command run is the version probe,
    and it makes no difference that the media file may already be there. *)
Theorem download_video_needs_yt_dlp (video_id : string) (folder : list string) (w : world) :
  yt_dlp_installed = false ->
  download_video video_id folder w
  = (Raise (PyError RuntimeError "yt-dlp is not installed or not available in PATH"),
     World (fs w)
       (log w ++ [LogRecord ERROR
                    "yt-dlp not found. Please install it with: pip install yt-dlp"])
       (calls w ++ [DownloadVideo video_id folder; YtDlpVersion])).
Proof.
  intros Hmissing.
  unfold download_video, check_yt_dlp_installed, record_call, logger_error, emit,
    mbind, io_bind, bind, mret, io_ret, ret, raise.
  rewrite Hmissing. cbn [fs log calls negb]. rewrite <- List.app_assoc. reflexivity.
Qed.

(** X7.  A download that [yt-dlp] fails: the error of the subprocess comes
    out as a [RuntimeError] that quotes the identifier and the stripped
    [stderr], after three error records; the folder has been created, and
    no media file is in it. *)
Theorem download_failure_is_reported (video_id : string) (folder : list string)
  (w : world) (message stdout stderr : string) :
  yt_dlp_installed = true ->
  has_media (fs w) folder video_id = false ->
  yt_dlp video_id folder = Raise (CalledProcessError message stdout stderr) ->
  exists w' l,
    download_video video_id folder w
    = (Raise (PyError RuntimeError
                ("Failed to download video '" +:+ video_id +:+ "': " +:+ strip stderr)),
       w')
    /\ fs w' = makedirs folder (fs w)
    /\ has_media (fs w') folder video_id = false
    /\ List.filter is_collaborator (new_calls w w') = [YtDlp video_id folder]
    /\ log w' = log w ++ l ++
         [LogRecord ERROR ("❌ yt-dlp failed for " +:+ video_id +:+ ": " +:+ message);
          LogRecord ERROR ("❌ yt-dlp stderr: " +:+ stderr);
          LogRecord ERROR ("❌ yt-dlp stdout: " +:+ stdout)].
Proof.
  intros Hinstalled Habsent Hfail.
  unfold download_video, check_yt_dlp_installed, run_yt_dlp, os_makedirs, os_path_exists,
    record_call, logger_error, logger_info, emit, get_fs, set_fs, try_except,
    mbind, io_bind, bind, mret, io_ret, ret, raise.
  rewrite Hinstalled. cbn [fs log calls negb].
  unfold has_media in Habsent. rewrite file_exists_makedirs, Habsent.
  cbn [fs log calls]. rewrite Hfail. cbn [fs log calls exn_str].
  eexists; eexists [_]. split; [reflexivity|]. cbn [fs log calls].
  split; [reflexivity|]. split; [unfold has_media; rewrite file_exists_makedirs; exact Habsent|].
  split; [new_calls_goal; reflexivity|].
  rewrite <- !List.app_assoc. reflexivity.
Qed.

(** X8.  A metadata fetch that raises leaves no metadata file, and no file
    changed: the file is opened only once the snippet is in hand.  The
    endpoint was asked once; its [RequestException] comes out as a
    [RuntimeError], any other error of the request or of the extraction of
    the snippet as it is. *)
Theorem fetch_metadata_failure (video_id : string) (folder : list string)
  (w w' : world) (e : exn) :
  fetch_metadata video_id folder w = (Raise e, w') ->
  has_metadata (fs w') folder video_id = false
  /\ (forall d m, file_content (fs w') d m = file_content (fs w) d m)
  /\ List.filter is_collaborator (new_calls w w') = [YouTubeApiGet video_id]
  /\ exists inner,
      (youtube_api_get video_id = Raise inner
       \/ exists data, youtube_api_get video_id = Ok data
                       /\ metadata_snippet video_id data = Raise inner)
      /\ e = fetch_metadata_error inner.
Proof.
  intros Hrun.
  enough (Hwp : wp (fetch_metadata video_id folder)
                  (fun r w' =>
                     forall e, r = Raise e ->
                       has_metadata (fs w') folder video_id = false
                       /\ (forall d m, file_content (fs w') d m = file_content (fs w) d m)
                       /\ List.filter is_collaborator (new_calls w w')
                          = [YouTubeApiGet video_id]
                       /\ exists inner,
                           (youtube_api_get video_id = Raise inner
                            \/ exists data, youtube_api_get video_id = Ok data
                                            /\ metadata_snippet video_id data = Raise inner)
                           /\ e = fetch_metadata_error inner) w).
  { exact (wp_run _ _ _ Hwp _ _ Hrun e eq_refl). }
  unfold fetch_metadata. repeat wp_step; try (intros ? [=]).
  all: try (exfalso; eapply makedirs_folder; eassumption).
  all: subst; unfold has_metadata; cbn [fs]; fs_simpl.
  all: (split; [assumption|]).
  all: (split; [intros d m; fs_simpl; reflexivity|]).
  all: (split; [new_calls_goal; reflexivity|]).
  all: eexists; split; [eauto|reflexivity].
Qed.

(** X9.  A summary stage that raises has raised a [RuntimeError] whose
    message starts with ["Failed to generate summary: "], wrapped around
    the message of whatever went wrong.  No file but the summary file is
    touched, the summary file was not there before, and afterwards it is
    missing or empty. *)
Theorem generate_summary_failure (video_id : string) (folder : list string)
  (w w' : world) (e : exn) :
  generate_summary video_id folder w = (Raise e, w') ->
  (exists inner,
      e = PyError RuntimeError ("Failed to generate summary: " +:+ exn_str inner))
  /\ has_summary (fs w) folder video_id = false
  /\ (forall d m, ~ (d = folder /\ m = video_id +:+ ".json") ->
                  file_content (fs w') d m = file_content (fs w) d m)
  /\ (file_content (fs w') folder (video_id +:+ ".json") = None
      \/ file_content (fs w') folder (video_id +:+ ".json") = Some "").
Proof.
  intros Hrun.
  enough (Hwp : wp (generate_summary video_id folder)
                  (fun r w' =>
                     forall e, r = Raise e ->
                       (exists inner,
                           e = PyError RuntimeError
                                 ("Failed to generate summary: " +:+ exn_str inner))
                       /\ has_summary (fs w) folder video_id = false
                       /\ (forall d m, ~ (d = folder /\ m = video_id +:+ ".json") ->
                                       file_content (fs w') d m = file_content (fs w) d m)
                       /\ (file_content (fs w') folder (video_id +:+ ".json") = None
                           \/ file_content (fs w') folder (video_id +:+ ".json")
                              = Some "")) w).
  { exact (wp_run _ _ _ Hwp _ _ Hrun e eq_refl). }
  unfold generate_summary. repeat wp_step; try (intros ? [=]).
  all: subst; unfold has_summary; cbn [fs]; fs_simpl.
  all: (split; [first [eexists; reflexivity|eexists (PyError OtherError _); reflexivity]|]).
  all: (split; [assumption|]).
  all: (split; [intros d m Hother; fs_simpl; rewrite ?decide_False by assumption;
                reflexivity|]).
  all: try (left; apply file_exists_false; assumption).
  all: right; rewrite decide_True by auto; reflexivity.
Qed.

(** X10.  When the first candidate's text is not a [str], the stage raises,
    but only after it has opened the summary file for writing: an empty
    summary file stays behind, and the next call takes it for the summary,
    returns its path and does not ask the generation collaborator. *)
Theorem failed_write_leaves_empty_summary (video_id : string) (folder : list string)
  (w : world) (metadata_text source prompt body : string) (metadata generated : json)
  (status_code : Z) (response_json : json) :
  has_summary (fs w) folder video_id = false ->
  file_content (fs w) folder (video_id +:+ "_metadata.json") = Some metadata_text ->
  json_loads metadata_text = Ok metadata ->
  prompt_template = Some source ->
  render_template source ("https://www.youtube.com/watch?v=" +:+ video_id)
    (json_dumps metadata) = Ok prompt ->
  gemini_post prompt ("https://www.youtube.com/watch?v=" +:+ video_id)
  = Ok (status_code, body, response_json) ->
  generated_text status_code body response_json = Ok generated ->
  (forall s, generated <> JStr s) ->
  exists w',
    generate_summary video_id folder w
    = (Raise (PyError RuntimeError
                ("Failed to generate summary: "
                   +:+ exn_str (builtin_error "write" generated))), w')
    /\ file_content (fs w') folder (video_id +:+ ".json") = Some ""
    /\ generate_summary video_id folder w'
       = (Ok (file_path folder (video_id +:+ ".json")),
          World (fs w')
            (log w' ++ [LogRecord INFO ("Summary already exists at "
                                          +:+ file_path folder (video_id +:+ ".json"))])
            (calls w' ++ [GenerateSummary video_id folder])).
Proof.
  intros Habsent Hmetadata Hloads Htemplate Hrender Hpost Htext Hother.
  assert (Hfolder : is_Some (fs w !! folder)).
  { unfold file_content in Hmetadata. destruct (fs w !! folder); [eauto|discriminate]. }
  destruct Hfolder as [files Hfiles].
  unfold has_summary in Habsent.
  assert (Hfirst : exists w',
             generate_summary video_id folder w
             = (Raise (PyError RuntimeError
                         ("Failed to generate summary: "
                            +:+ exn_str (builtin_error "write" generated))), w')
             /\ file_content (fs w') folder (video_id +:+ ".json") = Some "").
  { unfold generate_summary, read_file, open_w, file_write, os_path_exists,
      record_call, logger_error, logger_info, logger_debug, emit, get_fs, set_fs,
      try_except, lift, mbind, io_bind, bind, mret, io_ret, ret, raise.
    cbn [fs log calls]. rewrite Habsent. cbn [negb fs log calls].
    rewrite Hmetadata, Hloads, Htemplate. cbn [fs log calls].
    rewrite Hrender. cbn [fs log calls]. rewrite Hpost. cbn [fs log calls].
    rewrite Htext. cbn [fs log calls]. rewrite Hfiles. cbn [fs log calls].
    destruct generated; try (exfalso; eapply Hother; reflexivity).
    all: cbn [fs log calls]; eexists; (split; [reflexivity|]).
    all: cbn [fs]; rewrite file_content_put, decide_True by auto; reflexivity. }
  destruct Hfirst as (w' & Hrun & Hempty).
  exists w'. split; [exact Hrun|]. split; [exact Hempty|].
  unfold generate_summary, os_path_exists, record_call, logger_info, emit, get_fs,
    mbind, io_bind, bind, mret, io_ret, ret.
  cbn [fs log calls].
  replace (file_exists (fs w') folder (video_id +:+ ".json")) with true
    by (symmetry; apply file_exists_true; eauto).
  reflexivity.
Qed.

(** X11.  Whatever goes wrong in [ensure_video_content] comes out as a
    [RuntimeError] whose message is ["Failed to ensure video content: "]
    followed by the message of the error, after two error records, the
    second with the traceback. *)
Theorem ensure_video_content_failure (video_url : string) (w w' : world) (e : exn) :
  ensure_video_content video_url w = (Raise e, w') ->
  exists inner l,
    e = PyError RuntimeError ("Failed to ensure video content: " +:+ exn_str inner)
    /\ log w' = l ++
         [LogRecord ERROR ("❌ Exception in `ensure_video_content` for video URL "
                             +:+ video_url +:+ ": " +:+ exn_str inner);
          LogRecord ERROR ("Traceback:" +:+ nl +:+ format_exc inner)].
Proof using Type.
  unfold ensure_video_content. unfold try_except at 1.
  match goal with |- context [?body w] => destruct (body w) as [[located|inner] w1] end.
  - discriminate.
  - unfold logger_error, emit, raise, mbind, io_bind, bind. cbn [fs log calls].
    intros [= <- <-]. exists inner. eexists. split; [reflexivity|].
    cbn [log]. rewrite <- List.app_assoc. reflexivity.
Qed.

(** A handler that ends by returning makes [try: ... except Exception]
    return. *)
Lemma try_except_returns {A} (body : io A) (handler : exn -> io A) (w : world) :
  (forall e w1, is_ok (handler e w1).1 = true) ->
  is_ok (try_except body handler w).1 = true.
Proof.
  intros Hhandler. unfold try_except. destruct (body w) as [[a|e] w1]; [reflexivity|].
  apply Hhandler.
Qed.

(** X12.  The four tools never raise: every failure is caught and comes
    back as a response. *)
Theorem tools_never_raise (youtube_url : string) (question : option string) (w : world) :
  is_ok (download_youtube_content youtube_url w).1 = true
  /\ is_ok (summarize_youtube_video youtube_url w).1 = true
  /\ is_ok (extract_key_moments youtube_url w).1 = true
  /\ is_ok (ask_about_youtube_video youtube_url question w).1 = true.
Proof using Type.
  repeat split.
  all: apply try_except_returns; intros e w1; reflexivity.
Qed.

(** *** The tools on an item that is on disk *)

(** A run that finds the media file, as a [wp] rule. *)
Lemma wp_ensure_located (video_url video_id : string) (root : list string)
  (Q : result (string * list string) -> world -> Prop) (w : world) :
  extract_video_id video_url = Ok video_id ->
  locate video_id (fs w) = Some root ->
  (forall l, Q (Ok (video_id, root)) (World (fs w) (log w ++ l) (calls w))) ->
  wp (ensure_video_content video_url) Q w.
Proof.
  intros Hid Hlocate HQ.
  destruct (ensure_video_content_located _ _ _ w Hid Hlocate) as (l & Hrun & _).
  apply (wp_of_run _ _ _ _ _ Hrun). apply HQ.
Qed.

(** X13.  An item whose media file is on disk while its metadata and its
    summary are not cannot be summarized: the run skips every stage, the
    summary stage then fails on the missing metadata file before it asks
    the generation collaborator, and the tool answers with an error and
    leaves the disk as it was, so that the next call meets the same
    situation. *)
Theorem summarize_fails_without_metadata (youtube_url video_id : string)
  (root : list string) (w : world) :
  extract_video_id youtube_url = Ok video_id ->
  locate video_id (fs w) = Some root ->
  has_metadata (fs w) root video_id = false ->
  has_summary (fs w) root video_id = false ->
  exists response w',
    summarize_youtube_video youtube_url w = (Ok response, w')
    /\ isError response = true
    /\ fs w' = fs w
    /\ List.filter is_collaborator (new_calls w w') = [].
Proof.
  intros Hid Hlocate Hmetadata Hsummary.
  unfold has_metadata, has_summary in *.
  enough (Hwp : wp (summarize_youtube_video youtube_url)
                  (fun r w' =>
                     exists response,
                       r = Ok response /\ isError response = true /\ fs w' = fs w
                       /\ List.filter is_collaborator (new_calls w w') = []) w).
  { apply wp_exists in Hwp as (r & w' & Hrun & response & -> & Hrest).
    exists response, w'. split; [exact Hrun|exact Hrest]. }
  unfold summarize_youtube_video. repeat wp_step.
  eapply wp_ensure_located; [exact Hid|cbn [fs]; exact Hlocate|]. cbn [fs log calls]. intros l.
  cbn [fst snd]. cbv zeta. repeat wp_step.
  all: try (rewrite Hsummary in *; discriminate).
  unfold generate_summary. repeat wp_step.
  all: try (rewrite Hsummary in *; discriminate).
  all: try (apply file_exists_false in Hmetadata; congruence).
  all: eexists; split; [reflexivity|]; split; [reflexivity|]; split; [reflexivity|].
  all: new_calls_goal; reflexivity.
Qed.

Lemma file_exists_content (f : filesystem) (folder : list string) (name : string) :
  file_exists f folder name
  = match file_content f folder name with Some _ => true | None => false end.
Proof.
  destruct (file_content f folder name) eqn:H.
  - apply file_exists_true. eauto.
  - apply file_exists_false. exact H.
Qed.

(** X14.  A question about an item that is on disk.  The run skips every
    stage; the tool loads whichever of summary, transcript and metadata
    exist (none of them is required), asks the generation collaborator once,
    with the prompt built from them and from the question, or from the
    default question when there is none, and returns the answer under the
    question.  Nothing is written. *)
Theorem ask_about_located_item (youtube_url video_id : string) (question : option string)
  (root : list string) (w : world) (metadata : json)
  (status_code : Z) (body : string) (response_json answer : json) :
  extract_video_id youtube_url = Ok video_id ->
  locate video_id (fs w) = Some root ->
  match file_content (fs w) root (video_id +:+ "_metadata.json") with
  | Some text => json_loads (universal_newlines text) = Ok metadata
  | None => metadata = JDict []
  end ->
  gemini_post
    (question_prompt
       (context_parts (loaded_text (fs w) root (video_id +:+ ".json"))
          (loaded_text (fs w) root (video_id +:+ "_transcript.txt")) metadata)
       (question_or_default question))
    ("https://www.youtube.com/watch?v=" +:+ video_id)
  = Ok (status_code, body, response_json) ->
  generated_text status_code body response_json = Ok answer ->
  exists w',
    ask_about_youtube_video youtube_url question w
    = (Ok (ToolResponse
             ("Answer to '" +:+ question_or_default question +:+ "':" +:+ nl +:+ nl
                +:+ py_str answer) false), w')
    /\ fs w' = fs w
    /\ new_calls w w'
       = [GeminiPost
            (question_prompt
               (context_parts (loaded_text (fs w) root (video_id +:+ ".json"))
                  (loaded_text (fs w) root (video_id +:+ "_transcript.txt")) metadata)
               (question_or_default question))
            ("https://www.youtube.com/watch?v=" +:+ video_id)].
Proof.
  intros Hid Hlocate Hmetadata Hpost Hanswer.
  enough (Hwp : wp (ask_about_youtube_video youtube_url question)
                  (fun r w' =>
                     r = Ok (ToolResponse
                               ("Answer to '" +:+ question_or_default question +:+ "':"
                                  +:+ nl +:+ nl +:+ py_str answer) false)
                     /\ fs w' = fs w
                     /\ new_calls w w'
                        = [GeminiPost
                             (question_prompt
                                (context_parts
                                   (loaded_text (fs w) root (video_id +:+ ".json"))
                                   (loaded_text (fs w) root (video_id +:+ "_transcript.txt"))
                                   metadata)
                                (question_or_default question))
                             ("https://www.youtube.com/watch?v=" +:+ video_id)]) w).
  { apply wp_exists in Hwp as (r & w' & Hrun & -> & Hrest).
    exists w'. split; [exact Hrun|exact Hrest]. }
  unfold loaded_text in *.
  destruct (file_content (fs w) root (video_id +:+ "_metadata.json")) as [md|] eqn:Hmd;
    destruct (file_content (fs w) root (video_id +:+ ".json")) as [sm|] eqn:Hsm;
    destruct (file_content (fs w) root (video_id +:+ "_transcript.txt")) as [tr|] eqn:Htr.
  all: cbn [default from_option id fmap option_fmap option_map] in *.
  all: try subst metadata.
  all: unfold ask_about_youtube_video; apply wp_try, wp_bind, wp_emit, wp_bind.
  all: (eapply wp_ensure_located; [exact Hid|cbn [fs]; exact Hlocate|]).
  all: cbn [fs log calls]; intros l; cbn [fst snd]; cbv zeta; unfold read_text.
  all: repeat (rewrite ?file_exists_content, ?Hmd, ?Hsm, ?Htr, ?Hmetadata, ?Hpost, ?Hanswer;
               cbn beta iota; wp_step).
  all: subst; (split; [reflexivity|]); (split; [reflexivity|]).
  all: new_calls_goal; reflexivity.
Qed.

(** What a stage leaves of the files that are not its own. *)
Lemma stage_post_other_files (w w' : world) (folder : list string) (own : string)
  (mine : call -> Prop) (d : list string) (m : string) :
  stage_post w folder own mine w' ->
  ~ (d = folder /\ m = own) ->
  file_content (fs w') d m = file_content (fs w) d m.
Proof.
  intros (_ & _ & _ & Hkeep & Hnew) Hother.
  destruct (file_content (fs w) d m) as [c|] eqn:Hbefore; [apply Hkeep; exact Hbefore|].
  apply file_exists_false. destruct (file_exists (fs w') d m) eqn:Hafter; [|reflexivity].
  destruct (Hnew d m Hafter) as [Hold|Hown]; [|contradiction].
  apply file_exists_false in Hbefore. congruence.
Qed.

(** X15.  On an item whose media file is on disk, the tools that download,
    extract key moments and answer questions write nothing, and only the
    last of them asks a collaborator, the generation collaborator, at most
    once; the tool that summarizes leaves every file but the summary file
    of the item as it was. *)
Theorem tools_on_located_item (youtube_url video_id : string) (question : option string)
  (root : list string) (w : world) :
  extract_video_id youtube_url = Ok video_id ->
  locate video_id (fs w) = Some root ->
  (fs (download_youtube_content youtube_url w).2 = fs w
   /\ List.filter is_collaborator
        (new_calls w (download_youtube_content youtube_url w).2) = [])
  /\ (fs (extract_key_moments youtube_url w).2 = fs w
      /\ List.filter is_collaborator
           (new_calls w (extract_key_moments youtube_url w).2) = [])
  /\ (fs (ask_about_youtube_video youtube_url question w).2 = fs w
      /\ (List.filter is_collaborator
            (new_calls w (ask_about_youtube_video youtube_url question w).2) = []
          \/ exists prompt video_url,
              List.filter is_collaborator
                (new_calls w (ask_about_youtube_video youtube_url question w).2)
              = [GeminiPost prompt video_url]))
  /\ (forall d m,
        ~ (d = root /\ m = video_id +:+ ".json") ->
        file_content (fs (summarize_youtube_video youtube_url w).2) d m
        = file_content (fs w) d m).
Proof.
  intros Hid Hlocate. split; [|split; [|split]].
  - change (wp (download_youtube_content youtube_url)
              (fun _ w' => fs w' = fs w
                           /\ List.filter is_collaborator (new_calls w w') = []) w).
    unfold download_youtube_content. repeat wp_step.
    2: eapply wp_ensure_located; [exact Hid|cbn [fs]; exact Hlocate|];
       cbn [fs log calls]; intros l; repeat wp_step.
    all: (split; [reflexivity|]); rewrite new_calls_same by reflexivity; reflexivity.
  - change (wp (extract_key_moments youtube_url)
              (fun _ w' => fs w' = fs w
                           /\ List.filter is_collaborator (new_calls w w') = []) w).
    unfold extract_key_moments. repeat wp_step.
    eapply wp_ensure_located; [exact Hid|cbn [fs]; exact Hlocate|].
    cbn [fs log calls]; intros l; cbn [fst snd]; cbv zeta; unfold read_text.
    repeat wp_step.
    all: (split; [reflexivity|]); rewrite new_calls_same by reflexivity; reflexivity.
  - change (wp (ask_about_youtube_video youtube_url question)
              (fun _ w' =>
                 fs w' = fs w
                 /\ (List.filter is_collaborator (new_calls w w') = []
                     \/ exists prompt video_url,
                         List.filter is_collaborator (new_calls w w')
                         = [GeminiPost prompt video_url])) w).
    unfold ask_about_youtube_video. repeat wp_step.
    eapply wp_ensure_located; [exact Hid|cbn [fs]; exact Hlocate|].
    cbn [fs log calls]; intros l; cbn [fst snd]; cbv zeta; unfold read_text.
    repeat wp_step.
    all: (split; [reflexivity|]).
    all: first [left; rewrite new_calls_same by reflexivity; reflexivity
               |right; eexists; eexists; new_calls_goal; reflexivity].
  - intros d m Hother.
    change (wp (summarize_youtube_video youtube_url)
              (fun _ w' => file_content (fs w') d m = file_content (fs w) d m) w).
    unfold summarize_youtube_video. repeat wp_step.
    eapply wp_ensure_located; [exact Hid|cbn [fs]; exact Hlocate|].
    cbn [fs log calls]; intros l; cbn [fst snd]; cbv zeta.
    repeat wp_step; try reflexivity.
    eapply wp_conseq; [apply generate_summary_spec|].
    intros r w' [Hpost _].
    apply (stage_post_other_files _ _ _ _ _ d m) in Hpost; [|exact Hother].
    cbn [fs] in Hpost.
    destruct r; repeat wp_step; exact Hpost.
Qed.

(** *** Key moments *)

Lemma concat_cons (x : string) (xs : list string) :
  String.concat "" (x :: xs) = x +:+ String.concat "" xs.
Proof.
  destruct xs as [|y ys]; cbn [String.concat].
  - rewrite append_nil_r. reflexivity.
  - reflexivity.
Qed.

Lemma concat_app (xs ys : list string) :
  String.concat "" (xs ++ ys) = String.concat "" xs +:+ String.concat "" ys.
Proof.
  induction xs as [|x xs IH]; [reflexivity|].
  cbn [app]. rewrite !concat_cons, IH.
  induction x as [|c x IHx]; [reflexivity|]. rewrite !append_cons, IHx. reflexivity.
Qed.

(** Joining the lines gives the text back. *)
Lemma concat_readlines (s : string) : String.concat "" (readlines s) = s.
Proof.
  induction s as [|c rest IH]; [reflexivity|]. cbn [readlines].
  destruct (Ascii.eqb c (Ascii.ascii_of_nat 10)).
  - rewrite concat_cons, IH. reflexivity.
  - destruct (readlines rest) as [|line lines].
    + cbn in IH. subst rest. reflexivity.
    + rewrite concat_cons in *. rewrite append_cons, IH. reflexivity.
Qed.

(** The test on the number of lines changes nothing. *)
Lemma key_lines_firstn (lines : list string) :
  (if Nat.leb 10 (length lines) then firstn 10 lines else lines) = firstn 10 lines.
Proof.
  destruct (Nat.leb 10 (length lines)) eqn:H; [reflexivity|].
  apply Nat.leb_gt in H. symmetry. apply firstn_all2. lia.
Qed.

(** X16.  Without a transcript file there are no key moments: on an item
    that is on disk and has no transcript, the tool logs a warning and
    answers with that warning as an error; it asks no collaborator for the
    transcript and writes nothing. *)
Theorem key_moments_need_transcript (youtube_url video_id : string)
  (root : list string) (w : world) :
  extract_video_id youtube_url = Ok video_id ->
  locate video_id (fs w) = Some root ->
  has_transcript (fs w) root video_id = false ->
  exists l,
    extract_key_moments youtube_url w
    = (Ok (ToolResponse
             ("⚠️ Transcript not available for video " +:+ video_id
                +:+ ". Cannot extract key moments.") true),
       World (fs w)
         (log w ++ l ++
            [LogRecord WARNING
               ("⚠️ Transcript not available for video " +:+ video_id
                  +:+ ". Cannot extract key moments.")])
         (calls w)).
Proof.
  intros Hid Hlocate Habsent. unfold has_transcript in Habsent.
  set (w0 := World (fs w)
               (log w ++ [LogRecord INFO ("🛠️ Tool `extract_key_moments` received: "
                                            +:+ youtube_url)]) (calls w)).
  destruct (ensure_video_content_located _ _ _ w0 Hid Hlocate) as (l & Hrun & _).
  unfold extract_key_moments, os_path_exists, logger_info, logger_warning, emit, get_fs,
    try_except, mbind, io_bind, bind, mret, io_ret, ret.
  cbn [fs log calls]. fold w0. rewrite Hrun. cbn [fs log calls fst snd w0].
  rewrite Habsent. cbn [negb fs log calls].
  eexists (_ :: l). rewrite <- !List.app_assoc. reflexivity.
Qed.

(** X17.  The key moments are the first ten lines of the transcript: on an
    item that is on disk with a transcript file, the tool answers with the
    text of the file, as read in text mode, cut after its tenth line, and
    with the whole text when it has ten lines or fewer.  Nothing is
    written. *)
Theorem key_moments_are_first_lines (youtube_url video_id : string)
  (root : list string) (w : world) (text : string) :
  extract_video_id youtube_url = Ok video_id ->
  locate video_id (fs w) = Some root ->
  file_content (fs w) root (video_id +:+ "_transcript.txt") = Some text ->
  exists w' key rest,
    extract_key_moments youtube_url w
    = (Ok (ToolResponse
             ("Key moments from video " +:+ video_id +:+ ":" +:+ nl +:+ nl +:+ key)
             false), w')
    /\ fs w' = fs w
    /\ key = String.concat "" (firstn 10 (readlines (universal_newlines text)))
    /\ key +:+ rest = universal_newlines text
    /\ (length (readlines (universal_newlines text)) <= 10 -> rest = "").
Proof.
  intros Hid Hlocate Htext.
  set (w0 := World (fs w)
               (log w ++ [LogRecord INFO ("🛠️ Tool `extract_key_moments` received: "
                                            +:+ youtube_url)]) (calls w)).
  destruct (ensure_video_content_located _ _ _ w0 Hid Hlocate) as (l & Hrun & _).
  eexists. exists (String.concat "" (firstn 10 (readlines (universal_newlines text)))).
  exists (String.concat "" (skipn 10 (readlines (universal_newlines text)))).
  split; [|split; [|split; [reflexivity|split]]].
  - unfold extract_key_moments, read_text, read_file, os_path_exists, logger_info, emit,
      get_fs, try_except, mbind, io_bind, bind, mret, io_ret, ret.
    cbn [fs log calls]. fold w0. rewrite Hrun. cbn [fs log calls fst snd w0].
    rewrite file_exists_content, Htext. cbn [negb fs log calls].
    rewrite Htext. cbn [fs log calls]. rewrite key_lines_firstn. reflexivity.
  - reflexivity.
  - rewrite <- concat_app, firstn_skipn. apply concat_readlines.
  - intros Hshort. rewrite skipn_all2 by exact Hshort. reflexivity.
Qed.

(** *** The transcript stage *)

(** X18.  The transcript stage swallows every error of the transcript
    collaborator, not only "no transcript": it returns [None] and writes no
    file, after one record that is a warning for [TranscriptsDisabled] and
    [NoTranscriptFound] and an error for anything else. *)
Theorem transcript_errors_are_swallowed (video_id : string) (folder : list string)
  (w : world) (e : exn) :
  has_transcript (fs w) folder video_id = false ->
  get_transcript video_id = Raise e ->
  exists w' text,
    download_transcript video_id folder w = (Ok None, w')
    /\ (forall d m, file_content (fs w') d m = file_content (fs w) d m)
    /\ log w' = log w ++
         [LogRecord INFO ("Downloading transcript for " +:+ video_id);
          LogRecord (transcript_error_level e) text]
    /\ List.filter is_collaborator (new_calls w w') = [GetTranscript video_id].
Proof.
  intros Habsent Hfail. unfold has_transcript in Habsent.
  enough (Hwp : wp (download_transcript video_id folder)
                  (fun r w' =>
                     r = Ok None
                     /\ (forall d m, file_content (fs w') d m = file_content (fs w) d m)
                     /\ (exists text,
                            log w' = log w ++
                              [LogRecord INFO ("Downloading transcript for " +:+ video_id);
                               LogRecord (transcript_error_level e) text])
                     /\ List.filter is_collaborator (new_calls w w')
                        = [GetTranscript video_id]) w).
  { apply wp_exists in Hwp as (r & w' & Hrun & -> & Hfiles & [text Hlog] & Hcalls).
    exists w', text. auto. }
  unfold download_transcript. repeat wp_step; fs_simpl; try congruence.
  all: match goal with
       | H : get_transcript _ = Raise (PyError ?cls ?text) |- _ =>
           assert (Hsame : e = PyError cls text) by congruence; rewrite Hsame
       | H : get_transcript _ = Raise (CalledProcessError ?a ?b ?c) |- _ =>
           assert (Hsame : e = CalledProcessError a b c) by congruence; rewrite Hsame
       | H : get_transcript _ = Raise (RequestException ?a ?b) |- _ =>
           assert (Hsame : e = RequestException a b) by congruence; rewrite Hsame
       end.
  all: cbn [transcript_error_level].
  all: (split; [reflexivity|]).
  all: (split; [intros d m; fs_simpl; reflexivity|]).
  all: (split; [eexists; rewrite <- !List.app_assoc; reflexivity|]).
  all: new_calls_goal; reflexivity.
Qed.

(** *** The order of the stages *)

Ltac entered_goal :=
  unfold entered; cbn [calls]; eexists;
  split; [rewrite <- ?List.app_assoc; reflexivity|reflexivity].

Lemma download_video_entered (video_id : string) (folder : list string) (w : world) :
  wp (download_video video_id folder)
     (fun _ w' => entered (DownloadVideo video_id folder) w w') w.
Proof. unfold download_video. repeat wp_step. all: entered_goal. Qed.

Lemma download_transcript_entered (video_id : string) (folder : list string) (w : world) :
  wp (download_transcript video_id folder)
     (fun _ w' => entered (DownloadTranscript video_id folder) w w') w.
Proof. unfold download_transcript. repeat wp_step. all: entered_goal. Qed.

Lemma fetch_metadata_entered (video_id : string) (folder : list string) (w : world) :
  wp (fetch_metadata video_id folder)
     (fun _ w' => entered (FetchMetadata video_id folder) w w') w.
Proof. unfold fetch_metadata. repeat wp_step. all: entered_goal. Qed.

Lemma generate_summary_entered (video_id : string) (folder : list string) (w : world) :
  wp (generate_summary video_id folder)
     (fun _ w' => entered (GenerateSummary video_id folder) w w') w.
Proof. unfold generate_summary. repeat wp_step. all: entered_goal. Qed.

Lemma entered_next (w0 w w' : world) (entry : call) (done : list call) :
  is_stage entry = true ->
  (exists t, calls w = calls w0 ++ t /\ List.filter is_stage t = done) ->
  entered entry w w' ->
  exists t, calls w' = calls w0 ++ t /\ List.filter is_stage t = done ++ [entry].
Proof.
  intros Hstage (t & Hcalls & Hdone) (t' & Hcalls' & Hnone).
  exists (t ++ entry :: t'). rewrite Hcalls', Hcalls, <- List.app_assoc.
  split; [reflexivity|].
  rewrite List.filter_app. cbn [List.filter]. rewrite Hstage, Hnone, Hdone. reflexivity.
Qed.

Lemma wp_and {A} (m : io A) (Q1 Q2 : result A -> world -> Prop) (w : world) :
  wp m Q1 w -> wp m Q2 w -> wp m (fun r w' => Q1 r w' /\ Q2 r w') w.
Proof. unfold wp. auto. Qed.

Ltac log_step := apply wp_bind, wp_emit; cbn beta iota; cbn [fs log calls].

(** X19.  The stages of a run are entered in the order download,
    transcript, metadata, summary, each at most once, and a stage is
    entered only when the one before it has returned.  A run that returns
    has entered none of them (the media file was found) or all four; a run
    that raises has stopped in the download, the metadata or the summary
    stage, never in the transcript stage. *)
Theorem stages_run_in_order (video_url video_id : string) (w : world) :
  extract_video_id video_url = Ok video_id ->
  exists n,
    List.filter is_stage (new_calls w (ensure_video_content video_url w).2)
    = firstn n (stage_order video_id)
    /\ (if is_ok (ensure_video_content video_url w).1 then n = 0 \/ n = 4
        else n = 1 \/ n = 3 \/ n = 4).
Proof using Type.
  intros Hid.
  enough (Hwp : wp (ensure_video_content video_url)
                  (fun r w' =>
                     exists n,
                       (exists t, calls w' = calls w ++ t
                                  /\ List.filter is_stage t = firstn n (stage_order video_id))
                       /\ (if is_ok r then n = 0 \/ n = 4 else n = 1 \/ n = 3 \/ n = 4)) w).
  { unfold wp in Hwp. destruct Hwp as (n & (t & Hcalls & Ht) & Hn).
    exists n. rewrite (new_calls_app _ _ _ Hcalls). auto. }
  assert (Hinv : exists t, calls w = calls w ++ t /\ List.filter is_stage t = [])
    by (exists []; rewrite List.app_nil_r; auto).
  unfold ensure_video_content, logger_info, logger_error.
  apply wp_try, wp_bind, wp_lift. rewrite Hid. cbn beta iota.
  log_step.
  unfold is_video_downloaded, logger_info. apply wp_bind, wp_bind, wp_get_fs.
  cbn beta iota; cbn [fs log calls].
  destruct (locate video_id (fs w)) as [root|]; cbn beta iota.
  { log_step. apply wp_ret. cbn beta iota. log_step. apply wp_ret.
    exists 0. split; [exact Hinv|left; reflexivity]. }
  apply wp_ret. cbn beta iota. cbv zeta. log_step.
  unfold os_makedirs. apply wp_bind, wp_bind, wp_get_fs. cbn beta iota.
  apply wp_set_fs. cbn beta iota. cbn [fs log calls]. log_step.
  (* download *)
  apply wp_bind. eapply wp_conseq; [apply download_video_entered|].
  intros r1 w1 Hentered. cbn [calls] in Hentered.
  apply (entered_next w _ _ (DownloadVideo video_id ["videos"; video_id]) _ eq_refl Hinv)
    in Hentered.
  clear Hinv. rename Hentered into Hinv. cbn [app] in Hinv.
  destruct r1 as [video_path|e];
    [|do 2 log_step; apply wp_raise; exists 1; split; [exact Hinv|cbn [is_ok]; auto]].
  do 2 log_step.
  (* transcript *)
  apply wp_bind.
  eapply wp_conseq;
    [apply wp_and; [apply download_transcript_entered|apply download_transcript_spec]|].
  intros r2 w2 [Hentered [_ Hok]]. cbn [calls] in Hentered.
  apply (entered_next w _ _ (DownloadTranscript video_id ["videos"; video_id]) _ eq_refl Hinv)
    in Hentered.
  clear Hinv. rename Hentered into Hinv. cbn [app] in Hinv.
  destruct r2 as [transcript_path|e]; [|discriminate].
  do 2 log_step.
  (* metadata *)
  apply wp_bind. eapply wp_conseq; [apply fetch_metadata_entered|].
  intros r3 w3 Hentered. cbn [calls] in Hentered.
  apply (entered_next w _ _ (FetchMetadata video_id ["videos"; video_id]) _ eq_refl Hinv)
    in Hentered.
  clear Hinv. rename Hentered into Hinv. cbn [app] in Hinv.
  destruct r3 as [metadata_path|e];
    [|do 2 log_step; apply wp_raise; exists 3; split; [exact Hinv|cbn [is_ok]; auto]].
  do 2 log_step.
  (* summary *)
  apply wp_bind. eapply wp_conseq; [apply generate_summary_entered|].
  intros r4 w4 Hentered. cbn [calls] in Hentered.
  apply (entered_next w _ _ (GenerateSummary video_id ["videos"; video_id]) _ eq_refl Hinv)
    in Hentered.
  clear Hinv. rename Hentered into Hinv. cbn [app] in Hinv.
  destruct r4 as [summary_path|e];
    [|do 2 log_step; apply wp_raise; exists 4; split; [exact Hinv|cbn [is_ok]; auto]].
  log_step. apply wp_ret. exists 4. split; [exact Hinv|cbn [is_ok]; auto].
Qed.

(** *** An empty URL *)

(** X20.  An empty URL is refused by every tool before anything happens:
    each of the four tools answers with an error, asks no collaborator and
    touches no file.  The download tool refuses it itself; the others get
    the refusal of [extract_video_id] through [ensure_video_content]. *)
Theorem empty_url_is_refused (question : option string) (w : world) :
  (exists text w',
      download_youtube_content "" w = (Ok (ToolResponse text true), w')
      /\ fs w' = fs w /\ calls w' = calls w)
  /\ (exists text w',
         summarize_youtube_video "" w = (Ok (ToolResponse text true), w')
         /\ fs w' = fs w /\ calls w' = calls w)
  /\ (exists text w',
         extract_key_moments "" w = (Ok (ToolResponse text true), w')
         /\ fs w' = fs w /\ calls w' = calls w)
  /\ (exists text w',
         ask_about_youtube_video "" question w = (Ok (ToolResponse text true), w')
         /\ fs w' = fs w /\ calls w' = calls w).
Proof using Type.
  split; [|split; [|split]].
  all: eexists; eexists; (split; [reflexivity|]); split; reflexivity.
Qed.

(** *** A transcript that is there *)

(** X21.  When the transcript collaborator answers, the transcript stage
    writes one line per entry, the time of the entry in brackets before its
    text, to the transcript file and returns its path; no other file
    changes. *)
Theorem transcript_is_written (video_id : string) (folder : list string) (w : world)
  (entries : list (Z * string)) :
  has_transcript (fs w) folder video_id = false ->
  get_transcript video_id = Ok entries ->
  exists w',
    download_transcript video_id folder w
    = (Ok (Some (file_path folder (video_id +:+ "_transcript.txt"))), w')
    /\ file_content (fs w') folder (video_id +:+ "_transcript.txt")
       = Some (String.concat ""
                 (map (fun entry => "[" +:+ utc_hms (fst entry) +:+ "] "
                                      +:+ snd entry +:+ nl) entries))
    /\ (forall d m, ~ (d = folder /\ m = video_id +:+ "_transcript.txt") ->
                    file_content (fs w') d m = file_content (fs w) d m).
Proof.
  intros Habsent Hanswer. unfold has_transcript in Habsent.
  enough (Hwp : wp (download_transcript video_id folder)
                  (fun r w' =>
                     r = Ok (Some (file_path folder (video_id +:+ "_transcript.txt")))
                     /\ wrote w w' folder (video_id +:+ "_transcript.txt")
                          (transcript_text entries)) w).
  { apply wp_exists in Hwp as (r & w' & Hrun & -> & Hfiles & _).
    exists w'. split; [exact Hrun|]. split.
    - rewrite Hfiles, decide_True by auto. reflexivity.
    - intros d m Hother. rewrite Hfiles, decide_False by exact Hother. reflexivity. }
  unfold download_transcript. repeat wp_step; fs_simpl; try congruence.
  - split; [reflexivity|].
    assert (a = entries) as -> by congruence. wrote_goal.
  - exfalso. eapply makedirs_folder. eassumption.
Qed.

End Repository.

(** * The code on concrete inputs *)

(** The library behaviour and the collaborators of the examples, with a
    downloader and a metadata endpoint to choose. *)
Abbreviation in_env F yt api :=
  (F simple_repr ascii_strip demo_loads demo_dumps demo_getitem demo_builtin_error
     demo_format_exc "output" "prompt.jinja" demo_join demo_walk demo_query true yt
     transcripts_disabled demo_hms api demo_template demo_render demo_gemini).

Abbreviation run_ensure yt api := (in_env ensure_video_content yt api).

(** The same for the summary stage, which has fewer collaborators. *)
Abbreviation summary_env F :=
  (F simple_repr demo_loads demo_dumps demo_getitem demo_builtin_error demo_format_exc
     "output" "prompt.jinja" demo_join demo_template demo_render demo_gemini).

Abbreviation run_summary := (summary_env generate_summary).

Abbreviation logger_env F := (F simple_repr ascii_strip demo_loads).

(** A client of a discovery whose tools are named by strings, with the
    default [max_retries=3] and [retry_delay=2.0]. *)
Abbreviation client_env F discovery := (F string string (fun delay : string => delay) discovery).

Abbreviation demo_client := (new_client string string "server.py" 3%Z "2.0").

(** [demo_walk] lists the directories of the tree, each with its files. *)
Lemma demo_walk_spec (f : filesystem) (root : list string) (files : gmap string string) :
  In (root, files) (demo_walk f) <-> f !! root = Some files.
Proof.
  unfold demo_walk. rewrite <- list_elem_of_In. apply elem_of_map_to_list.
Qed.

(** No summary in an empty [OUTPUT_DIR]. *)
Lemma demo_world_consistent : slots_consistent "abc" (fs demo_world).
Proof.
  intros folder. unfold has_summary, file_exists, demo_world. cbn [fs].
  destruct (decide (folder = [])) as [->|Hne].
  - rewrite lookup_insert_eq, lookup_empty. discriminate.
  - rewrite lookup_insert_ne, lookup_empty by congruence. discriminate.
Qed.

(** ** The idle second run (C1) *)

(** The first run of the example returns, and the second one does nothing. *)
Lemma second_run_is_idle_witness :
  run_ensure yt_ok api_ok demo_url demo_world
  = (Ok ("abc", ["videos"; "abc"]), (run_ensure yt_ok api_ok demo_url demo_world).2)
  /\ exists root w2,
      run_ensure yt_ok api_ok demo_url (run_ensure yt_ok api_ok demo_url demo_world).2
      = (Ok ("abc", root), w2)
      /\ new_calls (run_ensure yt_ok api_ok demo_url demo_world).2 w2 = []
      /\ fs w2 = fs (run_ensure yt_ok api_ok demo_url demo_world).2.
Proof.
  split; [vm_compute; reflexivity|].
  apply (in_env second_run_is_idle yt_ok api_ok demo_walk_spec
           demo_url "abc" ["videos"; "abc"] demo_world).
  vm_compute. reflexivity.
Defined.

(** C1 as stated fails when the download fails: the first run raises, and
    the second run, with nothing changed outside, asks the downloader
    again. *)
Lemma second_run_downloads_again :
  (run_ensure yt_fail api_ok demo_url demo_world).1
  = Raise (PyError RuntimeError
             "Failed to ensure video content: Failed to download video 'abc': ERROR: Video unavailable")
  /\ List.filter is_collaborator
       (new_calls (run_ensure yt_fail api_ok demo_url demo_world).2
          (run_ensure yt_fail api_ok demo_url
             (run_ensure yt_fail api_ok demo_url demo_world).2).2)
     = [YtDlp "abc" ["videos"; "abc"]].
Proof. split; vm_compute; reflexivity. Qed.

(** ** A run after a failed metadata fetch (C2) *)

(** The metadata endpoint is down: the first run asks each collaborator for
    a missing artifact only and enters the metadata stage; the second run
    returns and touches nothing. *)
Lemma rerun_after_metadata_stage_witness :
  extract_video_id demo_query demo_url = Ok "abc"
  /\ Forall (ensure_calls demo_world "abc")
       (new_calls demo_world (run_ensure yt_ok api_down demo_url demo_world).2)
  /\ (In (FetchMetadata "abc" ["videos"; "abc"])
        (new_calls demo_world (run_ensure yt_ok api_down demo_url demo_world).2) ->
      is_ok (run_ensure yt_ok api_down demo_url
               (run_ensure yt_ok api_down demo_url demo_world).2).1 = true
      /\ new_calls (run_ensure yt_ok api_down demo_url demo_world).2
           (run_ensure yt_ok api_down demo_url
              (run_ensure yt_ok api_down demo_url demo_world).2).2 = []
      /\ fs (run_ensure yt_ok api_down demo_url
               (run_ensure yt_ok api_down demo_url demo_world).2).2
         = fs (run_ensure yt_ok api_down demo_url demo_world).2).
Proof.
  split; [vm_compute; reflexivity|].
  apply (in_env rerun_after_metadata_stage yt_ok api_down demo_walk_spec
           demo_url "abc"
           (run_ensure yt_ok api_down demo_url demo_world).1
           (run_ensure yt_ok api_down demo_url
              (run_ensure yt_ok api_down demo_url demo_world).2).1
           demo_world
           (run_ensure yt_ok api_down demo_url demo_world).2
           (run_ensure yt_ok api_down demo_url
              (run_ensure yt_ok api_down demo_url demo_world).2).2).
  - vm_compute. reflexivity.
  - vm_compute. reflexivity.
  - vm_compute. reflexivity.
Defined.

(** C2 as stated fails when the metadata endpoint is down: the first run
    downloads the media and raises in the metadata stage; the second run
    returns without asking the metadata endpoint, and the metadata file is
    still missing. *)
Lemma metadata_fetch_is_not_retried :
  (run_ensure yt_ok api_down demo_url demo_world).1
  = Raise (PyError RuntimeError
             "Failed to ensure video content: Failed to fetch video metadata: 503 Server Error: Service Unavailable")
  /\ List.filter is_collaborator
       (new_calls demo_world (run_ensure yt_ok api_down demo_url demo_world).2)
     = [YtDlp "abc" ["videos"; "abc"]; GetTranscript "abc"; YouTubeApiGet "abc"]
  /\ has_media (fs (run_ensure yt_ok api_down demo_url demo_world).2)
       ["videos"; "abc"] "abc" = true
  /\ (run_ensure yt_ok api_down demo_url
        (run_ensure yt_ok api_down demo_url demo_world).2).1
     = Ok ("abc", ["videos"; "abc"])
  /\ new_calls (run_ensure yt_ok api_down demo_url demo_world).2
       (run_ensure yt_ok api_down demo_url
          (run_ensure yt_ok api_down demo_url demo_world).2).2 = []
  /\ has_metadata
       (fs (run_ensure yt_ok api_down demo_url
              (run_ensure yt_ok api_down demo_url demo_world).2).2)
       ["videos"; "abc"] "abc" = false.
Proof. repeat split; vm_compute; reflexivity. Qed.

(** ** The retrying connector (C3, C10) *)

(** Two failures, then the tools at the third attempt of three. *)
Lemma connect_retry_bound_witness :
  1 <= 3
  /\ (Z.of_nat 3 <= 3)%Z
  /\ (forall i, i < 3 - 1 -> exists e, flaky (0 + i) = Raise e)
  /\ exists added,
      client_env connect flaky demo_client []
      = (Ok (Some ["download_youtube_content"; "summarize_youtube_video"]),
         set_tools string string
           ["download_youtube_content"; "summarize_youtube_video"] demo_client,
         added)
      /\ List.filter is_io added = attempts_trace 3 "2.0"
      /\ discoveries added = 3.
Proof.
  assert (Hfail : forall i, i < 3 - 1 -> exists e, flaky (0 + i) = Raise e).
  { intros i Hi. destruct i as [|[|i]]; [eexists; reflexivity..|simpl in Hi; lia]. }
  split; [lia|]. split; [reflexivity|]. split; [exact Hfail|].
  apply (client_env connect_retry_bound flaky demo_client [] 3
           ltac:(lia) ltac:(reflexivity) Hfail (or_introl eq_refl)).
Defined.

(** A discovery that returns no tool: [connect] returns, [get_tools]
    raises. *)
Lemma get_tools_after_empty_connect_witness :
  (1 <= 3)%Z
  /\ no_tools 0 = Ok []
  /\ exists added,
      client_env connect no_tools demo_client []
      = (Ok (Some []), set_tools string string [] demo_client, [] ++ added)
      /\ get_tools string string (set_tools string string [] demo_client)
         = Raise (PyError RuntimeError
                    "Not connected to MCP server. Call connect() first.").
Proof.
  split; [lia|]. split; [reflexivity|].
  apply (client_env get_tools_after_empty_connect no_tools demo_client []);
    [simpl; lia|reflexivity].
Defined.

(** ** The event logger (C4, C9) *)

(** The same tool result twice: one line on the console, one in the log. *)
Lemma tool_results_deduplicated_witness :
  is_tool_result exec_x = true
  /\ logger_env log_event true exec_x (logger_env log_event true exec_x fresh_sink)
     = logger_env log_event true exec_x fresh_sink
  /\ logfile (logger_env log_events true [exec_x; exec_x] fresh_sink)
     = ["📡 ToolCallExecutionEvent(content='x')"]
  /\ console (logger_env log_events true [exec_x; exec_x] fresh_sink)
     = [nl +:+ "📡 ToolCallExecutionEvent(content='x')"].
Proof.
  split; [reflexivity|].
  destruct (logger_env tool_results_deduplicated true exec_x exec_x fresh_sink
              eq_refl eq_refl eq_refl) as (_ & _ & Hsame & Hlog & Hconsole).
  split; [exact Hsame|]. split; [exact Hlog|exact Hconsole].
Defined.

(** Stream 0 repeats a tool result while stream 1 chats in between: the
    repetition is suppressed, as it is without stream 1. *)
Lemma decisions_unaffected_witness :
  (forall owner ev,
      In (owner, ev) [(0, exec_x); (1, chat); (0, exec_x)] ->
      owner <> 0 -> is_tool_result ev = false)
  /\ logger_env decisions true 0 [(0, exec_x); (1, chat); (0, exec_x)] fresh_sink
     = logger_env decisions true 0
         (events_of 0 [(0, exec_x); (1, chat); (0, exec_x)]) fresh_sink.
Proof.
  assert (Hkinds : forall owner ev,
             In (owner, ev) [(0, exec_x); (1, chat); (0, exec_x)] ->
             owner <> 0 -> is_tool_result ev = false).
  { intros owner ev [H|[H|[H|[]]]] Hne; injection H as <- <-;
      first [reflexivity|contradiction]. }
  split; [exact Hkinds|].
  apply (logger_env decisions_unaffected_by_other_kinds true 0
           [(0, exec_x); (1, chat); (0, exec_x)] fresh_sink Hkinds).
Defined.

(** C9 as stated fails: a tool result of stream 1 between the two equal
    tool results of stream 0 makes the second one pass, while without
    stream 1 it is suppressed. *)
Lemma other_stream_changes_decisions :
  logger_env decisions true 0 [(0, exec_x); (1, exec_y); (0, exec_x)] fresh_sink
  = [false; false]
  /\ logger_env decisions true 0
       (events_of 0 [(0, exec_x); (1, exec_y); (0, exec_x)]) fresh_sink
     = [false; true].
Proof. split; vm_compute; reflexivity. Qed.

(** ** The stages (C6, C7, C8) *)

(** The answers of the metadata endpoint and of the generation
    collaborator in the examples. *)
Lemma demo_metadata_available :
  metadata_available simple_repr demo_getitem demo_builtin_error api_ok "abc" (JDict []).
Proof. eexists. split; reflexivity. Qed.

Lemma demo_summary_available :
  summary_available simple_repr demo_loads demo_dumps demo_getitem demo_builtin_error
    demo_template demo_render demo_gemini "abc" "{}" "A talk about proofs."
    "Summarise https://www.youtube.com/watch?v=abc".
Proof. do 5 eexists. repeat split; reflexivity. Qed.

(** A new item whose transcripts are disabled: the run returns with media,
    metadata and summary on disk, a warning in the log and no transcript. *)
Lemma transcript_unavailable_is_tolerated_witness :
  extract_video_id demo_query demo_url = Ok "abc"
  /\ locate demo_walk "abc" (fs demo_world) = None
  /\ transcript_unavailable transcripts_disabled "abc"
       "Subtitles are disabled for this video"
  /\ exists w',
      run_ensure yt_ok api_ok demo_url demo_world = (Ok ("abc", ["videos"; "abc"]), w')
      /\ In (LogRecord WARNING
               "No transcript available for abc: Subtitles are disabled for this video")
           (log w')
      /\ has_transcript (fs w') ["videos"; "abc"] "abc" = false
      /\ has_media (fs w') ["videos"; "abc"] "abc" = true
      /\ file_content (fs w') ["videos"; "abc"] "abc_metadata.json" = Some "{}"
      /\ file_content (fs w') ["videos"; "abc"] "abc.json" = Some "A talk about proofs.".
Proof.
  split; [vm_compute; reflexivity|]. split; [vm_compute; reflexivity|].
  split; [left; reflexivity|].
  apply (in_env transcript_unavailable_is_tolerated yt_ok api_ok demo_walk_spec
           demo_url "abc" demo_world "[download] 100%" "" "MKV"
           "Subtitles are disabled for this video" "A talk about proofs."
           "Summarise https://www.youtube.com/watch?v=abc" (JDict [])).
  - vm_compute. reflexivity.
  - vm_compute. reflexivity.
  - vm_compute. reflexivity.
  - reflexivity.
  - reflexivity.
  - left. reflexivity.
  - exact demo_metadata_available.
  - exact demo_summary_available.
Defined.

(** The summary stage on a folder that holds the metadata: the prose of the
    response is what the summary file contains. *)
Lemma summary_is_written_verbatim_witness :
  has_summary (fs metadata_only) ["videos"; "abc"] "abc" = false
  /\ file_content (fs metadata_only) ["videos"; "abc"] "abc_metadata.json" = Some "{}"
  /\ exists w' l,
      run_summary "abc" ["videos"; "abc"] metadata_only
      = (Ok "output/videos/abc/abc.json", w')
      /\ file_content (fs w') ["videos"; "abc"] "abc.json" = Some "A talk about proofs."
      /\ log w' = log metadata_only ++ l
      /\ Forall (fun r => lvl r = INFO) l.
Proof.
  split; [vm_compute; reflexivity|]. split; [vm_compute; reflexivity|].
  apply (summary_env summary_is_written_verbatim "abc" ["videos"; "abc"] metadata_only
           "{}" "A talk about proofs." "Summarise https://www.youtube.com/watch?v=abc"
           demo_summary_available).
  - vm_compute. reflexivity.
  - vm_compute. reflexivity.
Defined.

(** C7 as stated fails: the text of the response is not structured data,
    the stage returns and writes it, and the log holds no warning. *)
Lemma raw_summary_without_warning :
  is_ok (demo_loads "A talk about proofs.") = false
  /\ (run_summary "abc" ["videos"; "abc"] metadata_only).1
     = Ok "output/videos/abc/abc.json"
  /\ file_content (fs (run_summary "abc" ["videos"; "abc"] metadata_only).2)
       ["videos"; "abc"] "abc.json" = Some "A talk about proofs."
  /\ map lvl (log (run_summary "abc" ["videos"; "abc"] metadata_only).2) = [INFO; INFO].
Proof. repeat split; vm_compute; reflexivity. Qed.

(** The three operations from an empty [OUTPUT_DIR]. *)
Lemma slots_stay_consistent_witness :
  extract_video_id demo_query demo_url = Ok "abc"
  /\ slots_consistent "abc" (fs demo_world)
  /\ slots_consistent "abc" (fs (run_ensure yt_ok api_ok demo_url demo_world).2)
  /\ slots_consistent "abc"
       (fs (in_env download_youtube_content yt_ok api_ok demo_url demo_world).2)
  /\ slots_consistent "abc"
       (fs (in_env summarize_youtube_video yt_ok api_ok demo_url demo_world).2)
  /\ (forall folder,
        has_summary (fs (run_summary "abc" folder demo_world).2) folder "abc" = true ->
        has_summary (fs demo_world) folder "abc" = true
        \/ has_metadata (fs demo_world) folder "abc" = true).
Proof.
  split; [vm_compute; reflexivity|]. split; [exact demo_world_consistent|].
  apply (in_env slots_stay_consistent yt_ok api_ok demo_walk_spec
           demo_url "abc" demo_world).
  - vm_compute. reflexivity.
  - exact demo_world_consistent.
Defined.

(** ** Further properties on concrete inputs *)

(** A repeated tool result with a chat message in between, and with
    another tool result in between. *)
Lemma dedup_is_against_latest_witness :
  is_tool_result exec_x = true
  /\ is_tool_result chat = false
  /\ logger_env extract_clean exec_y <> logger_env extract_clean exec_x
  /\ logger_env log_events true [exec_x; chat; exec_x] fresh_sink
     = logger_env log_events true [exec_x; chat] fresh_sink
  /\ logger_env suppressed exec_x
       (logger_env log_events true [exec_x; chat; exec_y] fresh_sink) = false.
Proof.
  assert (Hother : logger_env extract_clean exec_y <> logger_env extract_clean exec_x)
    by (vm_compute; discriminate).
  assert (Hmid : Forall (fun e => is_tool_result e = false) [chat])
    by (apply List.Forall_cons; [reflexivity|apply List.Forall_nil]).
  split; [reflexivity|]. split; [reflexivity|]. split; [exact Hother|].
  apply (logger_env dedup_is_against_latest_tool_result true exec_x exec_x exec_y
           [chat] fresh_sink eq_refl eq_refl eq_refl Hmid eq_refl Hother).
Defined.

(** A client told to make no attempt. *)
Lemma connect_without_attempts_witness :
  client_env connect flaky (new_client string string "server.py" 0%Z "2.0") []
  = (Ok None, new_client string string "server.py" 0%Z "2.0", []).
Proof.
  apply (client_env connect_without_attempts flaky
           (new_client string string "server.py" 0%Z "2.0") []).
  simpl. lia.
Defined.

(** The short URL of the examples, bare and with a start time. *)
Lemma extract_video_id_short_url_witness :
  extract_video_id demo_query ("https://youtu.be/" +:+ "abc" +:+ "") = Ok "abc"
  /\ extract_video_id demo_query ("https://youtu.be/" +:+ "abc" +:+ "?" +:+ "t=10")
     = Ok "abc".
Proof.
  split.
  - apply (extract_video_id_short_url demo_query "abc" ""); [reflexivity|reflexivity|].
    left. reflexivity.
  - apply (extract_video_id_short_url demo_query "abc" ("?" +:+ "t=10"));
      [reflexivity|reflexivity|].
    right. exists "t=10". reflexivity.
Defined.

(** No [yt-dlp], with the media file already in the folder. *)
Lemma download_video_needs_yt_dlp_witness :
  has_media (fs media_only) ["videos"; "abc"] "abc" = true
  /\ download_video ascii_strip "output" demo_join false yt_ok "abc" ["videos"; "abc"]
       media_only
     = (Raise (PyError RuntimeError "yt-dlp is not installed or not available in PATH"),
        World (fs media_only)
          [LogRecord ERROR "yt-dlp not found. Please install it with: pip install yt-dlp"]
          [DownloadVideo "abc" ["videos"; "abc"]; YtDlpVersion]).
Proof.
  split; [vm_compute; reflexivity|].
  apply (download_video_needs_yt_dlp ascii_strip "output" demo_join false yt_ok
           "abc" ["videos"; "abc"] media_only eq_refl).
Defined.

(** The downloader of the examples that fails. *)
Lemma download_failure_is_reported_witness :
  has_media (fs demo_world) ["videos"; "abc"] "abc" = false
  /\ exists w' l,
      download_video ascii_strip "output" demo_join true yt_fail "abc" ["videos"; "abc"]
        demo_world
      = (Raise (PyError RuntimeError
                  ("Failed to download video '" +:+ "abc" +:+ "': "
                     +:+ ascii_strip "ERROR: Video unavailable")), w')
      /\ fs w' = makedirs ["videos"; "abc"] (fs demo_world)
      /\ has_media (fs w') ["videos"; "abc"] "abc" = false
      /\ List.filter is_collaborator (new_calls demo_world w')
         = [YtDlp "abc" ["videos"; "abc"]]
      /\ log w' = log demo_world ++ l ++
           [LogRecord ERROR ("❌ yt-dlp failed for " +:+ "abc" +:+ ": "
                               +:+ "Command returned non-zero exit status 1.");
            LogRecord ERROR ("❌ yt-dlp stderr: " +:+ "ERROR: Video unavailable");
            LogRecord ERROR ("❌ yt-dlp stdout: " +:+ "")].
Proof.
  split; [vm_compute; reflexivity|].
  apply (download_failure_is_reported ascii_strip "output" demo_join true yt_fail
           "abc" ["videos"; "abc"] demo_world
           "Command returned non-zero exit status 1." "" "ERROR: Video unavailable");
    [reflexivity|vm_compute; reflexivity|reflexivity].
Defined.

(** The metadata endpoint of the examples that is down. *)
Lemma fetch_metadata_failure_witness :
  fetch_metadata simple_repr demo_dumps demo_getitem demo_builtin_error "output" demo_join
    api_down "abc" ["videos"; "abc"] demo_world
  = (Raise (PyError RuntimeError
              "Failed to fetch video metadata: 503 Server Error: Service Unavailable"),
     (fetch_metadata simple_repr demo_dumps demo_getitem demo_builtin_error "output"
        demo_join api_down "abc" ["videos"; "abc"] demo_world).2)
  /\ has_metadata
       (fs (fetch_metadata simple_repr demo_dumps demo_getitem demo_builtin_error "output"
              demo_join api_down "abc" ["videos"; "abc"] demo_world).2)
       ["videos"; "abc"] "abc" = false.
Proof.
  assert (Hrun :
    fetch_metadata simple_repr demo_dumps demo_getitem demo_builtin_error "output" demo_join
      api_down "abc" ["videos"; "abc"] demo_world
    = (Raise (PyError RuntimeError
                "Failed to fetch video metadata: 503 Server Error: Service Unavailable"),
       (fetch_metadata simple_repr demo_dumps demo_getitem demo_builtin_error "output"
          demo_join api_down "abc" ["videos"; "abc"] demo_world).2))
    by (vm_compute; reflexivity).
  split; [exact Hrun|].
  apply (fetch_metadata_failure simple_repr demo_dumps demo_getitem demo_builtin_error
           "output" demo_join api_down "abc" ["videos"; "abc"] demo_world _ _ Hrun).
Defined.

(** The summary stage on a folder without metadata. *)
Lemma generate_summary_failure_witness :
  run_summary "abc" ["videos"; "abc"] demo_world
  = (Raise (PyError RuntimeError
              "Failed to generate summary: [Errno 2] No such file or directory: 'output/videos/abc/abc_metadata.json'"),
     (run_summary "abc" ["videos"; "abc"] demo_world).2)
  /\ (file_content (fs (run_summary "abc" ["videos"; "abc"] demo_world).2)
        ["videos"; "abc"] "abc.json" = None
      \/ file_content (fs (run_summary "abc" ["videos"; "abc"] demo_world).2)
           ["videos"; "abc"] "abc.json" = Some "").
Proof.
  assert (Hrun :
    run_summary "abc" ["videos"; "abc"] demo_world
    = (Raise (PyError RuntimeError
                "Failed to generate summary: [Errno 2] No such file or directory: 'output/videos/abc/abc_metadata.json'"),
       (run_summary "abc" ["videos"; "abc"] demo_world).2))
    by (vm_compute; reflexivity).
  split; [exact Hrun|].
  apply (summary_env generate_summary_failure "abc" ["videos"; "abc"] demo_world _ _ Hrun).
Defined.

(** A response whose text is [null], on a folder that holds the metadata. *)
Lemma failed_write_leaves_empty_summary_witness :
  has_summary (fs metadata_only) ["videos"; "abc"] "abc" = false
  /\ exists w',
      generate_summary simple_repr demo_loads demo_dumps demo_getitem demo_builtin_error
        demo_format_exc "output" "prompt.jinja" demo_join demo_template demo_render
        gemini_null "abc" ["videos"; "abc"] metadata_only
      = (Raise (PyError RuntimeError
                  ("Failed to generate summary: "
                     +:+ exn_str (demo_builtin_error "write" JNull))), w')
      /\ file_content (fs w') ["videos"; "abc"] "abc.json" = Some ""
      /\ generate_summary simple_repr demo_loads demo_dumps demo_getitem demo_builtin_error
           demo_format_exc "output" "prompt.jinja" demo_join demo_template demo_render
           gemini_null "abc" ["videos"; "abc"] w'
         = (Ok (file_path "output" demo_join ["videos"; "abc"] ("abc" +:+ ".json")),
            World (fs w')
              (log w' ++ [LogRecord INFO
                            ("Summary already exists at "
                               +:+ file_path "output" demo_join ["videos"; "abc"]
                                     ("abc" +:+ ".json"))])
              (calls w' ++ [GenerateSummary "abc" ["videos"; "abc"]])).
Proof.
  split; [vm_compute; reflexivity|].
  apply (failed_write_leaves_empty_summary simple_repr demo_loads demo_dumps demo_getitem
           demo_builtin_error demo_format_exc "output" "prompt.jinja" demo_join
           demo_template demo_render gemini_null "abc" ["videos"; "abc"] metadata_only
           "{}" "Summarise {{ video_url }}" "Summarise https://www.youtube.com/watch?v=abc"
           "" (JDict []) JNull 200%Z
           (JDict [("candidates",
                    JList [JDict [("content",
                                   JDict [("parts",
                                           JList [JDict [("text", JNull)]])])]])])).
  - vm_compute. reflexivity.
  - vm_compute. reflexivity.
  - reflexivity.
  - reflexivity.
  - reflexivity.
  - reflexivity.
  - reflexivity.
  - intros s. discriminate.
Defined.

(** A run whose download fails. *)
Lemma ensure_video_content_failure_witness :
  run_ensure yt_fail api_ok demo_url demo_world
  = (Raise (PyError RuntimeError
              "Failed to ensure video content: Failed to download video 'abc': ERROR: Video unavailable"),
     (run_ensure yt_fail api_ok demo_url demo_world).2)
  /\ exists inner l,
      PyError RuntimeError
        "Failed to ensure video content: Failed to download video 'abc': ERROR: Video unavailable"
      = PyError RuntimeError ("Failed to ensure video content: " +:+ exn_str inner)
      /\ log (run_ensure yt_fail api_ok demo_url demo_world).2 = l ++
           [LogRecord ERROR ("❌ Exception in `ensure_video_content` for video URL "
                               +:+ demo_url +:+ ": " +:+ exn_str inner);
            LogRecord ERROR ("Traceback:" +:+ nl +:+ demo_format_exc inner)].
Proof.
  assert (Hrun :
    run_ensure yt_fail api_ok demo_url demo_world
    = (Raise (PyError RuntimeError
                "Failed to ensure video content: Failed to download video 'abc': ERROR: Video unavailable"),
       (run_ensure yt_fail api_ok demo_url demo_world).2))
    by (vm_compute; reflexivity).
  split; [exact Hrun|].
  apply (in_env ensure_video_content_failure yt_fail api_ok demo_url demo_world _ _ Hrun).
Defined.

(** The item on disk with its media file only. *)
Lemma summarize_fails_without_metadata_witness :
  locate demo_walk "abc" (fs media_only) = Some ["videos"; "abc"]
  /\ has_metadata (fs media_only) ["videos"; "abc"] "abc" = false
  /\ exists response w',
      in_env summarize_youtube_video yt_ok api_ok demo_url media_only = (Ok response, w')
      /\ isError response = true
      /\ fs w' = fs media_only
      /\ List.filter is_collaborator (new_calls media_only w') = [].
Proof.
  split; [vm_compute; reflexivity|]. split; [vm_compute; reflexivity|].
  apply (in_env summarize_fails_without_metadata yt_ok api_ok demo_walk_spec
           demo_url "abc" ["videos"; "abc"] media_only).
  - vm_compute. reflexivity.
  - vm_compute. reflexivity.
  - vm_compute. reflexivity.
  - vm_compute. reflexivity.
Defined.

(** A question without text about the same item: the default question is
    asked, with an empty context. *)
Lemma ask_about_located_item_witness :
  question_or_default None = "What is this video about?"
  /\ exists w',
      in_env ask_about_youtube_video yt_ok api_ok demo_url None media_only
      = (Ok (ToolResponse
               ("Answer to '" +:+ question_or_default None +:+ "':" +:+ nl +:+ nl
                  +:+ py_str simple_repr (JStr "A talk about proofs.")) false), w')
      /\ fs w' = fs media_only
      /\ new_calls media_only w'
         = [GeminiPost
              (question_prompt
                 (context_parts demo_dumps
                    (loaded_text (fs media_only) ["videos"; "abc"] ("abc" +:+ ".json"))
                    (loaded_text (fs media_only) ["videos"; "abc"]
                       ("abc" +:+ "_transcript.txt")) (JDict []))
                 (question_or_default None))
              ("https://www.youtube.com/watch?v=" +:+ "abc")].
Proof.
  split; [reflexivity|].
  apply (in_env ask_about_located_item yt_ok api_ok demo_walk_spec
           demo_url "abc" None ["videos"; "abc"] media_only (JDict []) 200%Z ""
           (JDict [("candidates",
                    JList [JDict [("content",
                                   JDict [("parts",
                                           JList [JDict [("text",
                                                          JStr "A talk about proofs.")]])])]])])
           (JStr "A talk about proofs.")).
  - vm_compute. reflexivity.
  - vm_compute. reflexivity.
  - vm_compute. reflexivity.
  - reflexivity.
  - reflexivity.
Defined.

(** The four tools on the same item. *)
Lemma tools_on_located_item_witness :
  locate demo_walk "abc" (fs media_only) = Some ["videos"; "abc"]
  /\ fs (in_env download_youtube_content yt_ok api_ok demo_url media_only).2
     = fs media_only
  /\ fs (in_env extract_key_moments yt_ok api_ok demo_url media_only).2 = fs media_only
  /\ fs (in_env ask_about_youtube_video yt_ok api_ok demo_url None media_only).2
     = fs media_only.
Proof.
  split; [vm_compute; reflexivity|].
  destruct (in_env tools_on_located_item yt_ok api_ok demo_walk_spec
              demo_url "abc" None ["videos"; "abc"] media_only)
    as ([Hdownload _] & [Hmoments _] & [Hask _] & _).
  - vm_compute. reflexivity.
  - vm_compute. reflexivity.
  - split; [exact Hdownload|]. split; [exact Hmoments|exact Hask].
Defined.

(** Key moments of the item without a transcript. *)
Lemma key_moments_need_transcript_witness :
  has_transcript (fs media_only) ["videos"; "abc"] "abc" = false
  /\ exists l,
      in_env extract_key_moments yt_ok api_ok demo_url media_only
      = (Ok (ToolResponse
               ("⚠️ Transcript not available for video " +:+ "abc"
                  +:+ ". Cannot extract key moments.") true),
         World (fs media_only)
           (log media_only ++ l ++
              [LogRecord WARNING
                 ("⚠️ Transcript not available for video " +:+ "abc"
                    +:+ ". Cannot extract key moments.")])
           (calls media_only)).
Proof.
  split; [vm_compute; reflexivity|].
  apply (in_env key_moments_need_transcript yt_ok api_ok demo_walk_spec
           demo_url "abc" ["videos"; "abc"] media_only).
  - vm_compute. reflexivity.
  - vm_compute. reflexivity.
  - vm_compute. reflexivity.
Defined.

(** Key moments of a transcript of eleven lines: the first ten. *)
Lemma key_moments_are_first_lines_witness :
  file_content (fs with_transcript) ["videos"; "abc"] ("abc" +:+ "_transcript.txt")
  = Some eleven_lines
  /\ length (readlines (universal_newlines eleven_lines)) = 11
  /\ exists w' key rest,
      in_env extract_key_moments yt_ok api_ok demo_url with_transcript
      = (Ok (ToolResponse
               ("Key moments from video " +:+ "abc" +:+ ":" +:+ nl +:+ nl +:+ key)
               false), w')
      /\ fs w' = fs with_transcript
      /\ key = String.concat "" (firstn 10 (readlines (universal_newlines eleven_lines)))
      /\ key +:+ rest = universal_newlines eleven_lines
      /\ (length (readlines (universal_newlines eleven_lines)) <= 10 -> rest = "").
Proof.
  split; [vm_compute; reflexivity|]. split; [vm_compute; reflexivity|].
  apply (in_env key_moments_are_first_lines yt_ok api_ok demo_walk_spec
           demo_url "abc" ["videos"; "abc"] with_transcript eleven_lines).
  - vm_compute. reflexivity.
  - vm_compute. reflexivity.
  - vm_compute. reflexivity.
Defined.

(** Transcripts disabled, and a transcript service that cannot be
    reached. *)
Lemma transcript_errors_are_swallowed_witness :
  transcript_error_level (PyError OtherError "Connection reset by peer") = ERROR
  /\ exists w' text,
      download_transcript simple_repr "output" demo_join
        (fun _ => Raise (PyError OtherError "Connection reset by peer")) demo_hms
        "abc" ["videos"; "abc"] demo_world
      = (Ok None, w')
      /\ (forall d m, file_content (fs w') d m = file_content (fs demo_world) d m)
      /\ log w' = log demo_world ++
           [LogRecord INFO ("Downloading transcript for " +:+ "abc");
            LogRecord (transcript_error_level (PyError OtherError "Connection reset by peer"))
              text]
      /\ List.filter is_collaborator (new_calls demo_world w') = [GetTranscript "abc"].
Proof.
  split; [reflexivity|].
  apply (transcript_errors_are_swallowed simple_repr "output" demo_join
           (fun _ => Raise (PyError OtherError "Connection reset by peer")) demo_hms
           "abc" ["videos"; "abc"] demo_world
           (PyError OtherError "Connection reset by peer")).
  - vm_compute. reflexivity.
  - reflexivity.
Defined.

(** A run that stops in the metadata stage has entered three stages. *)
Lemma stages_run_in_order_witness :
  extract_video_id demo_query demo_url = Ok "abc"
  /\ is_ok (run_ensure yt_ok api_down demo_url demo_world).1 = false
  /\ exists n,
      List.filter is_stage
        (new_calls demo_world (run_ensure yt_ok api_down demo_url demo_world).2)
      = firstn n (stage_order "abc")
      /\ (if is_ok (run_ensure yt_ok api_down demo_url demo_world).1
          then n = 0 \/ n = 4 else n = 1 \/ n = 3 \/ n = 4).
Proof.
  split; [vm_compute; reflexivity|]. split; [vm_compute; reflexivity|].
  apply (in_env stages_run_in_order yt_ok api_down demo_url "abc" demo_world).
  vm_compute. reflexivity.
Defined.

(** A transcript of two entries. *)
Lemma transcript_is_written_witness :
  has_transcript (fs demo_world) ["videos"; "abc"] "abc" = false
  /\ exists w',
      download_transcript simple_repr "output" demo_join
        (fun _ => Ok [(0%Z, "hello"); (5%Z, "world")]) demo_hms
        "abc" ["videos"; "abc"] demo_world
      = (Ok (Some (file_path "output" demo_join ["videos"; "abc"]
                     ("abc" +:+ "_transcript.txt"))), w')
      /\ file_content (fs w') ["videos"; "abc"] ("abc" +:+ "_transcript.txt")
         = Some (String.concat ""
                   (map (fun entry => "[" +:+ demo_hms (fst entry) +:+ "] "
                                        +:+ snd entry +:+ nl)
                      [(0%Z, "hello"); (5%Z, "world")]))
      /\ (forall d m, ~ (d = ["videos"; "abc"] /\ m = "abc" +:+ "_transcript.txt") ->
                      file_content (fs w') d m = file_content (fs demo_world) d m).
Proof.
  split; [vm_compute; reflexivity|].
  apply (transcript_is_written simple_repr "output" demo_join
           (fun _ => Ok [(0%Z, "hello"); (5%Z, "world")]) demo_hms
           "abc" ["videos"; "abc"] demo_world [(0%Z, "hello"); (5%Z, "world")]).
  - vm_compute. reflexivity.
  - reflexivity.
Defined.
